(** * Shetka API: the signed-payload verifier, the order store and the two
    request handlers of [api.py], embedded as executable functions.

    Python values are modelled as the interpreter has them: a [str] is a
    sequence of Unicode code points, [bytes] a sequence of octets, a raised
    exception an [exn] carried by the [result] monad.  The library calls the
    module makes ([urllib.parse.parse_qsl], [hmac], [hashlib.sha256],
    [json.loads], [json.dumps], [str.strip], [int]) are embedded next to the
    handlers, so that every handler can be run on a concrete request. *)

From Stdlib Require Import NArith ZArith List String Ascii Bool Lia.
From Stdlib Require Import SpecFloat.
From stdpp Require Import base option list sorting countable gmap.

Local Open Scope N_scope.

(** ** Python strings, bytes and exceptions *)

(** A [str]: the sequence of its code points. *)
Abbreviation pystr := (list N).

(** A [bytes] object: the sequence of its octets. *)
Abbreviation pybytes := (list N) (only parsing).

(** A literal of the source, read as Latin-1 (all literals are ASCII). *)
Definition py (s : string) : pystr :=
  List.map N_of_ascii (list_ascii_of_string s).

(** The exceptions that can leave the code under study. [HTTPException] is
    the only one the framework turns into the response it names; any other
    one is an unhandled error of the handler. *)
Inductive exn : Type :=
| HTTPException (status_code : Z) (detail : string)
| RuntimeError (msg : string)
| KeyError
| TypeError
| ValueError
| OverflowError
| AttributeError
| UnicodeEncodeError
| JSONDecodeError
| RecursionError
| DataError.

Inductive result (A : Type) : Type :=
| Ok (a : A)
| Raise (e : exn).
Arguments Ok {A} a.
Arguments Raise {A} e.

Definition bind {A B : Type} (r : result A) (k : A -> result B) : result B :=
  match r with
  | Ok a => k a
  | Raise e => Raise e
  end.

Notation "'let*' x ':=' r 'in' k" := (bind r (fun x => k))
  (at level 10, x name, r at level 100, k at level 200).

(** [try: ... except Exception: raise e]. *)
Definition except_raise {A : Type} (r : result A) (e : exn) : result A :=
  match r with
  | Ok a => Ok a
  | Raise _ => Raise e
  end.

(** The status line the framework answers with when [e] leaves a handler:
    an [HTTPException] carries its own, anything else is a server error. *)
Definition http_status (e : exn) : Z :=
  match e with
  | HTTPException code _ => code
  | _ => 500%Z
  end.

(** ** [str] methods *)

(** [Py_UNICODE_ISSPACE]: the characters [str.strip()] removes. *)
Definition isspace (c : N) : bool :=
  ((9 <=? c) && (c <=? 13)) || ((28 <=? c) && (c <=? 32))
  || (c =? 133) || (c =? 160) || (c =? 5760)
  || ((8192 <=? c) && (c <=? 8202))
  || (c =? 8232) || (c =? 8233) || (c =? 8239) || (c =? 8287) || (c =? 12288).

Fixpoint lstrip (s : pystr) : pystr :=
  match s with
  | c :: s' => if isspace c then lstrip s' else s
  | [] => []
  end.

Definition rstrip (s : pystr) : pystr := rev (lstrip (rev s)).

(** [s.strip()] *)
Definition strip (s : pystr) : pystr := rstrip (lstrip s).

(** [bool(s)] for a [str], as [if s] and [not s] test it. *)
Definition nonempty (s : pystr) : bool := negb (Nat.eqb (length s) 0).

(** [sep.join(parts)] *)
Fixpoint join (sep : pystr) (parts : list pystr) : pystr :=
  match parts with
  | [] => []
  | [p] => p
  | p :: rest => p ++ sep ++ join sep rest
  end.

(** [s.replace(old, new)] for a one-character [old]. *)
Definition replace_char (old : N) (new : pystr) (s : pystr) : pystr :=
  flat_map (fun c => if c =? old then new else [c]) s.

(** [s.split(sep)] for a one-character [sep]: always at least one field. *)
Fixpoint split_char (sep : N) (s : pystr) : list pystr :=
  match s with
  | [] => [[]]
  | c :: s' =>
      if c =? sep then [] :: split_char sep s'
      else match split_char sep s' with
           | f :: fs => (c :: f) :: fs
           | [] => [[c]]
           end
  end.

(** [s.split(sep, 1)]: the text before the first [sep], and the text after
    it when there is one. *)
Fixpoint split_once (sep : N) (s : pystr) : pystr * option pystr :=
  match s with
  | [] => ([], None)
  | c :: s' =>
      if c =? sep then ([], Some s')
      else let '(a, b) := split_once sep s' in (c :: a, b)
  end.

(** [a <= b] on [str]: code point by code point, a prefix first. *)
Fixpoint str_leb (a b : pystr) : bool :=
  match a, b with
  | [], _ => true
  | _ :: _, [] => false
  | x :: a', y :: b' => (x <? y) || ((x =? y) && str_leb a' b')
  end.

Definition str_le (a b : pystr) : Prop := str_leb a b = true.

#[global] Instance str_le_dec (a b : pystr) : Decision (str_le a b).
Proof. unfold str_le. apply _. Defined.

(** [sorted(keys)] *)
Definition sorted (keys : list pystr) : list pystr := merge_sort str_le keys.

(** ** UTF-8 *)

Definition is_surrogate (c : N) : bool := (55296 <=? c) && (c <=? 57343).

(** [chr(c).encode()]: lone surrogates have no encoding. *)
Definition utf8_encode_char (c : N) : option pybytes :=
  if c <? 128 then Some [c]
  else if c <? 2048 then Some [192 + c / 64; 128 + c mod 64]
  else if is_surrogate c then None
  else if c <? 65536 then
    Some [224 + c / 4096; 128 + (c / 64) mod 64; 128 + c mod 64]
  else if c <? 1114112 then
    Some [240 + c / 262144; 128 + (c / 4096) mod 64;
          128 + (c / 64) mod 64; 128 + c mod 64]
  else None.

(** [s.encode()] *)
Fixpoint encode (s : pystr) : result pybytes :=
  match s with
  | [] => Ok []
  | c :: s' =>
      match utf8_encode_char c with
      | Some bs => let* rest := encode s' in Ok (bs ++ rest)
      | None => Raise UnicodeEncodeError
      end
  end.

Definition is_cont (b : N) : bool := (128 <=? b) && (b <=? 191).

(** [bs.decode('utf-8', 'replace')]: every maximal ill-formed prefix of a
    sequence becomes one U+FFFD. [fuel] bounds the number of steps by the
    number of bytes. *)
Fixpoint decode_replace_aux (fuel : nat) (bs : pybytes) : pystr :=
  match fuel with
  | O => []
  | S fuel' =>
      match bs with
      | [] => []
      | b0 :: r0 =>
          if b0 <? 128 then b0 :: decode_replace_aux fuel' r0
          else if (194 <=? b0) && (b0 <=? 223) then
            match r0 with
            | b1 :: r1 =>
                if is_cont b1
                then ((b0 - 192) * 64 + (b1 - 128)) :: decode_replace_aux fuel' r1
                else 65533 :: decode_replace_aux fuel' r0
            | [] => [65533]
            end
          else if (224 <=? b0) && (b0 <=? 239) then
            let lo := if b0 =? 224 then 160 else 128 in
            let hi := if b0 =? 237 then 159 else 191 in
            match r0 with
            | b1 :: r1 =>
                if (lo <=? b1) && (b1 <=? hi) then
                  match r1 with
                  | b2 :: r2 =>
                      if is_cont b2
                      then ((b0 - 224) * 4096 + (b1 - 128) * 64 + (b2 - 128))
                             :: decode_replace_aux fuel' r2
                      else 65533 :: decode_replace_aux fuel' r1
                  | [] => [65533]
                  end
                else 65533 :: decode_replace_aux fuel' r0
            | [] => [65533]
            end
          else if (240 <=? b0) && (b0 <=? 244) then
            let lo := if b0 =? 240 then 144 else 128 in
            let hi := if b0 =? 244 then 143 else 191 in
            match r0 with
            | b1 :: r1 =>
                if (lo <=? b1) && (b1 <=? hi) then
                  match r1 with
                  | b2 :: r2 =>
                      if is_cont b2 then
                        match r2 with
                        | b3 :: r3 =>
                            if is_cont b3
                            then ((b0 - 240) * 262144 + (b1 - 128) * 4096
                                  + (b2 - 128) * 64 + (b3 - 128))
                                   :: decode_replace_aux fuel' r3
                            else 65533 :: decode_replace_aux fuel' r2
                        | [] => [65533]
                        end
                      else 65533 :: decode_replace_aux fuel' r1
                  | [] => [65533]
                  end
                else 65533 :: decode_replace_aux fuel' r0
            | [] => [65533]
            end
          else 65533 :: decode_replace_aux fuel' r0
      end
  end.

Definition decode_replace (bs : pybytes) : pystr :=
  decode_replace_aux (length bs) bs.

(** ** [hashlib.sha256] and [hmac] *)

Module SHA256.

Definition w32 (x : N) : N := x mod 4294967296.
Definition add32 (x y : N) : N := w32 (x + y).
Definition rotr (n x : N) : N :=
  N.lor (N.shiftr x n) (w32 (N.shiftl x (32 - n))).

Definition ch (x y z : N) : N := N.lxor (N.land x y) (N.ldiff z x).
Definition maj (x y z : N) : N :=
  N.lxor (N.lxor (N.land x y) (N.land x z)) (N.land y z).
Definition bsig0 (x : N) : N := N.lxor (N.lxor (rotr 2 x) (rotr 13 x)) (rotr 22 x).
Definition bsig1 (x : N) : N := N.lxor (N.lxor (rotr 6 x) (rotr 11 x)) (rotr 25 x).
Definition ssig0 (x : N) : N := N.lxor (N.lxor (rotr 7 x) (rotr 18 x)) (N.shiftr x 3).
Definition ssig1 (x : N) : N := N.lxor (N.lxor (rotr 17 x) (rotr 19 x)) (N.shiftr x 10).

(** The round constants: the fractional parts of the cube roots of the
    first sixty-four primes, thirty-two bits each. *)
Definition round_constants : list N :=
  [ 1116352408; 1899447441; 3049323471; 3921009573; 961987163; 1508970993;
    2453635748; 2870763221; 3624381080; 310598401; 607225278; 1426881987;
    1925078388; 2162078206; 2614888103; 3248222580; 3835390401; 4022224774;
    264347078; 604807628; 770255983; 1249150122; 1555081692; 1996064986;
    2554220882; 2821834349; 2952996808; 3210313671; 3336571891; 3584528711;
    113926993; 338241895; 666307205; 773529912; 1294757372; 1396182291;
    1695183700; 1986661051; 2177026350; 2456956037; 2730485921; 2820302411;
    3259730800; 3345764771; 3516065817; 3600352804; 4094571909; 275423344;
    430227734; 506948616; 659060556; 883997877; 958139571; 1322822218;
    1537002063; 1747873779; 1955562222; 2024104815; 2227730452; 2361852424;
    2428436474; 2756734187; 3204031479; 3329325298 ].

(** The eight chaining words. *)
Record state : Type := State {
  sa : N; sb : N; sc : N; sd : N; se : N; sf : N; sg : N; sh : N }.

Definition initial : state :=
  State 1779033703 3144134277 1013904242 2773480762
        1359893119 2600822924 528734635 1541459225.

(** Padding: a one bit, zeros up to 56 modulo 64 bytes, then the bit
    length of the message on eight bytes, most significant first. *)
Definition be_bytes (n : nat) (x : N) : pybytes :=
  List.map (fun i => (x / 256 ^ N.of_nat i) mod 256) (rev (seq 0 n)).

Definition pad (msg : pybytes) : pybytes :=
  let len := N.of_nat (length msg) in
  let zeros := (119 - len mod 64) mod 64 in
  msg ++ [128] ++ repeat 0 (N.to_nat zeros) ++ be_bytes 8 (8 * len).

Fixpoint words (fuel : nat) (bs : pybytes) : list N :=
  match fuel, bs with
  | S fuel', b0 :: b1 :: b2 :: b3 :: rest =>
      (((b0 * 256 + b1) * 256 + b2) * 256 + b3) :: words fuel' rest
  | _, _ => []
  end.

(** The message schedule grown from the sixteen words of a block. *)
Fixpoint schedule (n : nat) (ws : list N) : list N :=
  match n with
  | O => ws
  | S n' =>
      let t := length ws in
      let wt := add32 (add32 (ssig1 (nth (t - 2) ws 0)) (nth (t - 7) ws 0))
                      (add32 (ssig0 (nth (t - 15) ws 0)) (nth (t - 16) ws 0)) in
      schedule n' (ws ++ [wt])
  end.

Definition round (s : state) (kw : N * N) : state :=
  let t1 := add32 (add32 (add32 (sh s) (bsig1 (se s)))
                         (add32 (ch (se s) (sf s) (sg s)) (fst kw))) (snd kw) in
  let t2 := add32 (bsig0 (sa s)) (maj (sa s) (sb s) (sc s)) in
  State (add32 t1 t2) (sa s) (sb s) (sc s) (add32 (sd s) t1) (se s) (sf s) (sg s).

Definition compress (s : state) (block : list N) : state :=
  let r := fold_left round (combine round_constants (schedule 48 block)) s in
  State (add32 (sa s) (sa r)) (add32 (sb s) (sb r)) (add32 (sc s) (sc r))
        (add32 (sd s) (sd r)) (add32 (se s) (se r)) (add32 (sf s) (sf r))
        (add32 (sg s) (sg r)) (add32 (sh s) (sh r)).

Fixpoint blocks (fuel : nat) (s : state) (ws : list N) : state :=
  match fuel, ws with
  | S fuel', _ :: _ => blocks fuel' (compress s (firstn 16 ws)) (skipn 16 ws)
  | _, _ => s
  end.

(** [hashlib.sha256(msg).digest()] *)
Definition digest (msg : pybytes) : pybytes :=
  let ws := words (length (pad msg)) (pad msg) in
  let s := blocks (length ws) initial ws in
  flat_map (be_bytes 4) [sa s; sb s; sc s; sd s; se s; sf s; sg s; sh s].

End SHA256.

(** [hmac.new(key, msg, hashlib.sha256).digest()] *)
Definition hmac_sha256 (key msg : pybytes) : pybytes :=
  let k0 := if (64 <? N.of_nat (length key)) then SHA256.digest key else key in
  let k := k0 ++ repeat 0 (64 - length k0)%nat in
  let inner := SHA256.digest (List.map (N.lxor 54) k ++ msg) in
  SHA256.digest (List.map (N.lxor 92) k ++ inner).

Definition hex_digit (d : N) : N := if d <? 10 then 48 + d else 87 + d.

(** [bs.hex()]: two lower-case digits per byte. *)
Definition hex (bs : pybytes) : pystr :=
  flat_map (fun b => [hex_digit (b / 16); hex_digit (b mod 16)]) bs.

(** [hmac.new(key, msg, hashlib.sha256).hexdigest()] *)
Definition hmac_sha256_hexdigest (key msg : pybytes) : pystr :=
  hex (hmac_sha256 key msg).

(** ** [urllib.parse] *)

Definition hex_value (c : N) : option N :=
  if (48 <=? c) && (c <=? 57) then Some (c - 48)
  else if (65 <=? c) && (c <=? 70) then Some (c - 55)
  else if (97 <=? c) && (c <=? 102) then Some (c - 87)
  else None.

(** One field of [string.split(b'%')] after the first: two hexadecimal
    digits make a byte, anything else keeps its percent sign. *)
Definition unquote_item (item : pybytes) : pybytes :=
  match item with
  | h :: l :: rest =>
      match hex_value h, hex_value l with
      | Some a, Some b => (16 * a + b) :: rest
      | _, _ => 37 :: item
      end
  | _ => 37 :: item
  end.

(** [unquote_to_bytes(string)] on a run of ASCII characters. *)
Definition unquote_to_bytes (s : pystr) : pybytes :=
  match split_char 37 s with
  | first :: items => first ++ flat_map unquote_item items
  | [] => []
  end.

(** [_asciire.split(string)]: the maximal runs of ASCII and of non-ASCII
    characters, in order; the flag tells which kind a run is. *)
Fixpoint ascii_runs (s : pystr) : list (bool * pystr) :=
  match s with
  | [] => []
  | c :: s' =>
      let a := c <? 128 in
      match ascii_runs s' with
      | (a', run) :: runs =>
          if Bool.eqb a a' then (a, c :: run) :: runs
          else (a, [c]) :: (a', run) :: runs
      | [] => [(a, [c])]
      end
  end.

(** [unquote(string)] with the default [encoding='utf-8'] and
    [errors='replace']. *)
Definition unquote (s : pystr) : pystr :=
  if existsb (N.eqb 37) s then
    flat_map (fun r : bool * pystr =>
                if fst r then decode_replace (unquote_to_bytes (snd r))
                else snd r)
             (ascii_runs s)
  else s.

(** One [name_value] field of the query string, [keep_blank_values=True]. *)
Definition parse_field (name_value : pystr) : pystr * pystr :=
  let '(name, value) := split_once 61 name_value in
  (unquote (replace_char 43 [32] name),
   unquote (replace_char 43 [32] (default [] value))).

(** [parse_qsl(qs, keep_blank_values=True)] *)
Definition parse_qsl (qs : pystr) : list (pystr * pystr) :=
  match qs with
  | [] => []
  | _ =>
      List.map parse_field
        (List.filter nonempty (split_char 38 qs))
  end.

(** [dict(items)]: a later pair replaces an earlier one with the same key. *)
Definition dict (items : list (pystr * pystr)) : gmap pystr pystr :=
  fold_left (fun m kv => <[kv.1 := kv.2]> m) items ∅.

(** ** [json] *)

(** The values [json.loads] builds: [None], [bool], [int], [float] (a
    binary64 number), [str], [list] and [dict]. A [dict] keeps its keys in
    insertion order, each key once. *)
#[warnings="-register-all"]
Inductive json : Type :=
| JNull
| JBool (b : bool)
| JInt (n : Z)
| JFloat (f : spec_float)
| JStr (s : pystr)
| JArr (items : list json)
| JObj (members : list (pystr * json)).

(** [d.get(k)] on the members of a [dict]. *)
Fixpoint dict_get {V : Type} (k : pystr) (d : list (pystr * V)) : option V :=
  match d with
  | [] => None
  | (k', v) :: d' => if bool_decide (k' = k) then Some v else dict_get k d'
  end.

(** [d[k] = v]: the value of a known key is replaced where it stands, a new
    key goes last. *)
Fixpoint dict_set {V : Type} (k : pystr) (v : V) (d : list (pystr * V))
  : list (pystr * V) :=
  match d with
  | [] => [(k, v)]
  | (k', v') :: d' =>
      if bool_decide (k' = k) then (k, v) :: d' else (k', v') :: dict_set k v d'
  end.

Definition is_digit (c : N) : bool := (48 <=? c) && (c <=? 57).

Fixpoint span_digits (s : pystr) : pystr * pystr :=
  match s with
  | c :: s' =>
      if is_digit c then let '(ds, r) := span_digits s' in (c :: ds, r)
      else ([], s)
  | [] => ([], [])
  end.

Definition digits_value (ds : pystr) : N :=
  fold_left (fun acc d => 10 * acc + (d - 48)) ds 0.

(** [float(text)] for the decimal [m * 10 ^ e10], negated when [neg]: the
    nearest binary64 number, ties to even. *)
Definition float_of_decimal (neg : bool) (m : N) (e10 : Z) : spec_float :=
  match m with
  | N0 => S754_zero neg
  | Npos p =>
      if (0 <=? e10)%Z then
        binary_normalize 53 1024
          ((if neg then Z.neg p else Z.pos p) * 10 ^ e10)%Z 0%Z neg
      else
        let den := (10 ^ (- e10))%Z in
        let k := Z.max 0 (64 + Z.log2_up den - Z.log2 (Z.pos p))%Z in
        let num := (Z.pos p * 2 ^ k)%Z in
        let q := (num / den)%Z in
        let r := (num mod den)%Z in
        let loc := if (r =? 0)%Z then loc_Exact
                   else loc_Inexact (Z.compare (2 * r) den) in
        binary_round_aux 53 1024 neg q (- k)%Z loc
  end.

(** [int(x)] for a [float]: towards zero; no integer for NaN and the
    infinities. *)
Definition float_trunc (f : spec_float) : result Z :=
  match f with
  | S754_zero _ => Ok 0%Z
  | S754_infinity _ => Raise OverflowError
  | S754_nan => Raise ValueError
  | S754_finite s m e =>
      let a := if (0 <=? e)%Z then (Z.pos m * 2 ^ e)%Z
               else (Z.pos m / 2 ^ (- e))%Z in
      Ok (if s then (- a)%Z else a)
  end.

(** The number scanner: an optional minus sign; a zero, or a non-zero digit
    and any digits; optionally a point and one digit or more; optionally an
    [e] or [E], an optional sign and one digit or more. Without fraction and
    exponent the literal is an [int]. *)
Definition scan_fraction (s : pystr) : pystr * pystr :=
  match s with
  | c :: r =>
      if c =? 46 then
        match span_digits r with
        | ([], _) => ([], s)
        | (ds, r') => (ds, r')
        end
      else ([], s)
  | [] => ([], s)
  end.

Definition scan_exponent (s : pystr) : option Z * pystr :=
  match s with
  | c :: r =>
      if (c =? 101) || (c =? 69) then
        let '(neg, r1) :=
          match r with
          | sg :: r' =>
              if sg =? 45 then (true, r')
              else if sg =? 43 then (false, r') else (false, r)
          | [] => (false, r)
          end in
        match span_digits r1 with
        | ([], _) => (None, s)
        | (ds, r2) =>
            let v := Z.of_N (digits_value ds) in
            (Some (if neg then (- v)%Z else v), r2)
        end
      else (None, s)
  | [] => (None, s)
  end.

Definition match_number (s : pystr) : option (json * pystr) :=
  let '(neg, s1) :=
    match s with
    | c :: r => if c =? 45 then (true, r) else (false, s)
    | [] => (false, s)
    end in
  match s1 with
  | d :: r1 =>
      if is_digit d then
        let '(int_ds, r2) := if d =? 48 then ([d], r1) else span_digits s1 in
        let '(frac_ds, r3) := scan_fraction r2 in
        let '(exp, r4) := scan_exponent r3 in
        match frac_ds, exp with
        | [], None =>
            let v := Z.of_N (digits_value int_ds) in
            Some (JInt (if neg then (- v)%Z else v), r4)
        | _, _ =>
            Some (JFloat (float_of_decimal neg (digits_value (int_ds ++ frac_ds))
                            (default 0%Z exp - Z.of_nat (length frac_ds))%Z), r4)
        end
      else None
  | [] => None
  end.

Definition is_json_ws (c : N) : bool :=
  (c =? 32) || (c =? 9) || (c =? 10) || (c =? 13).

Fixpoint skip_ws (s : pystr) : pystr :=
  match s with
  | c :: s' => if is_json_ws c then skip_ws s' else s
  | [] => []
  end.

(** [s.startswith(p)], with what follows the prefix. *)
Fixpoint strip_prefix (p s : pystr) : option pystr :=
  match p, s with
  | [], _ => Some s
  | a :: p', b :: s' => if a =? b then strip_prefix p' s' else None
  | _ :: _, [] => None
  end.

(** The four hexadecimal digits of a [\uXXXX] escape. *)
Definition hex4 (s : pystr) : option (N * pystr) :=
  match s with
  | a :: b :: c :: d :: r =>
      match hex_value a, hex_value b, hex_value c, hex_value d with
      | Some x, Some y, Some z, Some w => Some (((x * 16 + y) * 16 + z) * 16 + w, r)
      | _, _, _, _ => None
      end
  | _ => None
  end.

Definition backslash (c : N) : option N :=
  if (c =? 34) || (c =? 92) || (c =? 47) then Some c
  else if c =? 98 then Some 8
  else if c =? 102 then Some 12
  else if c =? 110 then Some 10
  else if c =? 114 then Some 13
  else if c =? 116 then Some 9
  else None.

(** [scanstring(s, end, strict=True)]: [s] starts after the opening quote;
    the result is the decoded text and what follows the closing quote. *)
Fixpoint scanstring (fuel : nat) (s : pystr) : result (pystr * pystr) :=
  match fuel with
  | O => Raise JSONDecodeError
  | S fuel' =>
      match s with
      | [] => Raise JSONDecodeError
      | c :: r =>
          if c =? 34 then Ok ([], r)
          else if c =? 92 then
            match r with
            | [] => Raise JSONDecodeError
            | e :: r1 =>
                if e =? 117 then
                  match hex4 r1 with
                  | None => Raise JSONDecodeError
                  | Some (uni, r2) =>
                      let single :=
                        let* res := scanstring fuel' r2 in
                        Ok (uni :: fst res, snd res) in
                      if (55296 <=? uni) && (uni <=? 56319) then
                        match strip_prefix [92; 117] r2 with
                        | Some r3 =>
                            match hex4 r3 with
                            | None => Raise JSONDecodeError
                            | Some (uni2, r4) =>
                                if (56320 <=? uni2) && (uni2 <=? 57343) then
                                  let* res := scanstring fuel' r4 in
                                  Ok ((65536 + ((uni - 55296) * 1024 + (uni2 - 56320)))
                                        :: fst res, snd res)
                                else single
                            end
                        | None => single
                        end
                      else single
                  end
                else
                  match backslash e with
                  | Some ch =>
                      let* res := scanstring fuel' r1 in
                      Ok (ch :: fst res, snd res)
                  | None => Raise JSONDecodeError
                  end
            end
          else if c <? 32 then Raise JSONDecodeError
          else
            let* res := scanstring fuel' r in
            Ok (c :: fst res, snd res)
      end
  end.

(** [scan_once], [JSONArray] and [JSONObject]. Every nested call takes one
    unit of [fuel]; running out of it is the interpreter's recursion limit. *)
Fixpoint scan_once (fuel : nat) (s : pystr) : result (json * pystr) :=
  match fuel with
  | O => Raise RecursionError
  | S fuel' =>
      match s with
      | [] => Raise JSONDecodeError
      | c :: r =>
          if c =? 34 then
            let* res := scanstring (length r) r in
            Ok (JStr (fst res), snd res)
          else if c =? 123 then
            let r1 := skip_ws r in
            match r1 with
            | c1 :: r2 =>
                if c1 =? 125 then Ok (JObj [], r2)
                else if c1 =? 34 then object_members fuel' r2 []
                else Raise JSONDecodeError
            | [] => Raise JSONDecodeError
            end
          else if c =? 91 then
            let r1 := skip_ws r in
            match r1 with
            | c1 :: r2 =>
                if c1 =? 93 then Ok (JArr [], r2)
                else array_items fuel' r1 []
            | [] => Raise JSONDecodeError
            end
          else
            match strip_prefix (py "null") s, strip_prefix (py "true") s,
                  strip_prefix (py "false") s with
            | Some r', _, _ => Ok (JNull, r')
            | _, Some r', _ => Ok (JBool true, r')
            | _, _, Some r' => Ok (JBool false, r')
            | None, None, None =>
                match match_number s with
                | Some res => Ok res
                | None =>
                    match strip_prefix (py "NaN") s, strip_prefix (py "Infinity") s,
                          strip_prefix (py "-Infinity") s with
                    | Some r', _, _ => Ok (JFloat S754_nan, r')
                    | _, Some r', _ => Ok (JFloat (S754_infinity false), r')
                    | _, _, Some r' => Ok (JFloat (S754_infinity true), r')
                    | None, None, None => Raise JSONDecodeError
                    end
                end
            end
      end
  end

(** [s] starts at a value; [acc] holds the values read so far, last first. *)
with array_items (fuel : nat) (s : pystr) (acc : list json)
  : result (json * pystr) :=
  match fuel with
  | O => Raise RecursionError
  | S fuel' =>
      let* res := scan_once fuel' s in
      match skip_ws (snd res) with
      | c :: r =>
          if c =? 93 then Ok (JArr (rev (fst res :: acc)), r)
          else if c =? 44 then array_items fuel' (skip_ws r) (fst res :: acc)
          else Raise JSONDecodeError
      | [] => Raise JSONDecodeError
      end
  end

(** [s] starts after the opening quote of a key; [acc] is the [dict] built
    so far. *)
with object_members (fuel : nat) (s : pystr) (acc : list (pystr * json))
  : result (json * pystr) :=
  match fuel with
  | O => Raise RecursionError
  | S fuel' =>
      let* key := scanstring (length s) s in
      match skip_ws (snd key) with
      | c :: r =>
          if c =? 58 then
            let* res := scan_once fuel' (skip_ws r) in
            let acc' := dict_set (fst key) (fst res) acc in
            match skip_ws (snd res) with
            | c1 :: r1 =>
                if c1 =? 125 then Ok (JObj acc', r1)
                else if c1 =? 44 then
                  match skip_ws r1 with
                  | c2 :: r2 =>
                      if c2 =? 34 then object_members fuel' r2 acc'
                      else Raise JSONDecodeError
                  | [] => Raise JSONDecodeError
                  end
                else Raise JSONDecodeError
            | [] => Raise JSONDecodeError
            end
          else Raise JSONDecodeError
      | [] => Raise JSONDecodeError
      end
  end.

(** [json.loads(s)] for a [str]: one value, white space around it, nothing
    else. The fuel suffices for every text: the two limits that are
    settings of the interpreter, the recursion limit and the greatest number
    of digits of an integer (4300 unless set otherwise), are not part of
    this definition, which decodes a text they would refuse. *)
Definition json_loads (s : pystr) : result json :=
  match strip_prefix [65279] s with
  | Some _ => Raise JSONDecodeError
  | None =>
      let* res := scan_once (2 * length s + 2) (skip_ws s) in
      match skip_ws (snd res) with
      | [] => Ok (fst res)
      | _ :: _ => Raise JSONDecodeError
      end
  end.

(** [json.dumps(strings, ensure_ascii=False)] for a list of [str]: quotes,
    backslashes and control characters are escaped, everything else is
    written as it is; items are separated by a comma and a space. *)
Definition escape_char (c : N) : pystr :=
  if c =? 34 then [92; 34]
  else if c =? 92 then [92; 92]
  else if c =? 10 then [92; 110]
  else if c =? 13 then [92; 114]
  else if c =? 9 then [92; 116]
  else if c =? 8 then [92; 98]
  else if c =? 12 then [92; 102]
  else if c <? 32 then [92; 117; 48; 48; hex_digit (c / 16); hex_digit (c mod 16)]
  else [c].

Definition encode_basestring (s : pystr) : pystr :=
  [34] ++ flat_map escape_char s ++ [34].

Definition json_dumps (strings : list pystr) : pystr :=
  [91] ++ join [44; 32] (List.map encode_basestring strings) ++ [93].

(** ** Built-in conversions on decoded values *)

(** [bool(x)], as [x or default] tests it. *)
Definition truthy (x : json) : bool :=
  match x with
  | JNull => false
  | JBool b => b
  | JInt n => negb (n =? 0)%Z
  | JFloat (S754_zero _) => false
  | JFloat _ => true
  | JStr s => negb (Nat.eqb (length s) 0)
  | JArr items => negb (Nat.eqb (length items) 0)
  | JObj members => negb (Nat.eqb (length members) 0)
  end.

(** [x[key]] for a [str] key: only a [dict] can be indexed by one. *)
Definition getitem (x : json) (key : pystr) : result json :=
  match x with
  | JObj members =>
      match dict_get key members with
      | Some v => Ok v
      | None => Raise KeyError
      end
  | _ => Raise TypeError
  end.

(** [iter(x)]: the items of a [list], the keys of a [dict], the characters
    of a [str]; nothing else that [json] builds can be iterated. *)
Definition py_iter (x : json) : result (list json) :=
  match x with
  | JArr items => Ok items
  | JObj members => Ok (List.map (fun kv => JStr (fst kv)) members)
  | JStr s => Ok (List.map (fun c => JStr [c]) s)
  | _ => Raise TypeError
  end.

(** The code points of the digit zero of every decimal-digit block of the
    Unicode character database (version 14.0); the nine other digits
    follow their zero. *)
Definition decimal_zeros : list N :=
  [ 48; 1632; 1776; 1984; 2406; 2534; 2662; 2790; 2918; 3046; 3174; 3302;
    3430; 3558; 3664; 3792; 3872; 4160; 4240; 6112; 6160; 6470; 6608; 6784;
    6800; 6992; 7088; 7232; 7248; 42528; 43216; 43264; 43472; 43504; 43600;
    44016; 65296; 66720; 68912; 69734; 69872; 69942; 70096; 70384; 70736;
    70864; 71248; 71360; 71472; 71904; 72016; 72784; 73040; 73120; 92768;
    92864; 93008; 120782; 120792; 120802; 120812; 120822; 123200; 123632;
    125264; 130032 ].

(** [Py_UNICODE_TODECIMAL] *)
Definition to_decimal (c : N) : option N :=
  match List.find (fun z => (z <=? c) && (c <? z + 10)) decimal_zeros with
  | Some z => Some (c - z)
  | None => None
  end.

(** What [int(text)] first makes of its argument: characters below 127 stay,
    further white space becomes a space and further decimal digits become
    ASCII digits; any other character makes the text invalid. *)
Fixpoint to_ascii_decimal (s : pystr) : option pystr :=
  match s with
  | [] => Some []
  | c :: s' =>
      let rest := to_ascii_decimal s' in
      if c <? 127 then option_map (cons c) rest
      else if isspace c then option_map (cons 32) rest
      else match to_decimal c with
           | Some d => option_map (cons (48 + d)) rest
           | None => None
           end
  end.

Definition is_c_space (c : N) : bool := ((9 <=? c) && (c <=? 13)) || (c =? 32).

Fixpoint skip_c_space (s : pystr) : pystr :=
  match s with
  | c :: s' => if is_c_space c then skip_c_space s' else s
  | [] => []
  end.

(** Digits with single underscores between them, then white space only:
    the value read so far is [acc]; [after_digit] tells whether the last
    character was a digit. *)
Fixpoint int_digits (acc : N) (after_digit : bool) (s : pystr) : option N :=
  match s with
  | [] => if after_digit then Some acc else None
  | c :: s' =>
      if is_digit c then int_digits (10 * acc + (c - 48)) true s'
      else if c =? 95 then
        if after_digit then int_digits acc false s' else None
      else if after_digit then
        match skip_c_space s with
        | [] => Some acc
        | _ :: _ => None
        end
      else None
  end.

(** [int(text)]. The greatest number of digits the interpreter converts
    (4300 unless set otherwise) is a setting of it and not part of this
    definition, which converts a longer text as well. *)
Definition int_of_str (s : pystr) : result Z :=
  match to_ascii_decimal s with
  | None => Raise ValueError
  | Some t =>
      let t1 := skip_c_space t in
      let '(neg, t2) :=
        match t1 with
        | c :: r => if c =? 45 then (true, r)
                    else if c =? 43 then (false, r) else (false, t1)
        | [] => (false, t1)
        end in
      match t2 with
      | d :: _ =>
          if is_digit d then
            match int_digits 0 false t2 with
            | Some v => Ok (if neg then (- Z.of_N v)%Z else Z.of_N v)
            | None => Raise ValueError
            end
          else Raise ValueError
      | [] => Raise ValueError
      end
  end.

(** [int(x)] *)
Definition py_int (x : json) : result Z :=
  match x with
  | JInt n => Ok n
  | JBool b => Ok (if b then 1%Z else 0%Z)
  | JFloat f => float_trunc f
  | JStr s => int_of_str s
  | JNull | JArr _ | JObj _ => Raise TypeError
  end.

(** [str(n)] for an [int]. *)
Fixpoint decimal_digits (fuel : nat) (n : N) (acc : pystr) : pystr :=
  match fuel with
  | O => acc
  | S fuel' =>
      let acc' := (48 + n mod 10) :: acc in
      if n <? 10 then acc' else decimal_digits fuel' (n / 10) acc'
  end.

Definition str_of_int (n : Z) : pystr :=
  let ds := decimal_digits (S (N.to_nat (N.log2 (Z.abs_N n)))) (Z.abs_N n) [] in
  if (n <? 0)%Z then 45 :: ds else ds.

(** ** The [orders] table of [SCHEMA_SQL] *)

(** A row of [orders]; [None] is SQL [NULL], a time stamp is a number of
    microseconds. The [users] table is never read or written. *)
Record order : Type := Order {
  id : Z;
  public_no : pystr;
  owner_tg_id : option Z;
  owner_phone : option pystr;
  item : pystr;
  services_json : pystr;
  status : pystr;
  price : option Z;
  comment : option pystr;
  is_closed : bool;
  created_at : Z;
  updated_at : Z }.

(** The table in storage order, and the last value of the sequence behind
    [id BIGSERIAL]. *)
Record database : Type := Database {
  orders : list order;
  orders_id_seq : Z }.

(** The values bound to [$1] .. [$8] of the upsert statement. *)
Record upsert_values : Type := UpsertValues {
  v_public_no : pystr;
  v_owner_tg_id : option Z;
  v_owner_phone : option pystr;
  v_item : pystr;
  v_services_json : pystr;
  v_status : pystr;
  v_price : option Z;
  v_comment : option pystr }.

Definition has_public_no (no : pystr) (r : order) : bool :=
  bool_decide (public_no r = no).

(** [VALUES ($1,$2,$3,$4,$5,$6,$7,$8, now(), now())], with the defaults of
    the columns that are not listed. *)
Definition inserted_row (new_id now : Z) (v : upsert_values) : order :=
  {| id := new_id;
     public_no := v_public_no v;
     owner_tg_id := v_owner_tg_id v;
     owner_phone := v_owner_phone v;
     item := v_item v;
     services_json := v_services_json v;
     status := v_status v;
     price := v_price v;
     comment := v_comment v;
     is_closed := false;
     created_at := now;
     updated_at := now |}.

(** [ON CONFLICT(public_no) DO UPDATE SET ...]: the listed columns take the
    proposed values, the others stay. *)
Definition do_update (now : Z) (v : upsert_values) (r : order) : order :=
  {| id := id r;
     public_no := public_no r;
     owner_tg_id := v_owner_tg_id v;
     owner_phone := v_owner_phone v;
     item := v_item v;
     services_json := v_services_json v;
     status := v_status v;
     price := v_price v;
     comment := v_comment v;
     is_closed := is_closed r;
     created_at := created_at r;
     updated_at := now |}.

(** The [INSERT ... ON CONFLICT(public_no) DO UPDATE] statement, run at time
    [now]. The sequence advances whether or not the row is new. *)
Definition upsert_order (db : database) (now : Z) (v : upsert_values) : database :=
  let new_id := (orders_id_seq db + 1)%Z in
  if existsb (has_public_no (v_public_no v)) (orders db) then
    {| orders := List.map (fun r => if has_public_no (v_public_no v) r
                                    then do_update now v r else r) (orders db);
       orders_id_seq := new_id |}
  else
    {| orders := orders db ++ [inserted_row new_id now v];
       orders_id_seq := new_id |}.

(** [ORDER BY created_at DESC]: [a] may come before [b]. *)
Definition newer_first (a b : order) : Prop := (created_at b <= created_at a)%Z.

#[global] Instance newer_first_dec (a b : order) : Decision (newer_first a b).
Proof. unfold newer_first. apply _. Defined.

Definition owned_by (tg_id : Z) (r : order) : bool :=
  bool_decide (owner_tg_id r = Some tg_id).

(** [SELECT ... FROM orders WHERE owner_tg_id=$1 ORDER BY created_at DESC] *)
Definition select_orders (db : database) (tg_id : Z) : list order :=
  merge_sort newer_first (List.filter (owned_by tg_id) (orders db)).

(** *** Query arguments, as the driver encodes them *)

Definition in_range (bits : Z) (n : Z) : bool :=
  ((- 2 ^ (bits - 1) <=? n) && (n <? 2 ^ (bits - 1)))%Z.

(** A Python [int] for a [BIGINT] or [INTEGER] parameter. *)
Definition pg_int (bits : Z) (n : Z) : result Z :=
  if in_range bits n then Ok n else Raise DataError.

(** A Python [str] for a [TEXT] parameter: it must have a UTF-8 encoding and
    no NUL character. *)
Definition pg_text (s : pystr) : result pystr :=
  match encode s with
  | Ok _ => if existsb (N.eqb 0) s then Raise DataError else Ok s
  | Raise _ => Raise DataError
  end.

(** An optional [TEXT] parameter: [None] is [NULL], and only a [str] is
    accepted otherwise. *)
Definition pg_text_opt (x : json) : result (option pystr) :=
  match x with
  | JNull => Ok None
  | JStr s => let* t := pg_text s in Ok (Some t)
  | _ => Raise DataError
  end.

(** ** The handlers of [api.py] *)

(** What the handlers see of a request body: the value [await req.json()]
    yields when the handler asks for it, [None] when the body does not
    decode. *)
Record Request : Type := { req_json : option json }.

(** The status of the answer to a request. *)
Definition response_status {A : Type} (r : result A) : Z :=
  match r with
  | Ok _ => 200%Z
  | Raise e => http_status e
  end.

(** One entry of the [orders] list that [me_orders] answers with. *)
Record order_view : Type := OrderView {
  view_public_no : pystr;
  view_item : pystr;
  view_services : json;
  view_status : pystr;
  view_price : option Z;
  view_comment : option pystr;
  view_created_at : Z;
  view_updated_at : Z }.

Section Api.

(** The settings read from the environment when the module is loaded. *)
Variable BOT_TOKEN : pystr.
Variable ADMIN_API_TOKEN : pystr.

(** [repr(x)] of the interpreter, used for the values whose text is not
    fixed here: floats, lists and dicts. *)
Variable py_repr : json -> pystr.

(** What the driver's integer codec makes of a value that is neither
    [None] nor an [int] ([None]: it refuses the value). *)
Variable pg_int_coerce : json -> option Z.

(** [str(x)] *)
Definition py_str (x : json) : pystr :=
  match x with
  | JNull => py "None"
  | JBool true => py "True"
  | JBool false => py "False"
  | JInt n => str_of_int n
  | JStr s => s
  | JFloat _ | JArr _ | JObj _ => py_repr x
  end.

(** An optional [BIGINT] ([bits = 64]) or [INTEGER] ([bits = 32])
    parameter. *)
Definition pg_int_opt (bits : Z) (x : json) : result (option Z) :=
  match x with
  | JNull => Ok None
  | JInt n => let* v := pg_int bits n in Ok (Some v)
  | _ =>
      match pg_int_coerce x with
      | Some n => let* v := pg_int bits n in Ok (Some v)
      | None => Raise DataError
      end
  end.

(** The check-string of line 77: one [key=value] line per pair, the keys
    in sorted order, a newline between the lines. *)
Definition data_check (pairs : gmap pystr pystr) : pystr :=
  join [10] (List.map (fun k => k ++ [61] ++ default [] (pairs !! k))
                      (sorted (map_to_list pairs).*1)).

Definition secret_key : result pybytes :=
  let* token := encode BOT_TOKEN in
  Ok (hmac_sha256 (py "WebAppData") token).

Definition calc_hash (pairs : gmap pystr pystr) : result pystr :=
  let* key := secret_key in
  let* message := encode (data_check pairs) in
  Ok (hmac_sha256_hexdigest key message).

Definition verify_init_data (init_data : pystr) : result json :=
  match init_data with
  | [] => Raise (HTTPException 401 "Missing initData")
  | _ :: _ =>
      let pairs : gmap pystr pystr := dict (parse_qsl init_data) in
      match pairs !! py "hash" with
      | None | Some [] => Raise (HTTPException 401 "Missing hash")
      | Some recv_hash =>
          let pairs : gmap pystr pystr := delete (py "hash") pairs in
          let* calc := calc_hash pairs in
          if bool_decide (calc = recv_hash) then
            match pairs !! py "user" with
            | None | Some [] => Raise (HTTPException 401 "Missing user")
            | Some user_raw =>
                except_raise (json_loads user_raw)
                             (HTTPException 401 "Bad user json")
            end
          else Raise (HTTPException 401 "Bad signature")
      end
  end.

(** [pool] is [None] until [startup] has run; afterwards it gives access
    to the database. *)
Definition require_pool (pool : option database) : result database :=
  match pool with
  | None => Raise (RuntimeError "DB not ready")
  | Some p => Ok p
  end.

Definition require_admin (token : pystr) : result unit :=
  if bool_decide (token = ADMIN_API_TOKEN) then Ok tt
  else Raise (HTTPException 401 "Bad admin token").

(** The body of the loop of [me_orders]. *)
Definition view_of_row (r : order) : result order_view :=
  let* services :=
    json_loads (match services_json r with
                | [] => py "[]"
                | _ :: _ => services_json r
                end) in
  Ok {| view_public_no := public_no r;
        view_item := item r;
        view_services := services;
        view_status := status r;
        view_price := price r;
        view_comment := comment r;
        view_created_at := created_at r;
        view_updated_at := updated_at r |}.

Fixpoint views_of_rows (rows : list order) : result (list order_view) :=
  match rows with
  | [] => Ok []
  | r :: rows' =>
      let* o := view_of_row r in
      let* os := views_of_rows rows' in
      Ok (o :: os)
  end.

(** [GET /api/me/orders]: the [orders] member of the answer. *)
Definition me_orders (pool : option database) (x_telegram_initdata : pystr)
  : result (list order_view) :=
  let* user := verify_init_data x_telegram_initdata in
  let* user_id := getitem user (py "id") in
  let* tg_id := py_int user_id in
  let* p := require_pool pool in
  let* arg := pg_int 64 tg_id in
  views_of_rows (select_orders p arg).

(** [body.get(key, default)]; a body that is not a [dict] has no [get]. *)
Definition body_get (body : json) (key : pystr) (default : json) : result json :=
  match body with
  | JObj members =>
      Ok (match dict_get key members with
          | Some v => v
          | None => default
          end)
  | _ => Raise AttributeError
  end.

(** The arguments of [conn.execute], as the codecs of the columns encode
    them. *)
Definition bind_upsert (public_no : pystr) (owner_tg_id owner_phone : json)
    (item services_json status : pystr) (price comment : json)
  : result upsert_values :=
  let* a1 := pg_text public_no in
  let* a2 := pg_int_opt 64 owner_tg_id in
  let* a3 := pg_text_opt owner_phone in
  let* a4 := pg_text item in
  let* a5 := pg_text services_json in
  let* a6 := pg_text status in
  let* a7 := pg_int_opt 32 price in
  let* a8 := pg_text_opt comment in
  Ok (UpsertValues a1 a2 a3 a4 a5 a6 a7 a8).

(** The part of [admin_upsert] that can raise: the database it writes,
    when it gets that far. *)
Definition admin_upsert_run (pool : option database) (now : Z)
    (req : Request) (x_admin_token : pystr) : result database :=
  let* _ := require_admin x_admin_token in
  let* body := match req_json req with
               | Some body => Ok body
               | None => Raise JSONDecodeError
               end in
  let* public_no_raw := body_get body (py "public_no") (JStr []) in
  let public_no := strip (py_str public_no_raw) in
  match public_no with
  | [] => Raise (HTTPException 400 "public_no required")
  | _ :: _ =>
      let* item_raw := body_get body (py "item") (JStr []) in
      let item := strip (py_str item_raw) in
      let* status_raw := body_get body (py "status") (JStr []) in
      let status := strip (py_str status_raw) in
      match item, status with
      | _ :: _, _ :: _ =>
          let* owner_tg_id := body_get body (py "owner_tg_id") JNull in
          let* owner_phone := body_get body (py "owner_phone") JNull in
          let* services_raw := body_get body (py "services") JNull in
          let services := if truthy services_raw then services_raw else JArr [] in
          let* price := body_get body (py "price") JNull in
          let* comment := body_get body (py "comment") JNull in
          let* entries := py_iter services in
          let services_json :=
            json_dumps
              (List.map (fun x => strip (py_str x))
                 (List.filter (fun x => nonempty (strip (py_str x))) entries)) in
          let* p := require_pool pool in
          let* values := bind_upsert public_no owner_tg_id owner_phone item
                                     services_json status price comment in
          Ok (upsert_order p now values)
      | _, _ => Raise (HTTPException 400 "item/status required")
      end
  end.

(** [POST /api/admin/order/upsert], handled at time [now]: the outcome,
    and the pool with the database behind it afterwards. A request that
    raises has written nothing. *)
Definition admin_upsert (pool : option database) (now : Z)
    (req : Request) (x_admin_token : pystr)
  : result unit * option database :=
  match admin_upsert_run pool now req x_admin_token with
  | Ok db' => (Ok tt, Some db')
  | Raise e => (Raise e, pool)
  end.

End Api.

(** ** Requests used to run the handlers *)

(** A bot token, and the payload that carries [auth_date=1700000000] and
    the user object with [id] 42 under the signature that token gives. *)
Definition sample_token : pystr := py "123456:TEST".

(** The text of the user object, an opening brace, the key [id] between
    quotes, a colon, 42 and a closing brace. *)
Definition sample_user_raw : pystr := [123; 34] ++ py "id" ++ [34] ++ py ":42}".

Definition sample_hash : pystr :=
  py "3bf81034acdc4b104a28594259cd3575dee2cd671f279463ad388e7eb6757b8b".

Definition sample_init_data : pystr :=
  py "auth_date=1700000000&user=%7B%22id%22%3A42%7D&hash=" ++ sample_hash.

(** The same payload with the first character of its hash changed. *)
Definition tampered_init_data : pystr :=
  py "auth_date=1700000000&user=%7B%22id%22%3A42%7D&hash="
  ++ py "4bf81034acdc4b104a28594259cd3575dee2cd671f279463ad388e7eb6757b8b".

(** A correctly signed payload whose user object has a [name] and no [id]. *)
Definition no_id_init_data : pystr :=
  py "auth_date=1700000000&user=%7B%22name%22%3A%22x%22%7D&hash="
  ++ py "7d2c2d302dd5ee9c3dcbec09e7750eddd38791dee7db1006c8192b5ba9be1eb6".

(** A correctly signed payload whose user object has the text [abc] for
    [id]. *)
Definition text_id_init_data : pystr :=
  py "auth_date=1700000000&user=%7B%22id%22%3A%22abc%22%7D&hash="
  ++ py "c1d39b19d4252d26df28f3d004d388763d199c8f5f0a8c083f0a22f3327bd233".

(** A correctly signed payload whose [user] key has an empty value. *)
Definition blank_user_init_data : pystr :=
  py "auth_date=1700000000&user=&hash="
  ++ py "5ffe8b1cf823fe6310790d0c45cc655ac45ab27a1ff1433e02f18092148fe740".

(** ** Notions used to state the properties *)

(** The key order of the check-string. *)
Definition key_le (a b : pystr * pystr) : Prop := str_le a.1 b.1.

(** A line of the check-string. *)
Definition key_value_line (kv : pystr * pystr) : pystr := kv.1 ++ [61] ++ kv.2.

(** [h'] is [h] with one character replaced by another one. *)
Definition one_char_changed (h h' : pystr) : Prop :=
  exists (before : pystr) (c c' : N) (after : pystr),
    c <> c' /\ h = before ++ c :: after /\ h' = before ++ c' :: after.

(** An exception that the framework answers with status 500. *)
Definition unhandled (e : exn) : Prop :=
  match e with
  | HTTPException _ _ => False
  | _ => True
  end.

(** An entry of the answer shows a row: the selected columns as they are,
    [services] decoded from [services_json]. *)
Definition shows (o : order_view) (r : order) : Prop :=
  view_public_no o = public_no r
  /\ view_item o = item r
  /\ json_loads (match services_json r with
                 | [] => py "[]"
                 | _ :: _ => services_json r
                 end) = Ok (view_services o)
  /\ view_status o = status r
  /\ view_price o = price r
  /\ view_comment o = comment r
  /\ view_created_at o = created_at r
  /\ view_updated_at o = updated_at r.

(** ** The steps of [admin_upsert], named

    The values the handler computes on its way, and what it does once the
    required fields are found present, as functions of the members of the
    body. *)

Section AdminUpsertSteps.

Variable py_repr : json -> pystr.
Variable pg_int_coerce : json -> option Z.

(** A required field as the handler reads it:
    [str(body.get(key, "")).strip()]. *)
Definition required_field (members : list (pystr * json)) (key : pystr) : pystr :=
  strip (py_str py_repr (default (JStr []) (dict_get key members))).

(** What [body.get(key)] gives for an optional field. *)
Definition optional_field (members : list (pystr * json)) (key : pystr) : json :=
  default JNull (dict_get key members).

(** The entries [services_json] is made of: [body.get("services") or []]. *)
Definition submitted_services (members : list (pystr * json)) : json :=
  if truthy (optional_field members (py "services"))
  then optional_field members (py "services") else JArr [].

(** The text stored for the entries of a request. *)
Definition services_text (entries : list json) : pystr :=
  json_dumps
    (List.map (fun x => strip (py_str py_repr x))
       (List.filter (fun x => nonempty (strip (py_str py_repr x))) entries)).

(** The steps of the handler after the required fields are found present. *)
Definition store_order (pool : option database) (now : Z)
    (members : list (pystr * json)) : result database :=
  let* entries := py_iter (submitted_services members) in
  let* p := require_pool pool in
  let* values :=
    bind_upsert pg_int_coerce
      (required_field members (py "public_no"))
      (optional_field members (py "owner_tg_id"))
      (optional_field members (py "owner_phone"))
      (required_field members (py "item"))
      (services_text entries)
      (required_field members (py "status"))
      (optional_field members (py "price"))
      (optional_field members (py "comment")) in
  Ok (upsert_order p now values).

End AdminUpsertSteps.

(** The driver accepts the arguments of the statement other than
    [services_json], as the request gives them. *)
Definition other_fields_accepted (py_repr : json -> pystr)
    (pg_int_coerce : json -> option Z) (members : list (pystr * json)) : Prop :=
  (exists a, pg_text (required_field py_repr members (py "public_no")) = Ok a)
  /\ (exists a, pg_int_opt pg_int_coerce 64
                  (optional_field members (py "owner_tg_id")) = Ok a)
  /\ (exists a, pg_text_opt (optional_field members (py "owner_phone")) = Ok a)
  /\ (exists a, pg_text (required_field py_repr members (py "item")) = Ok a)
  /\ (exists a, pg_text (required_field py_repr members (py "status")) = Ok a)
  /\ (exists a, pg_int_opt pg_int_coerce 32
                  (optional_field members (py "price")) = Ok a)
  /\ (exists a, pg_text_opt (optional_field members (py "comment")) = Ok a).

(** Two owners in a table of three orders, and the table read for a third
    owner, who has none. *)
Definition sample_orders : database :=
  {| orders :=
       [ Order 1 (py "A-1") (Some 42%Z) None (py "coat") (py "[]") (py "new")
               None None false 100 100;
         Order 2 (py "A-2") (Some 7%Z) None (py "rug") (py "[]") (py "new")
               None None false 200 200;
         Order 3 (py "A-3") (Some 42%Z) None (py "boots") (py "[]") (py "done")
               (Some 900%Z) None false 300 350 ];
     orders_id_seq := 3 |}.

(** The text of the words [wash] and [iron] as a JSON array: each between
    quotes, a comma and a space between the two, brackets around them. *)
Definition wash_iron_json : pystr :=
  [91; 34] ++ py "wash" ++ [34; 44; 32; 34] ++ py "iron" ++ [34; 93].

(** An admin token, stand-ins for the two facilities of the runtime that
    the requests below do not reach, and three requests. *)
Definition sample_admin_token : pystr := py "adm-secret".
Definition sample_repr (x : json) : pystr := py "<object>".
Definition sample_coerce (x : json) : option Z := None.

Definition sample_request : Request :=
  {| req_json :=
       Some (JObj [ (py "public_no", JStr (py " A-1 "));
                    (py "item", JStr (py "coat"));
                    (py "status", JStr (py "new"));
                    (py "services",
                     JArr (List.map JStr [py "  "; py "wash"; []; py "iron"]));
                    (py "price", JInt 100) ]) |}.

Definition blank_item_request : Request :=
  {| req_json :=
       Some (JObj [ (py "public_no", JStr (py "A-1"));
                    (py "item", JStr (py "  "));
                    (py "status", JStr (py "new")) ]) |}.

(** ** The settings of the process, the allowed origins and [startup] *)

Module Settings.

(** The four module-level settings of lines 12 to 15. *)
Record t : Type := Make {
  BOT_TOKEN : pystr;
  ADMIN_API_TOKEN : pystr;
  DATABASE_URL : pystr;
  WEBAPP_ORIGINS : pystr }.

End Settings.

(** [os.getenv(name, "").strip()] *)
Definition getenv_strip (environ : gmap pystr pystr) (name : pystr) : pystr :=
  strip (default [] (environ !! name)).

(** The value of a parameter declared [Header(default="")]: that of the
    header as the framework hands it over, and the empty text when the
    request has no such header. *)
Definition header_param (header : option pystr) : pystr := default [] header.

(** Lines 12 to 22: the settings are read and trimmed, and the module
    refuses to load when one of the first three is empty. *)
Definition load_settings (environ : gmap pystr pystr) : result Settings.t :=
  let bot_token := getenv_strip environ (py "BOT_TOKEN") in
  let admin_api_token := getenv_strip environ (py "ADMIN_API_TOKEN") in
  let database_url := getenv_strip environ (py "DATABASE_URL") in
  let webapp_origins := getenv_strip environ (py "WEBAPP_ORIGINS") in
  if negb (nonempty bot_token) then
    Raise (RuntimeError "BOT_TOKEN env is required")
  else if negb (nonempty admin_api_token) then
    Raise (RuntimeError "ADMIN_API_TOKEN env is required")
  else if negb (nonempty database_url) then
    Raise (RuntimeError "DATABASE_URL env is required")
  else Ok (Settings.Make bot_token admin_api_token database_url webapp_origins).

(** Line 26: the origins handed to the CORS middleware. *)
Definition origins (WEBAPP_ORIGINS : pystr) : list pystr :=
  match WEBAPP_ORIGINS with
  | [] => [py "*"]
  | _ :: _ =>
      List.map strip
        (List.filter (fun o => nonempty (strip o)) (split_char 44 WEBAPP_ORIGINS))
  end.

(** [startup]: the pool is opened on the server and [SCHEMA_SQL] is run.
    The server is [None] as long as the tables do not exist;
    [CREATE TABLE IF NOT EXISTS] makes an empty table with a fresh sequence
    in that case and leaves an existing table alone. The result is the pool
    the handlers use. *)
Definition startup (server : option database) : option database :=
  Some (match server with
        | Some db => db
        | None => {| orders := []; orders_id_seq := 0 |}
        end).

(** ** What holds of every table the handlers have filled *)

(** A text that [strip] leaves as it is and that is not empty. *)
Definition trimmed (s : pystr) : Prop := s <> [] /\ strip s = s.

(** An optional integer that fits a column of [bits] bits. *)
Definition fits (bits : Z) (x : option Z) : Prop :=
  match x with
  | Some n => in_range bits n = true
  | None => True
  end.

(** A row as [admin_upsert] writes them: the three required columns are
    trimmed and not empty, [services_json] is the JSON text of a list of
    trimmed, non-empty strings, the two integer columns fit their types and
    the order is open. *)
Definition row_ok (r : order) : Prop :=
  trimmed (public_no r) /\ trimmed (item r) /\ trimmed (status r)
  /\ (exists entries, services_json r = json_dumps entries /\ Forall trimmed entries)
  /\ fits 64 (owner_tg_id r) /\ fits 32 (price r)
  /\ is_closed r = false.

(** The values of a statement that writes such a row. *)
Definition values_ok (v : upsert_values) : Prop :=
  trimmed (v_public_no v) /\ trimmed (v_item v) /\ trimmed (v_status v)
  /\ (exists entries, v_services_json v = json_dumps entries /\ Forall trimmed entries)
  /\ fits 64 (v_owner_tg_id v) /\ fits 32 (v_price v).

(** The strings [admin_upsert] keeps of the entries of [services]. *)
Definition kept_services (py_str : json -> pystr) (entries : list json) : list pystr :=
  List.map (fun x => strip (py_str x))
    (List.filter (fun x => nonempty (strip (py_str x))) entries).

Definition table_ok (db : database) : Prop :=
  NoDup (List.map public_no (orders db)) /\ Forall row_ok (orders db).

Section Reachable.

Variable ADMIN_API_TOKEN : pystr.
Variable py_repr : json -> pystr.
Variable pg_int_coerce : json -> option Z.

(** The pools the process can be in: [startup] on a server without tables,
    then any number of [admin_upsert] requests ([me_orders] writes
    nothing). *)
Inductive reachable : option database -> Prop :=
| reachable_startup : reachable (startup None)
| reachable_upsert (pool : option database) (now : Z) (req : Request)
    (x_admin_token : pystr) :
    reachable pool ->
    reachable (admin_upsert ADMIN_API_TOKEN py_repr pg_int_coerce
                 pool now req x_admin_token).2.

End Reachable.

(** A lower-case hexadecimal digit. *)
Definition is_lower_hex (c : N) : bool :=
  ((48 <=? c) && (c <=? 57)) || ((97 <=? c) && (c <=? 102)).

(** The answers of [verify_init_data] that are not an identity. *)
Definition verifier_error (e : exn) : Prop :=
  e = HTTPException 401 "Missing initData"
  \/ e = HTTPException 401 "Missing hash"
  \/ e = HTTPException 401 "Bad signature"
  \/ e = HTTPException 401 "Missing user"
  \/ e = HTTPException 401 "Bad user json"
  \/ e = UnicodeEncodeError.


(** The two ways in which [json.loads] fails. *)
Definition decode_error (e : exn) : Prop := e = JSONDecodeError \/ e = RecursionError.

(** [negb] of [has_public_no]: the rows of another number. *)
Definition other_public_no (no : pystr) (r : order) : bool := negb (has_public_no no r).

(** A text of white space only, the empty text included. *)
Definition blank (s : pystr) : bool := forallb isspace s.

(** The variable [name] is set, and not to a blank text. *)
Definition given (environ : gmap pystr pystr) (name : pystr) : Prop :=
  exists value, environ !! name = Some value /\ blank value = false.

(** An environment: a space before the bot token, a line feed after the
    admin token, and a comma at the end of the origins. *)
Definition sample_environ : gmap pystr pystr :=
  list_to_map
    [ (py "BOT_TOKEN", py " 123456:TEST");
      (py "ADMIN_API_TOKEN", py "adm-secret" ++ [10]);
      (py "DATABASE_URL", py "postgres://db/shetka");
      (py "WEBAPP_ORIGINS", py "https://a.example, https://b.example,") ].

(** A request for the owner 42 with [services] zero, one with [services] a
    text and one with [services] [true]. *)
Definition owned_members : list (pystr * json) :=
  [ (py "public_no", JStr (py "A-9"));
    (py "owner_tg_id", JInt 42);
    (py "owner_phone", JStr (py "+7900"));
    (py "item", JStr (py "rug"));
    (py "status", JStr (py "new"));
    (py "services", JInt 0) ].

Definition owned_request : Request := {| req_json := Some (JObj owned_members) |}.

Definition text_members : list (pystr * json) :=
  [ (py "public_no", JStr (py "A-9"));
    (py "item", JStr (py "rug"));
    (py "status", JStr (py "new"));
    (py "services", JStr (py "a b")) ].

Definition text_services_request : Request :=
  {| req_json := Some (JObj text_members) |}.

Definition flag_members : list (pystr * json) :=
  [ (py "public_no", JStr (py "A-9"));
    (py "item", JStr (py "rug"));
    (py "status", JStr (py "new"));
    (py "services", JBool true) ].

Definition flag_services_request : Request :=
  {| req_json := Some (JObj flag_members) |}.

(** What [text_services_request] stores at time 500 in an empty table. *)
Definition text_values : upsert_values :=
  UpsertValues (py "A-9") None None (py "rug") (json_dumps [[97]; [98]]) (py "new")
               None None.

(** The table of three orders after [sample_request] at time 500, and the
    row of [A-1] in it. *)
Definition sample_stored : database :=
  upsert_order sample_orders 500
    (UpsertValues (py "A-1") None None (py "coat") wash_iron_json (py "new")
                  (Some 100%Z) None).

Definition sample_updated_row : order :=
  Order 1 (py "A-1") None None (py "coat") wash_iron_json (py "new")
        (Some 100%Z) None false 100 500.

(** An empty table after [owned_request] at time 500, and its row. *)
Definition owned_values : upsert_values :=
  UpsertValues (py "A-9") (Some 42%Z) (Some (py "+7900")) (py "rug") (py "[]")
               (py "new") None None.

Definition owned_stored : database :=
  upsert_order {| orders := []; orders_id_seq := 0 |} 500 owned_values.

Definition owned_row : order :=
  Order 1 (py "A-9") (Some 42%Z) (Some (py "+7900")) (py "rug") (py "[]") (py "new")
        None None false 500 500.

(** A request with [null] for the three required fields, and what it
    stores at time 500 in an empty table. *)
Definition null_members : list (pystr * json) :=
  [ (py "public_no", JNull); (py "item", JNull); (py "status", JNull) ].

Definition null_request : Request := {| req_json := Some (JObj null_members) |}.

Definition null_stored : database :=
  upsert_order {| orders := []; orders_id_seq := 0 |} 500
    (UpsertValues (py "None") None None (py "None") (py "[]") (py "None") None None).

(** * Properties *)

(** ** Known answers of the library functions *)

Example sha256_abc :
  hex (SHA256.digest (py "abc"))
  = py "ba7816bf8f01cfea414140de5dae2223b00361a396177a9cb410ff61f20015ad".
Proof. vm_compute. reflexivity. Qed.

Example sha256_empty :
  hex (SHA256.digest [])
  = py "e3b0c44298fc1c149afbf4c8996fb92427ae41e4649b934ca495991b7852b855".
Proof. vm_compute. reflexivity. Qed.

Example hmac_sha256_jefe :
  hmac_sha256_hexdigest (py "Jefe") (py "what do ya want for nothing?")
  = py "5bdcc146bf60754e6a042426089575c75a003f089d2739839dec58b964ec3843".
Proof. vm_compute. reflexivity. Qed.

Example parse_qsl_keeps_blank_values :
  parse_qsl (py "a=1&b&a=2&c=")
  = [(py "a", py "1"); (py "b", []); (py "a", py "2"); (py "c", [])].
Proof. vm_compute. reflexivity. Qed.

Example dict_last_value_wins :
  dict (parse_qsl (py "a=1&b&a=2&c=")) !! py "a" = Some (py "2").
Proof. vm_compute. reflexivity. Qed.

Example parse_qsl_unquotes :
  parse_qsl (py "q=a+b%21&%D0%9F=1") = [(py "q", py "a b!"); ([1055], py "1")].
Proof. vm_compute. reflexivity. Qed.

Example json_loads_array :
  json_loads (py " [true, null, -1.5e1, 42] ")
  = Ok (JArr [JBool true; JNull;
              JFloat (S754_finite true 8444249301319680 (-49)); JInt 42]).
Proof. vm_compute. reflexivity. Qed.

Example json_loads_user : json_loads sample_user_raw = Ok (JObj [(py "id", JInt 42)]).
Proof. vm_compute. reflexivity. Qed.

Example json_loads_trailing_comma : json_loads (py "[1,]") = Raise JSONDecodeError.
Proof. vm_compute. reflexivity. Qed.

Example strip_wash : strip ([32; 32] ++ py "wash" ++ [9; 10]) = py "wash".
Proof. vm_compute. reflexivity. Qed.

Example int_of_str_underscore : int_of_str (py " 4_2 ") = Ok 42%Z.
Proof. vm_compute. reflexivity. Qed.

Example sorted_keys :
  sorted [py "b"; py "a"; py "aa"; py "B"; []] = [[]; py "B"; py "a"; py "aa"; py "b"].
Proof. vm_compute. reflexivity. Qed.

Example data_check_sample :
  data_check (delete (py "hash") (dict (parse_qsl sample_init_data)))
  = py "auth_date=1700000000" ++ [10] ++ py "user=" ++ sample_user_raw.
Proof. vm_compute. reflexivity. Qed.

(** ** The order on [str] *)

Lemma str_leb_refl (a : pystr) : str_leb a a = true.
Proof.
  induction a as [|x a IH]; simpl; [reflexivity|].
  rewrite N.eqb_refl, IH. apply orb_true_r.
Qed.

Lemma str_leb_cons (x y : N) (a b : pystr) :
  str_leb (x :: a) (y :: b) = true <-> x < y \/ (x = y /\ str_leb a b = true).
Proof.
  simpl. rewrite orb_true_iff, andb_true_iff, N.ltb_lt, N.eqb_eq. tauto.
Qed.

#[global] Instance str_le_trans : Transitive str_le.
Proof.
  unfold str_le. intros a. induction a as [|x a IH]; intros [|y b] [|z c];
    try (simpl; congruence).
  rewrite !str_leb_cons. intros [Hxy|[-> Hab]] [Hyz|[-> Hbc]].
  - left. lia.
  - left. assumption.
  - left. assumption.
  - right. split; [reflexivity|]. exact (IH b c Hab Hbc).
Qed.

#[global] Instance str_le_total : Total str_le.
Proof.
  unfold str_le. intros a. induction a as [|x a IH]; intros [|y b];
    try (simpl; tauto).
  rewrite !str_leb_cons.
  destruct (N.lt_trichotomy x y) as [H|[->|H]]; [tauto| |tauto].
  destruct (IH b); tauto.
Qed.

#[global] Instance str_le_antisym : AntiSymm (=) str_le.
Proof.
  unfold str_le. intros a. induction a as [|x a IH]; intros [|y b];
    try (simpl; congruence).
  rewrite !str_leb_cons. intros [Hxy|[-> Hab]] [Hyx|[Heq Hba]]; try lia.
  f_equal. apply IH; assumption.
Qed.

(** [sorted] is the one sorted arrangement of a list of distinct keys. *)
Lemma sorted_unique (keys l : list pystr) :
  l ≡ₚ keys -> StronglySorted str_le l -> sorted keys = l.
Proof.
  intros Hperm Hsorted. unfold sorted.
  apply (StronglySorted_unique str_le).
  - apply StronglySorted_merge_sort; apply _.
  - assumption.
  - rewrite merge_sort_Permutation. symmetry. assumption.
Qed.

(** ** Digests *)

Lemma be_bytes_length (n : nat) (x : N) : length (SHA256.be_bytes n x) = n.
Proof. unfold SHA256.be_bytes. rewrite length_map, length_rev, length_seq. reflexivity. Qed.

Lemma digest_length (msg : pybytes) : length (SHA256.digest msg) = 32%nat.
Proof.
  unfold SHA256.digest.
  generalize (SHA256.blocks (length (SHA256.words (length (SHA256.pad msg)) (SHA256.pad msg)))
                SHA256.initial (SHA256.words (length (SHA256.pad msg)) (SHA256.pad msg))).
  intros s. cbn [flat_map]. rewrite !length_app, !be_bytes_length. reflexivity.
Qed.

Lemma hex_length (bs : pybytes) : length (hex bs) = (2 * length bs)%nat.
Proof. induction bs as [|b bs IH]; simpl; [reflexivity|]. rewrite IH. lia. Qed.

Lemma hexdigest_length (key msg : pybytes) :
  length (hmac_sha256_hexdigest key msg) = 64%nat.
Proof.
  unfold hmac_sha256_hexdigest, hmac_sha256. rewrite hex_length, digest_length.
  reflexivity.
Qed.

(** ** The signature verifier *)

Section Verifier.

Variable BOT_TOKEN : pystr.

(** The check-string is the lines of any key-sorted listing of the pairs. *)
Lemma data_check_lines (pairs : gmap pystr pystr) (kvs : list (pystr * pystr)) :
  kvs ≡ₚ map_to_list pairs ->
  StronglySorted key_le kvs ->
  data_check pairs = join [10] (List.map key_value_line kvs).
Proof.
  intros Hperm Hsorted. unfold data_check.
  rewrite (sorted_unique _ (kvs.*1)).
  - f_equal.
    assert (Hin : forall kv, kv ∈ kvs -> pairs !! kv.1 = Some kv.2).
    { intros [k v] Hkv. apply elem_of_map_to_list. rewrite <- Hperm. exact Hkv. }
    clear Hperm Hsorted. induction kvs as [|kv kvs IH]; [reflexivity|].
    cbn [fmap list_fmap List.map]. f_equal.
    + unfold key_value_line. rewrite (Hin kv) by left. reflexivity.
    + apply IH. intros kv' Hkv'. apply Hin. right. exact Hkv'.
  - rewrite Hperm. reflexivity.
  - apply (StronglySorted_fmap fst key_le str_le); [|exact Hsorted].
    intros x y Hxy. exact Hxy.
Qed.

Lemma calc_hash_nonempty (pairs : gmap pystr pystr) (h : pystr) :
  calc_hash BOT_TOKEN pairs = Ok h -> h <> [].
Proof.
  unfold calc_hash, secret_key.
  destruct (encode BOT_TOKEN) as [token|]; [|discriminate]. cbn [bind].
  destruct (encode (data_check pairs)) as [message|]; [|discriminate].
  cbn [bind]. intros [= <-] Hnil.
  pose proof (hexdigest_length (hmac_sha256 (py "WebAppData") token) message) as Hlen.
  rewrite Hnil in Hlen. discriminate.
Qed.

(** How [verify_init_data] goes on once a hash is found and the signature
    matches it. *)
Lemma verify_signed (init_data : pystr) (h : pystr) :
  dict (parse_qsl init_data) !! py "hash" = Some h ->
  calc_hash BOT_TOKEN (delete (py "hash") (dict (parse_qsl init_data))) = Ok h ->
  verify_init_data BOT_TOKEN init_data =
    match dict (parse_qsl init_data) !! py "user" with
    | None | Some [] => Raise (HTTPException 401 "Missing user")
    | Some user_raw =>
        except_raise (json_loads user_raw) (HTTPException 401 "Bad user json")
    end.
Proof.
  intros Hhash Hcalc. pose proof (calc_hash_nonempty _ _ Hcalc) as Hne.
  unfold verify_init_data. destruct init_data as [|c s].
  { vm_compute in Hhash. discriminate. }
  rewrite Hhash. destruct h as [|c0 h0]; [congruence|].
  rewrite Hcalc. cbn [bind]. rewrite bool_decide_eq_true_2 by reflexivity.
  rewrite lookup_delete_ne by (vm_compute; discriminate). reflexivity.
Qed.

(** How it ends when the signature does not match. *)
Lemma verify_mismatch (init_data : pystr) (h calc : pystr) :
  dict (parse_qsl init_data) !! py "hash" = Some h ->
  h <> [] ->
  calc_hash BOT_TOKEN (delete (py "hash") (dict (parse_qsl init_data))) = Ok calc ->
  calc <> h ->
  verify_init_data BOT_TOKEN init_data = Raise (HTTPException 401 "Bad signature").
Proof.
  intros Hhash Hne Hcalc Hdiff.
  unfold verify_init_data. destruct init_data as [|c s].
  { vm_compute in Hhash. discriminate. }
  rewrite Hhash. destruct h as [|c0 h0]; [congruence|].
  rewrite Hcalc. cbn [bind]. rewrite bool_decide_eq_false_2 by exact Hdiff.
  reflexivity.
Qed.

(** A successful verification has found a hash and matched it. *)
Lemma verify_ok_inv (init_data : pystr) (user : json) :
  verify_init_data BOT_TOKEN init_data = Ok user ->
  exists h, dict (parse_qsl init_data) !! py "hash" = Some h /\
            calc_hash BOT_TOKEN (delete (py "hash") (dict (parse_qsl init_data))) = Ok h.
Proof.
  unfold verify_init_data. destruct init_data as [|c s]; [discriminate|].
  destruct (dict (parse_qsl (c :: s)) !! py "hash") as [[|c0 h0]|];
    [discriminate| |discriminate].
  destruct (calc_hash BOT_TOKEN _) as [calc|]; [|discriminate]. cbn [bind].
  destruct (bool_decide_reflect (calc = c0 :: h0)) as [->|]; [|discriminate].
  intros _. exists (c0 :: h0). split; reflexivity.
Qed.

(** C1. A non-empty payload whose received hash is the hexadecimal
    HMAC-SHA256 of the check-string (the pairs other than [hash], sorted
    by key, each written [key=value], joined by single newlines, none at
    the end) under the key HMAC-SHA256("WebAppData", bot token), and whose
    [user] value decodes as JSON, verifies and yields exactly the decoded
    value. In particular the pairs [auth_date=1700000000] and
    [user={"id":42}] under their correct hash yield an identity whose
    [id] is 42. *)
Theorem verify_init_data_accepts :
  (forall (init_data recv_hash token message user_raw : pystr)
          (kvs : list (pystr * pystr)) (user : json),
      init_data <> [] ->
      dict (parse_qsl init_data) !! py "hash" = Some recv_hash ->
      kvs ≡ₚ map_to_list (delete (py "hash") (dict (parse_qsl init_data))) ->
      StronglySorted key_le kvs ->
      encode BOT_TOKEN = Ok token ->
      encode (join [10] (List.map key_value_line kvs)) = Ok message ->
      recv_hash = hex (hmac_sha256 (hmac_sha256 (py "WebAppData") token) message) ->
      dict (parse_qsl init_data) !! py "user" = Some user_raw ->
      json_loads user_raw = Ok user ->
      verify_init_data BOT_TOKEN init_data = Ok user)
  /\
  (forall (init_data recv_hash token : pystr),
      dict (parse_qsl init_data) =
        <[py "hash" := recv_hash]>
          (<[py "auth_date" := py "1700000000"]>
             (<[py "user" := sample_user_raw]> ∅)) ->
      encode BOT_TOKEN = Ok token ->
      recv_hash = hex (hmac_sha256 (hmac_sha256 (py "WebAppData") token)
                         (py "auth_date=1700000000" ++ [10] ++ py "user="
                          ++ sample_user_raw)) ->
      exists user, verify_init_data BOT_TOKEN init_data = Ok user /\
                   getitem user (py "id") = Ok (JInt 42)).
Proof.
  assert (General : forall (init_data recv_hash token message user_raw : pystr)
          (kvs : list (pystr * pystr)) (user : json),
      dict (parse_qsl init_data) !! py "hash" = Some recv_hash ->
      kvs ≡ₚ map_to_list (delete (py "hash") (dict (parse_qsl init_data))) ->
      StronglySorted key_le kvs ->
      encode BOT_TOKEN = Ok token ->
      encode (join [10] (List.map key_value_line kvs)) = Ok message ->
      recv_hash = hex (hmac_sha256 (hmac_sha256 (py "WebAppData") token) message) ->
      dict (parse_qsl init_data) !! py "user" = Some user_raw ->
      json_loads user_raw = Ok user ->
      verify_init_data BOT_TOKEN init_data = Ok user).
  { intros init_data recv_hash token message user_raw kvs user
           Hhash Hperm Hsorted Htoken Hmsg Hrecv Huser Hjson.
    rewrite (verify_signed init_data recv_hash Hhash).
    - rewrite Huser. destruct user_raw as [|c r].
      + vm_compute in Hjson. discriminate.
      + rewrite Hjson. reflexivity.
    - unfold calc_hash, secret_key. rewrite Htoken. cbn [bind].
      rewrite (data_check_lines _ kvs Hperm Hsorted), Hmsg. cbn [bind].
      rewrite Hrecv. reflexivity. }
  split.
  - intros init_data recv_hash token message user_raw kvs user _. apply General.
  - intros init_data recv_hash token Hdict Htoken Hrecv.
    exists (JObj [(py "id", JInt 42)]). split; [|reflexivity].
    apply (General init_data recv_hash token
             (py "auth_date=1700000000" ++ [10] ++ py "user=" ++ sample_user_raw)
             sample_user_raw
             [(py "auth_date", py "1700000000"); (py "user", sample_user_raw)]).
    + rewrite Hdict. apply lookup_insert_eq.
    + rewrite Hdict, delete_insert_eq, delete_insert_ne by (vm_compute; discriminate).
      rewrite delete_insert_ne by (vm_compute; discriminate). rewrite delete_empty.
      rewrite map_to_list_insert by (rewrite lookup_insert_ne by (vm_compute; discriminate);
                                     apply lookup_empty).
      rewrite map_to_list_insert by apply lookup_empty.
      rewrite map_to_list_empty. reflexivity.
    + repeat constructor.
    + exact Htoken.
    + vm_compute. reflexivity.
    + exact Hrecv.
    + rewrite Hdict. rewrite !lookup_insert_ne by (vm_compute; discriminate).
      apply lookup_insert_eq.
    + vm_compute. reflexivity.
Qed.

(** C4. The failures of the verifier come in order: the empty payload is
    a missing payload; a non-empty payload without a [hash] key is a
    missing hash, never a bad signature; and a bad signature is only ever
    reported for a payload in which a hash value was received. *)
Theorem verify_init_data_failure_order :
  verify_init_data BOT_TOKEN [] = Raise (HTTPException 401 "Missing initData")
  /\
  (forall init_data : pystr,
      init_data <> [] ->
      dict (parse_qsl init_data) !! py "hash" = None ->
      verify_init_data BOT_TOKEN init_data = Raise (HTTPException 401 "Missing hash"))
  /\
  (forall init_data : pystr,
      verify_init_data BOT_TOKEN init_data = Raise (HTTPException 401 "Bad signature") ->
      exists recv_hash, dict (parse_qsl init_data) !! py "hash" = Some recv_hash
                        /\ recv_hash <> []).
Proof.
  split; [reflexivity|]. split.
  - intros [|c s] Hne Hnone; [congruence|].
    unfold verify_init_data. rewrite Hnone. reflexivity.
  - intros [|c s]; [discriminate|]. unfold verify_init_data.
    destruct (dict (parse_qsl (c :: s)) !! py "hash") as [[|c0 h0]|];
      [discriminate| |discriminate].
    intros _. exists (c0 :: h0). split; [reflexivity|discriminate].
Qed.

(** C9. When a payload verifies, every payload whose pairs are the same
    except that one character of the received hash value is changed fails
    with the bad-signature error. *)
Theorem verify_init_data_rejects_changed_hash
    (init_data init_data' recv_hash recv_hash' : pystr) (user : json) :
  verify_init_data BOT_TOKEN init_data = Ok user ->
  dict (parse_qsl init_data) !! py "hash" = Some recv_hash ->
  one_char_changed recv_hash recv_hash' ->
  dict (parse_qsl init_data') = <[py "hash" := recv_hash']> (dict (parse_qsl init_data)) ->
  verify_init_data BOT_TOKEN init_data' = Raise (HTTPException 401 "Bad signature").
Proof.
  intros Hok Hhash (before & c & c' & after & Hc & Hh & Hh') Hdict.
  destruct (verify_ok_inv _ _ Hok) as (h & Hhash2 & Hcalc).
  rewrite Hhash in Hhash2. injection Hhash2 as <-.
  apply (verify_mismatch init_data' recv_hash' recv_hash).
  - rewrite Hdict. apply lookup_insert_eq.
  - rewrite Hh'. destruct before; discriminate.
  - rewrite Hdict, delete_insert_eq. exact Hcalc.
  - rewrite Hh, Hh'. intros Heq. apply app_inv_head in Heq. congruence.
Qed.

(** C10. Blank values are kept by the parser, yet for its two look-ups
    the verifier treats a key with an empty value as an absent key: an
    empty [hash] is a missing hash, not a bad signature; and under a valid
    signature an empty [user] is a missing user, not bad user JSON. *)
Theorem verify_init_data_blank_values :
  parse_qsl (py "hash=") = [(py "hash", [])]
  /\
  (forall init_data : pystr,
      init_data <> [] ->
      dict (parse_qsl init_data) !! py "hash" = Some [] ->
      verify_init_data BOT_TOKEN init_data = Raise (HTTPException 401 "Missing hash"))
  /\
  (forall init_data recv_hash : pystr,
      dict (parse_qsl init_data) !! py "hash" = Some recv_hash ->
      calc_hash BOT_TOKEN (delete (py "hash") (dict (parse_qsl init_data))) = Ok recv_hash ->
      dict (parse_qsl init_data) !! py "user" = Some [] ->
      verify_init_data BOT_TOKEN init_data = Raise (HTTPException 401 "Missing user")).
Proof.
  split; [reflexivity|]. split.
  - intros [|c s] Hne Hblank; [congruence|].
    unfold verify_init_data. rewrite Hblank. reflexivity.
  - intros init_data recv_hash Hhash Hcalc Huser.
    rewrite (verify_signed init_data recv_hash Hhash Hcalc), Huser.
    reflexivity.
Qed.

End Verifier.

(** The sample payload verifies under the sample token, and its identity
    has [id] 42. *)
Lemma verify_init_data_accepts_witness :
  verify_init_data sample_token sample_init_data = Ok (JObj [(py "id", JInt 42)])
  /\ exists user, verify_init_data sample_token sample_init_data = Ok user /\
                  getitem user (py "id") = Ok (JInt 42).
Proof.
  split.
  - apply (proj1 (verify_init_data_accepts sample_token)
             sample_init_data sample_hash (py "123456:TEST")
             (py "auth_date=1700000000" ++ [10] ++ py "user=" ++ sample_user_raw)
             sample_user_raw
             [(py "auth_date", py "1700000000"); (py "user", sample_user_raw)]).
    + discriminate.
    + vm_compute. reflexivity.
    + vm_compute. apply perm_swap.
    + repeat constructor.
    + vm_compute. reflexivity.
    + vm_compute. reflexivity.
    + vm_compute. reflexivity.
    + vm_compute. reflexivity.
    + vm_compute. reflexivity.
  - apply (proj2 (verify_init_data_accepts sample_token)
             sample_init_data sample_hash (py "123456:TEST")).
    + vm_compute. reflexivity.
    + vm_compute. reflexivity.
    + vm_compute. reflexivity.
Defined.

(** A payload without [hash] is a missing hash; the tampered sample, a bad
    signature, has a hash. *)
Lemma verify_init_data_failure_order_witness :
  verify_init_data sample_token (py "user=1") = Raise (HTTPException 401 "Missing hash")
  /\ exists recv_hash,
       dict (parse_qsl tampered_init_data) !! py "hash" = Some recv_hash /\ recv_hash <> [].
Proof.
  split.
  - apply (proj1 (proj2 (verify_init_data_failure_order sample_token))).
    + discriminate.
    + vm_compute. reflexivity.
  - apply (proj2 (proj2 (verify_init_data_failure_order sample_token))).
    vm_compute. reflexivity.
Defined.

(** Changing the first character of the sample's hash from 3 to 4. *)
Lemma verify_init_data_rejects_changed_hash_witness :
  verify_init_data sample_token tampered_init_data
  = Raise (HTTPException 401 "Bad signature").
Proof.
  apply (verify_init_data_rejects_changed_hash sample_token
           sample_init_data tampered_init_data sample_hash
           (py "4bf81034acdc4b104a28594259cd3575dee2cd671f279463ad388e7eb6757b8b")
           (JObj [(py "id", JInt 42)])).
  - vm_compute. reflexivity.
  - vm_compute. reflexivity.
  - exists [], 51, 52,
      (py "bf81034acdc4b104a28594259cd3575dee2cd671f279463ad388e7eb6757b8b").
    split; [discriminate|]. split; vm_compute; reflexivity.
  - vm_compute. reflexivity.
Defined.

(** [hash=] is a missing hash; the signed payload with [user=] is a missing
    user. *)
Lemma verify_init_data_blank_values_witness :
  verify_init_data sample_token (py "hash=") = Raise (HTTPException 401 "Missing hash")
  /\ verify_init_data sample_token blank_user_init_data
     = Raise (HTTPException 401 "Missing user").
Proof.
  split.
  - apply (proj1 (proj2 (verify_init_data_blank_values sample_token))).
    + discriminate.
    + vm_compute. reflexivity.
  - apply (proj2 (proj2 (verify_init_data_blank_values sample_token))
             blank_user_init_data
             (py "5ffe8b1cf823fe6310790d0c45cc655ac45ab27a1ff1433e02f18092148fe740")).
    + vm_compute. reflexivity.
    + vm_compute. reflexivity.
    + vm_compute. reflexivity.
Defined.

(** ** Exceptions of the steps of the handlers *)

Lemma bind_raise_inv {A B : Type} (r : result A) (k : A -> result B) (e : exn) :
  bind r k = Raise e -> r = Raise e \/ exists a, r = Ok a /\ k a = Raise e.
Proof. destruct r as [a|e']; unfold bind; intros H; [right; exists a; tauto | left; congruence]. Qed.

Lemma bind_ok_inv {A B : Type} (r : result A) (k : A -> result B) (b : B) :
  bind r k = Ok b -> exists a, r = Ok a /\ k a = Ok b.
Proof. destruct r as [a|e']; unfold bind; intros H; [exists a; tauto | discriminate]. Qed.

Lemma unhandled_status (e : exn) : unhandled e -> http_status e = 500%Z.
Proof. destruct e; simpl; tauto. Qed.

Lemma getitem_raises (x : json) (key : pystr) (e : exn) :
  getitem x key = Raise e -> e = KeyError \/ e = TypeError.
Proof.
  destruct x; simpl; try (intros [= <-]; tauto).
  destruct (dict_get key members); [discriminate|]. intros [= <-]. tauto.
Qed.

Lemma int_of_str_raises (s : pystr) (e : exn) :
  int_of_str s = Raise e -> e = ValueError.
Proof.
  unfold int_of_str. destruct (to_ascii_decimal s) as [t|]; [|congruence].
  destruct (match skip_c_space t with
            | [] => (false, skip_c_space t)
            | c :: r => if c =? 45 then (true, r)
                        else if c =? 43 then (false, r) else (false, skip_c_space t)
            end) as [neg t2].
  destruct t2 as [|d t3]; [congruence|].
  destruct (is_digit d); [|congruence].
  destruct (int_digits 0 false (d :: t3)); congruence.
Qed.

Lemma py_int_raises (x : json) (e : exn) :
  py_int x = Raise e -> e = TypeError \/ e = ValueError \/ e = OverflowError.
Proof.
  destruct x as [|b|n|f|s|items|members]; simpl; try discriminate;
    try (intros [= <-]; tauto).
  - destruct f; simpl; try discriminate; intros [= <-]; tauto.
  - intros H. apply int_of_str_raises in H. tauto.
Qed.

(** ** [GET /api/me/orders] *)

Section MeOrders.

Variable BOT_TOKEN : pystr.

(** C3, as the code has it. When the payload verifies and the identity has
    no [id], or an [id] that [int] does not accept, the handler does not
    answer 401: the [KeyError], [TypeError], [ValueError] or [OverflowError]
    of the look-up or of the conversion leaves it unhandled, whatever the
    state of the pool, and the answer has status 500. *)
Theorem me_orders_unusable_id
    (pool : option database) (init_data : pystr) (user : json) (e : exn) :
  verify_init_data BOT_TOKEN init_data = Ok user ->
  (getitem user (py "id") = Raise e
   \/ exists v, getitem user (py "id") = Ok v /\ py_int v = Raise e) ->
  me_orders BOT_TOKEN pool init_data = Raise e
  /\ (e = KeyError \/ e = TypeError \/ e = ValueError \/ e = OverflowError)
  /\ response_status (me_orders BOT_TOKEN pool init_data) = 500%Z.
Proof.
  intros Hverify Hid.
  assert (Hrun : me_orders BOT_TOKEN pool init_data = Raise e).
  { unfold me_orders. rewrite Hverify. cbn [bind].
    destruct Hid as [Hget|(v & Hget & Hint)]; rewrite Hget; cbn [bind].
    - reflexivity.
    - rewrite Hint. reflexivity. }
  assert (Hkind : e = KeyError \/ e = TypeError \/ e = ValueError \/ e = OverflowError).
  { destruct Hid as [Hget|(v & _ & Hint)].
    - apply getitem_raises in Hget. tauto.
    - apply py_int_raises in Hint. tauto. }
  split; [exact Hrun|]. split; [exact Hkind|].
  rewrite Hrun. destruct Hkind as [->|[->|[->| ->]]]; reflexivity.
Qed.

End MeOrders.

(** The signed payload without [id], and the one whose [id] is the text
    [abc], against a ready pool. *)
Lemma me_orders_unusable_id_witness :
  me_orders sample_token (Some (Database [] 0)) no_id_init_data = Raise KeyError
  /\ me_orders sample_token (Some (Database [] 0)) text_id_init_data = Raise ValueError.
Proof.
  split.
  - apply (me_orders_unusable_id sample_token (Some (Database [] 0)) no_id_init_data
             (JObj [(py "name", JStr (py "x"))]) KeyError).
    + vm_compute. reflexivity.
    + left. vm_compute. reflexivity.
  - apply (me_orders_unusable_id sample_token (Some (Database [] 0)) text_id_init_data
             (JObj [(py "id", JStr (py "abc"))]) ValueError).
    + vm_compute. reflexivity.
    + right. exists (JStr (py "abc")). split; vm_compute; reflexivity.
Defined.

(** C3, as the specification words it, fails: the payload
    [auth_date=1700000000&user={"name":"x"}] signed under the sample token
    verifies, its identity has no [id], and the handler raises [KeyError],
    which is answered with status 500 and not 401. *)
Lemma me_orders_missing_id_is_not_401 :
  verify_init_data sample_token no_id_init_data = Ok (JObj [(py "name", JStr (py "x"))])
  /\ getitem (JObj [(py "name", JStr (py "x"))]) (py "id") = Raise KeyError
  /\ me_orders sample_token (Some (Database [] 0)) no_id_init_data = Raise KeyError
  /\ response_status (me_orders sample_token (Some (Database [] 0)) no_id_init_data)
     <> 401%Z.
Proof.
  split; [vm_compute; reflexivity|]. split; [vm_compute; reflexivity|].
  split; [vm_compute; reflexivity|]. vm_compute. discriminate.
Qed.

(** ** Listing the orders of an owner *)

#[global] Instance newer_first_trans : Transitive newer_first.
Proof. unfold newer_first. intros a b c. lia. Qed.

#[global] Instance newer_first_total : Total newer_first.
Proof. unfold newer_first. intros a b. lia. Qed.

Lemma views_of_rows_shows (rows : list order) (views : list order_view) :
  views_of_rows rows = Ok views -> Forall2 shows views rows.
Proof.
  revert views. induction rows as [|r rows IH]; intros views.
  - intros [= <-]. constructor.
  - cbn [views_of_rows]. intros H.
    apply bind_ok_inv in H as (o & Ho & H).
    apply bind_ok_inv in H as (os & Hos & H). injection H as <-.
    constructor; [|apply IH; exact Hos].
    unfold view_of_row in Ho. apply bind_ok_inv in Ho as (services & Hs & Ho).
    injection Ho as <-. unfold shows. cbn. tauto.
Qed.

Section Listing.

Variable BOT_TOKEN : pystr.

(** C8. For every owner identifier the listing is the stored orders whose
    [owner_tg_id] is that identifier, most recently created first; for an
    owner without orders it is the empty sequence. The handler answers with
    the entries that show these rows, and with no entry, not an error, for
    an owner without orders. *)
Theorem select_orders_by_owner :
  (forall (db : database) (tg_id : Z),
      select_orders db tg_id ≡ₚ List.filter (owned_by tg_id) (orders db)
      /\ StronglySorted newer_first (select_orders db tg_id))
  /\
  (forall (db : database) (tg_id : Z),
      (forall r, r ∈ orders db -> owner_tg_id r <> Some tg_id) ->
      select_orders db tg_id = [])
  /\
  (forall (pool : option database) (init_data : pystr) (views : list order_view),
      me_orders BOT_TOKEN pool init_data = Ok views ->
      exists (user v : json) (tg_id : Z) (db : database),
        verify_init_data BOT_TOKEN init_data = Ok user
        /\ getitem user (py "id") = Ok v /\ py_int v = Ok tg_id
        /\ pool = Some db
        /\ Forall2 shows views (select_orders db tg_id))
  /\
  (forall (db : database) (init_data : pystr) (user v : json) (tg_id : Z),
      verify_init_data BOT_TOKEN init_data = Ok user ->
      getitem user (py "id") = Ok v ->
      py_int v = Ok tg_id ->
      in_range 64 tg_id = true ->
      (forall r, r ∈ orders db -> owner_tg_id r <> Some tg_id) ->
      me_orders BOT_TOKEN (Some db) init_data = Ok []).
Proof.
  assert (Hempty : forall (db : database) (tg_id : Z),
             (forall r, r ∈ orders db -> owner_tg_id r <> Some tg_id) ->
             select_orders db tg_id = []).
  { intros db tg_id Hnone. unfold select_orders.
    replace (List.filter (owned_by tg_id) (orders db)) with (@nil order); [reflexivity|].
    induction (orders db) as [|r rows IH]; [reflexivity|].
    cbn [List.filter]. unfold owned_by at 1.
    rewrite bool_decide_eq_false_2 by (apply Hnone; left).
    apply IH. intros r' Hr'. apply Hnone. right. exact Hr'. }
  split; [|split; [exact Hempty|split]].
  - intros db tg_id. unfold select_orders. split.
    + apply merge_sort_Permutation.
    + apply StronglySorted_merge_sort; apply _.
  - intros pool init_data views. unfold me_orders. intros H.
    apply bind_ok_inv in H as (user & Hverify & H).
    apply bind_ok_inv in H as (v & Hget & H).
    apply bind_ok_inv in H as (tg_id & Hint & H).
    apply bind_ok_inv in H as (db & Hpool & H).
    apply bind_ok_inv in H as (arg & Harg & H).
    revert Harg. unfold pg_int. destruct (in_range 64 tg_id); [|discriminate].
    intros [= <-].
    exists user, v, tg_id, db. repeat split; try assumption.
    + destruct pool; [injection Hpool as ->; reflexivity | discriminate].
    + apply views_of_rows_shows. exact H.
  - intros db init_data user v tg_id Hverify Hget Hint Hrange Hnone.
    unfold me_orders. rewrite Hverify. cbn [bind]. rewrite Hget. cbn [bind].
    rewrite Hint. cbn [bind require_pool]. unfold pg_int. rewrite Hrange.
    cbn [bind]. rewrite (Hempty db tg_id Hnone). reflexivity.
Qed.

End Listing.

Lemma select_orders_by_owner_witness :
  select_orders sample_orders 5 = []
  /\ me_orders sample_token (Some (Database [] 0)) sample_init_data = Ok []
  /\ List.map public_no (select_orders sample_orders 42) = [py "A-3"; py "A-1"].
Proof.
  split; [|split].
  - apply (proj1 (proj2 (select_orders_by_owner sample_token)) sample_orders 5%Z).
    intros r Hr. unfold sample_orders in Hr. cbn [orders] in Hr.
    rewrite !elem_of_cons, elem_of_nil in Hr.
    destruct Hr as [->|[->|[->|[]]]]; discriminate.
  - apply (proj2 (proj2 (proj2 (select_orders_by_owner sample_token)))
             (Database [] 0) sample_init_data
             (JObj [(py "id", JInt 42)]) (JInt 42) 42%Z).
    + vm_compute. reflexivity.
    + vm_compute. reflexivity.
    + vm_compute. reflexivity.
    + vm_compute. reflexivity.
    + intros r Hr. apply elem_of_nil in Hr. destruct Hr.
  - vm_compute. reflexivity.
Defined.

(** ** The upsert statement *)

Lemma has_public_no_spec (no : pystr) (r : order) :
  has_public_no no r = true <-> public_no r = no.
Proof. unfold has_public_no. apply bool_decide_eq_true. Qed.

Lemma filter_absent (no : pystr) (rows : list order) :
  no ∉ List.map public_no rows -> List.filter (has_public_no no) rows = [].
Proof.
  induction rows as [|r rows IH]; [reflexivity|].
  cbn [List.map List.filter]. rewrite not_elem_of_cons. intros [Hr Hrows].
  unfold has_public_no at 1. rewrite bool_decide_eq_false_2 by congruence.
  apply IH. exact Hrows.
Qed.

Lemma existsb_false_absent (no : pystr) (rows : list order) :
  existsb (has_public_no no) rows = false -> no ∉ List.map public_no rows.
Proof.
  induction rows as [|r rows IH]; cbn [existsb List.map].
  - intros _. apply not_elem_of_nil.
  - rewrite orb_false_iff. intros [Hr Hrows]. rewrite not_elem_of_cons. split.
    + intros ->. unfold has_public_no in Hr.
      rewrite bool_decide_eq_true_2 in Hr by reflexivity. discriminate.
    + apply IH. exact Hrows.
Qed.

(** Under the [UNIQUE] constraint a number that is present selects one row. *)
Lemma filter_present (no : pystr) (rows : list order) :
  NoDup (List.map public_no rows) ->
  existsb (has_public_no no) rows = true ->
  exists r, List.filter (has_public_no no) rows = [r] /\ public_no r = no.
Proof.
  induction rows as [|r rows IH]; cbn [existsb List.map List.filter]; [discriminate|].
  rewrite NoDup_cons. intros [Hr Hrows].
  destruct (has_public_no no r) eqn:Hhas.
  - intros _. apply has_public_no_spec in Hhas. exists r.
    rewrite filter_absent by (rewrite <- Hhas; exact Hr). tauto.
  - cbn [orb]. apply IH. exact Hrows.
Qed.

Lemma filter_updated (no : pystr) (f : order -> order) (rows : list order) :
  (forall r, public_no (f r) = public_no r) ->
  List.filter (has_public_no no)
    (List.map (fun r => if has_public_no no r then f r else r) rows)
  = List.map f (List.filter (has_public_no no) rows).
Proof.
  intros Hf. induction rows as [|r rows IH]; [reflexivity|].
  cbn [List.map List.filter]. destruct (has_public_no no r) eqn:Hhas.
  - assert (Hfr : has_public_no no (f r) = true).
    { apply has_public_no_spec. rewrite Hf. apply has_public_no_spec. exact Hhas. }
    rewrite Hfr. cbn [List.map]. rewrite IH. reflexivity.
  - rewrite Hhas. exact IH.
Qed.

Lemma public_no_updated (no : pystr) (f : order -> order) (rows : list order) :
  (forall r, public_no (f r) = public_no r) ->
  List.map public_no (List.map (fun r => if has_public_no no r then f r else r) rows)
  = List.map public_no rows.
Proof.
  intros Hf. induction rows as [|r rows IH]; [reflexivity|].
  cbn [List.map]. rewrite IH. destruct (has_public_no no r); [rewrite Hf|]; reflexivity.
Qed.

(** The upsert keeps the [UNIQUE] constraint on [public_no]. *)
Lemma upsert_order_unique (db : database) (now : Z) (v : upsert_values) :
  NoDup (List.map public_no (orders db)) ->
  NoDup (List.map public_no (orders (upsert_order db now v))).
Proof.
  intros Hunique. unfold upsert_order.
  destruct (existsb (has_public_no (v_public_no v)) (orders db)) eqn:Hex; cbn [orders].
  - rewrite public_no_updated by reflexivity. exact Hunique.
  - rewrite List.map_app. cbn [List.map inserted_row public_no].
    apply NoDup_app. split; [exact Hunique|]. split.
    + intros no Hno Hin. apply list_elem_of_singleton in Hin as ->.
      exact (existsb_false_absent _ _ Hex Hno).
    + apply NoDup_singleton.
Qed.

(** After the statement the number of [v] selects exactly one row: the
    listed columns hold the values of [v] and [updated_at] the time of the
    statement; [created_at] is the time of the statement for a new row and
    is kept for a row that was there. *)
Lemma upsert_order_row (db : database) (now : Z) (v : upsert_values) :
  NoDup (List.map public_no (orders db)) ->
  exists r,
    List.filter (has_public_no (v_public_no v)) (orders (upsert_order db now v)) = [r]
    /\ public_no r = v_public_no v
    /\ owner_tg_id r = v_owner_tg_id v /\ owner_phone r = v_owner_phone v
    /\ item r = v_item v /\ services_json r = v_services_json v
    /\ status r = v_status v /\ price r = v_price v /\ comment r = v_comment v
    /\ updated_at r = now
    /\ match List.filter (has_public_no (v_public_no v)) (orders db) with
       | [] => created_at r = now
       | r0 :: _ => created_at r = created_at r0
       end.
Proof.
  intros Hunique. unfold upsert_order.
  destruct (existsb (has_public_no (v_public_no v)) (orders db)) eqn:Hex; cbn [orders].
  - destruct (filter_present _ _ Hunique Hex) as (r0 & Hsel & Hno).
    exists (do_update now v r0).
    rewrite filter_updated by reflexivity. rewrite Hsel. cbn. tauto.
  - pose proof (filter_absent _ _ (existsb_false_absent _ _ Hex)) as Hsel.
    exists (inserted_row (orders_id_seq db + 1) now v).
    rewrite List.filter_app, Hsel. cbn [List.filter app].
    unfold has_public_no at 1. cbn [inserted_row public_no].
    rewrite bool_decide_eq_true_2 by reflexivity. cbn. tauto.
Qed.

(** C2. For every table that respects the [UNIQUE] constraint and every two
    upserts with the same [public_no]: afterwards exactly one row has that
    number; its mutable columns hold the values of the second call; its
    [created_at] is the one the row had after the first call, which is the
    time of the first call when that call inserted the row; and
    [updated_at] is set to the time of the call by each of the two. *)
Theorem upsert_order_twice
    (db : database) (now1 now2 : Z) (v1 v2 : upsert_values) :
  NoDup (List.map public_no (orders db)) ->
  v_public_no v2 = v_public_no v1 ->
  let db1 := upsert_order db now1 v1 in
  let db2 := upsert_order db1 now2 v2 in
  exists r1 r2,
    List.filter (has_public_no (v_public_no v1)) (orders db1) = [r1]
    /\ List.filter (has_public_no (v_public_no v1)) (orders db2) = [r2]
    /\ owner_tg_id r2 = v_owner_tg_id v2 /\ owner_phone r2 = v_owner_phone v2
    /\ item r2 = v_item v2 /\ services_json r2 = v_services_json v2
    /\ status r2 = v_status v2 /\ price r2 = v_price v2 /\ comment r2 = v_comment v2
    /\ created_at r2 = created_at r1
    /\ (List.filter (has_public_no (v_public_no v1)) (orders db) = [] ->
        created_at r1 = now1)
    /\ updated_at r1 = now1
    /\ updated_at r2 = now2.
Proof.
  intros Hunique Hsame db1 db2.
  destruct (upsert_order_row db now1 v1 Hunique)
    as (r1 & Hsel1 & _ & _ & _ & _ & _ & _ & _ & _ & Hupd1 & Hcreated1).
  destruct (upsert_order_row db1 now2 v2 (upsert_order_unique db now1 v1 Hunique))
    as (r2 & Hsel2 & _ & H2 & H3 & H4 & H5 & H6 & H7 & H8 & Hupd2 & Hcreated2).
  rewrite Hsame in Hsel2, Hcreated2. fold db1 in Hsel1. rewrite Hsel1 in Hcreated2.
  exists r1, r2. repeat split; try assumption.
  intros Hnone. rewrite Hnone in Hcreated1. exact Hcreated1.
Qed.

(** An order created at time 1000 and changed at time 2000. *)
Lemma upsert_order_twice_witness :
  exists r1 r2,
    List.filter (has_public_no (py "A-1"))
      (orders (upsert_order (Database [] 0) 1000
                 (UpsertValues (py "A-1") None None (py "coat") (py "[]") (py "new")
                               None None))) = [r1]
    /\ List.filter (has_public_no (py "A-1"))
         (orders (upsert_order
                    (upsert_order (Database [] 0) 1000
                       (UpsertValues (py "A-1") None None (py "coat") (py "[]")
                                     (py "new") None None))
                    2000
                    (UpsertValues (py "A-1") (Some 42%Z) None (py "boots") (py "[]")
                                  (py "done") (Some 900%Z) None))) = [r2]
    /\ item r2 = py "boots" /\ status r2 = py "done"
    /\ created_at r2 = 1000%Z /\ updated_at r1 = 1000%Z /\ updated_at r2 = 2000%Z.
Proof.
  destruct (upsert_order_twice (Database [] 0) 1000 2000
              (UpsertValues (py "A-1") None None (py "coat") (py "[]") (py "new")
                            None None)
              (UpsertValues (py "A-1") (Some 42%Z) None (py "boots") (py "[]")
                            (py "done") (Some 900%Z) None))
    as (r1 & r2 & H1 & H2 & _ & _ & H5 & _ & H7 & _ & _ & H10 & H11 & H12 & H13).
  - simpl. apply NoDup_nil_2.
  - reflexivity.
  - exists r1, r2. rewrite H10, (H11 eq_refl). repeat split; assumption.
Defined.

(** ** [POST /api/admin/order/upsert] *)

Lemma pg_int_raises (bits n : Z) (e : exn) : pg_int bits n = Raise e -> e = DataError.
Proof. unfold pg_int. destruct (in_range bits n); congruence. Qed.

Lemma pg_text_raises (s : pystr) (e : exn) : pg_text s = Raise e -> e = DataError.
Proof.
  unfold pg_text. destruct (encode s); [|congruence].
  destruct (existsb (N.eqb 0) s); congruence.
Qed.

Lemma pg_text_ok (s t : pystr) : pg_text s = Ok t -> t = s.
Proof.
  unfold pg_text. destruct (encode s); [|congruence].
  destruct (existsb (N.eqb 0) s); congruence.
Qed.

Lemma pg_text_opt_raises (x : json) (e : exn) :
  pg_text_opt x = Raise e -> e = DataError.
Proof.
  destruct x; simpl; try congruence.
  intros H. apply bind_raise_inv in H as [H|(t & _ & H)]; [|discriminate].
  exact (pg_text_raises _ _ H).
Qed.

Lemma py_iter_raises (x : json) (e : exn) : py_iter x = Raise e -> e = TypeError.
Proof. destruct x; simpl; congruence. Qed.

Section AdminUpsert.

Variable ADMIN_API_TOKEN : pystr.
Variable py_repr : json -> pystr.
Variable pg_int_coerce : json -> option Z.

Lemma pg_int_opt_raises (bits : Z) (x : json) (e : exn) :
  pg_int_opt pg_int_coerce bits x = Raise e -> e = DataError.
Proof.
  assert (Hint : forall n, (let* v := pg_int bits n in Ok (Some v)) = Raise e ->
                           e = DataError).
  { intros n H. apply bind_raise_inv in H as [H|(t & _ & H)]; [|discriminate].
    exact (pg_int_raises _ _ _ H). }
  destruct x; simpl; try (destruct (pg_int_coerce _)); try congruence; apply Hint.
Qed.

Lemma bind_upsert_raises (public_no : pystr) (owner_tg_id owner_phone : json)
    (item services_json status : pystr) (price comment : json) (e : exn) :
  bind_upsert pg_int_coerce public_no owner_tg_id owner_phone item services_json
              status price comment = Raise e ->
  e = DataError.
Proof.
  unfold bind_upsert. intros H.
  repeat match type of H with
         | bind _ _ = Raise _ =>
             apply bind_raise_inv in H as [H|(? & _ & H)];
             [first [ exact (pg_text_raises _ _ H)
                    | exact (pg_int_opt_raises _ _ _ H)
                    | exact (pg_text_opt_raises _ _ H) ]|]
         end.
  discriminate.
Qed.

Lemma bind_upsert_ok (public_no : pystr) (owner_tg_id owner_phone : json)
    (item services_json status : pystr) (price comment : json) (v : upsert_values) :
  bind_upsert pg_int_coerce public_no owner_tg_id owner_phone item services_json
              status price comment = Ok v ->
  v_public_no v = public_no /\ v_item v = item
  /\ v_services_json v = services_json /\ v_status v = status.
Proof using Type.
  unfold bind_upsert. intros H.
  apply bind_ok_inv in H as (a1 & H1 & H). apply bind_ok_inv in H as (a2 & H2 & H).
  apply bind_ok_inv in H as (a3 & H3 & H). apply bind_ok_inv in H as (a4 & H4 & H).
  apply bind_ok_inv in H as (a5 & H5 & H). apply bind_ok_inv in H as (a6 & H6 & H).
  apply bind_ok_inv in H as (a7 & H7 & H). apply bind_ok_inv in H as (a8 & H8 & H).
  injection H as <-. cbn.
  rewrite (pg_text_ok _ _ H1), (pg_text_ok _ _ H4), (pg_text_ok _ _ H5),
    (pg_text_ok _ _ H6). repeat split; reflexivity.
Qed.

(** The handler under the right token and a body that is a JSON object. *)
Lemma admin_upsert_run_authorised (pool : option database) (now : Z)
    (req : Request) (members : list (pystr * json)) :
  req_json req = Some (JObj members) ->
  admin_upsert_run ADMIN_API_TOKEN py_repr pg_int_coerce pool now req ADMIN_API_TOKEN
  = match required_field py_repr members (py "public_no") with
    | [] => Raise (HTTPException 400 "public_no required")
    | _ :: _ =>
        match required_field py_repr members (py "item"),
              required_field py_repr members (py "status") with
        | _ :: _, _ :: _ => store_order py_repr pg_int_coerce pool now members
        | _, _ => Raise (HTTPException 400 "item/status required")
        end
    end.
Proof.
  intros Hreq. unfold admin_upsert_run, require_admin.
  rewrite bool_decide_eq_true_2 by reflexivity. rewrite Hreq.
  cbn [bind body_get]. reflexivity.
Qed.

Lemma store_order_raises (pool : option database) (now : Z)
    (members : list (pystr * json)) (e : exn) :
  store_order py_repr pg_int_coerce pool now members = Raise e -> unhandled e.
Proof.
  unfold store_order. intros H.
  apply bind_raise_inv in H as [H|(entries & _ & H)].
  { apply py_iter_raises in H as ->. exact I. }
  apply bind_raise_inv in H as [H|(p & _ & H)].
  { destruct pool; [discriminate|]. injection H as <-. exact I. }
  apply bind_raise_inv in H as [H|(values & _ & H)]; [|discriminate].
  apply bind_upsert_raises in H as ->. exact I.
Qed.

End AdminUpsert.

(** *** Trimming *)

Lemma lstrip_snoc (s : pystr) (c : N) :
  isspace c = false -> lstrip (s ++ [c]) = lstrip s ++ [c].
Proof.
  intros Hc. induction s as [|x s IH]; cbn [lstrip app].
  - rewrite Hc. reflexivity.
  - destruct (isspace x); [exact IH | reflexivity].
Qed.

Lemma lstrip_head (s : pystr) :
  lstrip s = [] \/ exists c t, lstrip s = c :: t /\ isspace c = false.
Proof.
  induction s as [|x s IH]; cbn [lstrip]; [left; reflexivity|].
  destruct (isspace x) eqn:Hx; [exact IH|]. right. exists x, s. tauto.
Qed.

Lemma lstrip_idem (s : pystr) : lstrip (lstrip s) = lstrip s.
Proof.
  destruct (lstrip_head s) as [->|(c & t & -> & Hc)]; [reflexivity|].
  cbn [lstrip]. rewrite Hc. reflexivity.
Qed.

Lemma rstrip_idem (s : pystr) : rstrip (rstrip s) = rstrip s.
Proof. unfold rstrip. rewrite rev_involutive, lstrip_idem. reflexivity. Qed.

Lemma rstrip_cons (c : N) (t : pystr) :
  isspace c = false -> rstrip (c :: t) = c :: rstrip t.
Proof.
  intros Hc. unfold rstrip. cbn [rev]. rewrite lstrip_snoc by exact Hc.
  rewrite rev_app_distr. reflexivity.
Qed.

(** A trimmed text has nothing left to trim. *)
Lemma strip_idem (s : pystr) : strip (strip s) = strip s.
Proof.
  unfold strip. destruct (lstrip_head s) as [->|(c & t & -> & Hc)]; [reflexivity|].
  rewrite rstrip_cons by exact Hc. cbn [lstrip]. rewrite Hc.
  rewrite rstrip_cons by exact Hc. rewrite rstrip_idem. reflexivity.
Qed.

Lemma nonempty_spec (s : pystr) : nonempty s = true <-> s <> [].
Proof. unfold nonempty. destruct s; simpl; split; intros H; congruence. Qed.

(** *** The row an upsert leaves *)

Lemma upsert_order_stored (db : database) (now : Z) (v : upsert_values) :
  (exists r, r ∈ orders (upsert_order db now v) /\ public_no r = v_public_no v)
  /\ (forall r, r ∈ orders (upsert_order db now v) ->
                public_no r = v_public_no v ->
                services_json r = v_services_json v).
Proof.
  unfold upsert_order.
  destruct (existsb (has_public_no (v_public_no v)) (orders db)) eqn:Hex; cbn [orders].
  - split.
    + apply existsb_exists in Hex as (r0 & Hin & Hhas).
      exists (do_update now v r0). split.
      * apply list_elem_of_In, in_map_iff. exists r0. rewrite Hhas. tauto.
      * apply has_public_no_spec in Hhas. exact Hhas.
    + intros r Hr Hno. apply list_elem_of_In, in_map_iff in Hr as (r0 & <- & _).
      destruct (has_public_no (v_public_no v) r0) eqn:Hhas; [reflexivity|].
      apply has_public_no_spec in Hno. congruence.
  - split.
    + exists (inserted_row (orders_id_seq db + 1) now v). split; [|reflexivity].
      apply elem_of_app. right. left.
    + intros r Hr Hno. apply elem_of_app in Hr as [Hr|Hr].
      * exfalso. apply (existsb_false_absent _ _ Hex).
        rewrite <- Hno. apply list_elem_of_In, in_map, list_elem_of_In. exact Hr.
      * apply list_elem_of_singleton in Hr as ->. reflexivity.
Qed.

(** *** Texts the driver stores *)

Lemma lstrip_elem (c : N) (s : pystr) : c ∈ lstrip s -> c ∈ s.
Proof.
  induction s as [|x s IH]; cbn [lstrip]; [tauto|].
  destruct (isspace x); [|tauto]. intros H. apply elem_of_cons. right. exact (IH H).
Qed.

(** [strip] adds no character. *)
Lemma strip_elem (c : N) (s : pystr) : c ∈ strip s -> c ∈ s.
Proof.
  unfold strip, rstrip. intros H. apply lstrip_elem.
  apply list_elem_of_In, in_rev, list_elem_of_In.
  apply lstrip_elem. apply list_elem_of_In, in_rev, list_elem_of_In. exact H.
Qed.

(** A text has a UTF-8 encoding exactly when each of its characters has. *)
Lemma encode_ok_chars (s : pystr) :
  (exists bs, encode s = Ok bs) <-> Forall (fun c => utf8_encode_char c <> None) s.
Proof.
  induction s as [|c s IH]; cbn [encode].
  - split; [constructor | eexists; reflexivity].
  - rewrite Forall_cons. destruct (utf8_encode_char c) as [b|].
    + destruct (encode s) as [rest|e]; cbn [bind].
      * split; [|eexists; reflexivity].
        intros _. split; [discriminate|]. apply IH. eexists. reflexivity.
      * split; [intros (bs & H); discriminate|].
        intros (_ & H). apply IH in H as (bs & H). discriminate.
    + split; [intros (bs & H); discriminate|]. intros (H & _). congruence.
Qed.

(** The driver stores, as it is, a text of characters that have an encoding
    and are not NUL. *)
Lemma pg_text_chars (s : pystr) :
  Forall (fun c => utf8_encode_char c <> None /\ c <> 0) s -> pg_text s = Ok s.
Proof.
  intros H. unfold pg_text.
  destruct (proj2 (encode_ok_chars s)) as (bs & ->).
  { apply (Forall_impl _ _ _ H). intros c (Hc & _). exact Hc. }
  destruct (existsb (N.eqb 0) s) eqn:Hex; [|reflexivity].
  apply existsb_exists in Hex as (c & Hin & Hc). apply N.eqb_eq in Hc. subst c.
  rewrite Forall_forall in H. apply list_elem_of_In in Hin.
  destruct (H 0 Hin) as (_ & Hzero). congruence.
Qed.

Lemma ascii_char_stored (c : N) :
  0 < c -> c < 128 -> utf8_encode_char c <> None /\ c <> 0.
Proof.
  intros Hpos Hlt. unfold utf8_encode_char.
  rewrite (proj2 (N.ltb_lt c 128) Hlt). split; [discriminate | lia].
Qed.

Lemma hex_digit_stored (d : N) :
  d < 16 -> utf8_encode_char (hex_digit d) <> None /\ hex_digit d <> 0.
Proof.
  intros Hd. apply ascii_char_stored; unfold hex_digit; destruct (d <? 10); lia.
Qed.

(** What [json.dumps] writes for a character that has an encoding. *)
Lemma escape_char_stored (c : N) :
  utf8_encode_char c <> None ->
  Forall (fun c => utf8_encode_char c <> None /\ c <> 0) (escape_char c).
Proof.
  intros Hc. unfold escape_char.
  repeat (match goal with
          | |- context [if ?a =? ?b then _ else _] =>
              destruct (a =? b);
              [repeat constructor; apply ascii_char_stored; lia|]
          end).
  destruct (N.ltb_spec c 32) as [Hlt|Hge].
  - repeat constructor; try (apply ascii_char_stored; lia);
      apply hex_digit_stored;
      first [apply N.mod_lt; lia | apply N.Div0.div_lt_upper_bound; lia].
  - constructor; [|constructor]. split; [exact Hc | lia].
Qed.

Lemma join_stored (P : N -> Prop) (sep : pystr) (parts : list pystr) :
  Forall P sep -> Forall (Forall P) parts -> Forall P (join sep parts).
Proof.
  intros Hsep. induction 1 as [|p parts Hp Hparts IH]; [constructor|].
  destruct parts as [|q parts]; [exact Hp|].
  change (join sep (p :: q :: parts)) with (p ++ sep ++ join sep (q :: parts)).
  apply Forall_app. split; [exact Hp|]. apply Forall_app. split; [exact Hsep|exact IH].
Qed.

(** The text [json.dumps] writes for strings that have an encoding is
    stored as it is: a NUL in a string is written as an escape. *)
Lemma pg_text_json_dumps (strings : list pystr) :
  Forall (fun s => exists bs, encode s = Ok bs) strings ->
  pg_text (json_dumps strings) = Ok (json_dumps strings).
Proof.
  intros Hstrings. apply pg_text_chars. unfold json_dumps.
  apply Forall_app. split.
  { constructor; [apply ascii_char_stored; lia | constructor]. }
  apply Forall_app. split.
  2: { constructor; [apply ascii_char_stored; lia | constructor]. }
  apply join_stored.
  { repeat constructor; apply ascii_char_stored; lia. }
  apply Forall_forall. intros t Ht.
  apply list_elem_of_In, in_map_iff in Ht as (s & <- & Hs).
  apply list_elem_of_In in Hs. rewrite Forall_forall in Hstrings.
  pose proof (proj1 (encode_ok_chars s) (Hstrings s Hs)) as Hchars.
  unfold encode_basestring. apply Forall_app. split.
  { constructor; [apply ascii_char_stored; lia | constructor]. }
  apply Forall_app. split.
  2: { constructor; [apply ascii_char_stored; lia | constructor]. }
  clear Hs Hstrings. induction Hchars as [|c s Hc _ IH]; [constructor|].
  cbn [flat_map]. apply Forall_app. split; [|exact IH].
  apply escape_char_stored. exact Hc.
Qed.

(** Trimming a text that has an encoding leaves one. *)
Lemma strip_encodes (s : pystr) :
  (exists bs, encode s = Ok bs) -> exists bs, encode (strip s) = Ok bs.
Proof.
  rewrite !encode_ok_chars, !Forall_forall. intros H c Hc.
  apply H, strip_elem. exact Hc.
Qed.

Section AdminUpsertClaims.

Variable ADMIN_API_TOKEN : pystr.
Variable py_repr : json -> pystr.
Variable pg_int_coerce : json -> option Z.

Lemma services_text_of_strings (strings : list pystr) :
  services_text py_repr (List.map JStr strings)
  = json_dumps (List.filter nonempty (List.map strip strings)).
Proof.
  unfold services_text. f_equal.
  induction strings as [|s strings IH]; [reflexivity|].
  cbn [List.map List.filter py_str]. destruct (nonempty (strip s)).
  - cbn [List.map py_str]. rewrite IH. reflexivity.
  - exact IH.
Qed.

Lemma admin_upsert_run_not_object (pool : option database) (now : Z)
    (req : Request) :
  (forall members, req_json req <> Some (JObj members)) ->
  exists e, admin_upsert_run ADMIN_API_TOKEN py_repr pg_int_coerce pool now req
              ADMIN_API_TOKEN = Raise e /\ unhandled e.
Proof.
  intros Hreq. unfold admin_upsert_run, require_admin.
  rewrite bool_decide_eq_true_2 by reflexivity. cbn [bind].
  destruct (req_json req) as [body|].
  - destruct body; cbn [bind body_get];
      try (eexists; split; [reflexivity | exact I]).
    exfalso. exact (Hreq members eq_refl).
  - eexists. split; [reflexivity | exact I].
Qed.

(** Under the right token the answer is 200, 400 or 500. *)
Lemma admin_upsert_run_authorised_status (pool : option database) (now : Z)
    (req : Request) :
  response_status (admin_upsert_run ADMIN_API_TOKEN py_repr pg_int_coerce pool now
                     req ADMIN_API_TOKEN) <> 401%Z.
Proof.
  destruct (req_json req) as [[| | | | | |members]|] eqn:Hreq;
    try (destruct (admin_upsert_run_not_object pool now req) as (e & -> & He);
         [intros members; rewrite Hreq; discriminate
         | cbn [response_status]; rewrite (unhandled_status e He); discriminate]).
  rewrite (admin_upsert_run_authorised _ _ _ pool now req members Hreq).
  destruct (required_field py_repr members (py "public_no")); [discriminate|].
  destruct (required_field py_repr members (py "item")); [discriminate|].
  destruct (required_field py_repr members (py "status")); [discriminate|].
  destruct (store_order py_repr pg_int_coerce pool now members) as [db'|e] eqn:Hstore;
    [discriminate|].
  cbn [response_status].
  rewrite (unhandled_status e (store_order_raises _ _ _ _ _ _ Hstore)). discriminate.
Qed.

(** C7. The handler answers 401 exactly when the [X-Admin-Token] header is
    not, character for character, the configured admin token. On a
    mismatch, a token of the same length that differs in one character
    included, the answer is decided before the body is looked at: it is the
    same for every request body, and the database is not written. *)
Theorem admin_upsert_token_check
    (pool : option database) (now : Z) (req : Request) (token : pystr) :
  (response_status
     (admin_upsert ADMIN_API_TOKEN py_repr pg_int_coerce pool now req token).1 = 401%Z
   <-> token <> ADMIN_API_TOKEN)
  /\ (token <> ADMIN_API_TOKEN ->
      admin_upsert ADMIN_API_TOKEN py_repr pg_int_coerce pool now req token
      = (Raise (HTTPException 401 "Bad admin token"), pool))
  /\ (one_char_changed ADMIN_API_TOKEN token ->
      admin_upsert ADMIN_API_TOKEN py_repr pg_int_coerce pool now req token
      = (Raise (HTTPException 401 "Bad admin token"), pool)).
Proof.
  assert (Hreject : token <> ADMIN_API_TOKEN ->
            admin_upsert ADMIN_API_TOKEN py_repr pg_int_coerce pool now req token
            = (Raise (HTTPException 401 "Bad admin token"), pool)).
  { intros Hne. unfold admin_upsert, admin_upsert_run, require_admin.
    rewrite bool_decide_eq_false_2 by exact Hne. reflexivity. }
  split; [|split].
  - split.
    + intros Hstatus ->.
      pose proof (admin_upsert_run_authorised_status pool now req) as Hrun.
      unfold admin_upsert in Hstatus.
      destruct (admin_upsert_run ADMIN_API_TOKEN py_repr pg_int_coerce pool now req
                  ADMIN_API_TOKEN); [discriminate|].
      exact (Hrun Hstatus).
    + intros Hne. rewrite (Hreject Hne). reflexivity.
  - exact Hreject.
  - intros (before & c & c' & after & Hc & Hadmin & Htoken). apply Hreject.
    rewrite Hadmin, Htoken. intros Heq. apply app_inv_head in Heq. congruence.
Qed.

(** C6. Under the right token the handler answers 400 exactly when
    [public_no], [item] or [status], read from the JSON object of the body,
    is empty after trimming; a 400 is only given to a body that is a JSON
    object; and whenever the handler fails, with that answer or another,
    the database is as it was. *)
Theorem admin_upsert_required_fields
    (pool : option database) (now : Z) (req : Request) :
  (forall members : list (pystr * json),
      req_json req = Some (JObj members) ->
      (response_status
         (admin_upsert ADMIN_API_TOKEN py_repr pg_int_coerce pool now req
            ADMIN_API_TOKEN).1 = 400%Z
       <-> required_field py_repr members (py "public_no") = []
           \/ required_field py_repr members (py "item") = []
           \/ required_field py_repr members (py "status") = []))
  /\ (response_status
        (admin_upsert ADMIN_API_TOKEN py_repr pg_int_coerce pool now req
           ADMIN_API_TOKEN).1 = 400%Z ->
      exists members, req_json req = Some (JObj members))
  /\ (forall e,
        (admin_upsert ADMIN_API_TOKEN py_repr pg_int_coerce pool now req
           ADMIN_API_TOKEN).1 = Raise e ->
        (admin_upsert ADMIN_API_TOKEN py_repr pg_int_coerce pool now req
           ADMIN_API_TOKEN).2 = pool).
Proof.
  split; [|split].
  - intros members Hreq. unfold admin_upsert.
    rewrite (admin_upsert_run_authorised _ _ _ pool now req members Hreq).
    destruct (required_field py_repr members (py "public_no")) as [|c1 s1].
    { cbn. tauto. }
    destruct (required_field py_repr members (py "item")) as [|c2 s2].
    { cbn. tauto. }
    destruct (required_field py_repr members (py "status")) as [|c3 s3].
    { cbn. tauto. }
    destruct (store_order py_repr pg_int_coerce pool now members) as [db'|e] eqn:Hstore.
    + cbn. split; [discriminate|]. intros [H|[H|H]]; discriminate.
    + cbn [fst response_status].
      rewrite (unhandled_status e (store_order_raises _ _ _ _ _ _ Hstore)).
      split; [discriminate|]. intros [H|[H|H]]; discriminate.
  - intros Hstatus.
    destruct (req_json req) as [[| | | | | |members]|] eqn:Hreq;
      try (exfalso;
           destruct (admin_upsert_run_not_object pool now req) as (e & Hrun & He);
           [intros members; rewrite Hreq; discriminate
           | unfold admin_upsert in Hstatus; rewrite Hrun in Hstatus;
             cbn [fst response_status] in Hstatus;
             rewrite (unhandled_status e He) in Hstatus; discriminate]).
    exists members. reflexivity.
  - intros e. unfold admin_upsert.
    destruct (admin_upsert_run ADMIN_API_TOKEN py_repr pg_int_coerce pool now req
                ADMIN_API_TOKEN); [discriminate|reflexivity].
Qed.

(** C5. A request under the right token that submits the strings [strings]
    as [services], with its three required fields present, its strings
    encodable and its other fields accepted by the driver, succeeds, and the
    row of its [public_no] then stores, as a JSON array, the submitted
    strings trimmed, without those that are empty once trimmed, in the order
    submitted and with their repetitions: strings that need no trimming are
    stored as submitted. In particular two spaces, [wash], the empty string
    and [iron] are stored as [wash] and [iron]. *)
Theorem admin_upsert_stores_services
    (db : database) (now : Z) (req : Request)
    (members : list (pystr * json)) (strings : list pystr) :
  req_json req = Some (JObj members) ->
  dict_get (py "services") members = Some (JArr (List.map JStr strings)) ->
  required_field py_repr members (py "public_no") <> [] ->
  required_field py_repr members (py "item") <> [] ->
  required_field py_repr members (py "status") <> [] ->
  Forall (fun s => exists bs, encode s = Ok bs) strings ->
  other_fields_accepted py_repr pg_int_coerce members ->
  exists db' : database,
    admin_upsert ADMIN_API_TOKEN py_repr pg_int_coerce (Some db) now req ADMIN_API_TOKEN
    = (Ok tt, Some db')
    /\ (exists r, r ∈ orders db'
                  /\ public_no r = required_field py_repr members (py "public_no"))
    /\ (forall r, r ∈ orders db' ->
                  public_no r = required_field py_repr members (py "public_no") ->
                  services_json r
                  = json_dumps (List.filter nonempty (List.map strip strings)))
    /\ Forall (fun s => s <> [] /\ strip s = s)
              (List.filter nonempty (List.map strip strings))
    /\ (Forall (fun s => s <> [] /\ strip s = s) strings ->
        List.filter nonempty (List.map strip strings) = strings)
    /\ (strings = [py "  "; py "wash"; []; py "iron"] ->
        json_dumps (List.filter nonempty (List.map strip strings)) = wash_iron_json).
Proof.
  intros Hreq Hservices Hno Hitem Hstatus Hstrings Hfields.
  set (kept := List.filter nonempty (List.map strip strings)).
  assert (Htext : pg_text (json_dumps kept) = Ok (json_dumps kept)).
  { apply pg_text_json_dumps, Forall_forall. intros s Hs.
    apply list_elem_of_In, filter_In in Hs as (Hin & _).
    apply in_map_iff in Hin as (s0 & <- & Hin). apply strip_encodes.
    rewrite Forall_forall in Hstrings. apply Hstrings, list_elem_of_In. exact Hin. }
  assert (Hentries : py_iter (submitted_services members)
                     = Ok (List.map JStr strings)).
  { unfold submitted_services, optional_field. rewrite Hservices. cbn [default].
    destruct strings; reflexivity. }
  destruct Hfields as ((a1 & H1) & (a2 & H2) & (a3 & H3) & (a4 & H4) & (a6 & H6)
                       & (a7 & H7) & (a8 & H8)).
  set (values := UpsertValues a1 a2 a3 a4 (json_dumps kept) a6 a7 a8).
  assert (Hstore : store_order py_repr pg_int_coerce (Some db) now members
                   = Ok (upsert_order db now values)).
  { unfold store_order. rewrite Hentries. cbn [bind require_pool].
    rewrite services_text_of_strings. fold kept. unfold bind_upsert.
    rewrite H1, H2, H3, H4, Htext, H6, H7, H8. reflexivity. }
  exists (upsert_order db now values). split.
  { unfold admin_upsert.
    rewrite (admin_upsert_run_authorised _ _ _ (Some db) now req members Hreq).
    clear H1 H4 H6.
    destruct (required_field py_repr members (py "public_no")); [congruence|].
    destruct (required_field py_repr members (py "item")); [congruence|].
    destruct (required_field py_repr members (py "status")); [congruence|].
    rewrite Hstore. reflexivity. }
  apply pg_text_ok in H1.
  destruct (upsert_order_stored db now values) as (Hex & Hall).
  change (v_public_no values) with a1 in Hex, Hall.
  change (v_services_json values) with (json_dumps kept) in Hall.
  rewrite H1 in Hex, Hall.
  split; [exact Hex|]. split; [exact Hall|]. split; [|split].
  - apply Forall_forall. intros s Hs.
    apply list_elem_of_In, filter_In in Hs as (Hin & Hne).
    apply in_map_iff in Hin as (s0 & <- & _). split.
    + apply nonempty_spec. exact Hne.
    + apply strip_idem.
  - unfold kept. clear. induction 1 as [|s strings (Hs & Hstrip) _ IH]; [reflexivity|].
    cbn [List.map List.filter]. rewrite Hstrip, (proj2 (nonempty_spec s) Hs), IH.
    reflexivity.
  - intros ->. vm_compute. reflexivity.
Qed.

End AdminUpsertClaims.

(** The token [adm-secreT] has the length of the admin token and differs in
    its last character: the answer is 401 and the table is as it was. *)
Lemma admin_upsert_token_check_witness :
  admin_upsert sample_admin_token sample_repr sample_coerce
    (Some sample_orders) 1000 sample_request (py "adm-secreT")
  = (Raise (HTTPException 401 "Bad admin token"), Some sample_orders)
  /\ response_status
       (admin_upsert sample_admin_token sample_repr sample_coerce
          (Some sample_orders) 1000 sample_request (py "adm-secreT")).1 = 401%Z.
Proof.
  split.
  - apply (proj2 (proj2 (admin_upsert_token_check sample_admin_token sample_repr
                           sample_coerce (Some sample_orders) 1000 sample_request
                           (py "adm-secreT")))).
    exists (py "adm-secre"), 116, 84, []. split; [discriminate|].
    split; vm_compute; reflexivity.
  - apply (proj1 (admin_upsert_token_check sample_admin_token sample_repr
                    sample_coerce (Some sample_orders) 1000 sample_request
                    (py "adm-secreT"))).
    vm_compute. discriminate.
Defined.

(** An [item] of two spaces: the answer is 400 and the table is as it was. *)
Lemma admin_upsert_required_fields_witness :
  response_status
    (admin_upsert sample_admin_token sample_repr sample_coerce
       (Some sample_orders) 1000 blank_item_request sample_admin_token).1 = 400%Z
  /\ (admin_upsert sample_admin_token sample_repr sample_coerce
        (Some sample_orders) 1000 blank_item_request sample_admin_token).2
     = Some sample_orders.
Proof.
  pose proof (admin_upsert_required_fields sample_admin_token sample_repr
                sample_coerce (Some sample_orders) 1000 blank_item_request)
    as (Hiff & _ & Hkeep).
  split.
  - apply (Hiff _ eq_refl). right. left. vm_compute. reflexivity.
  - apply (Hkeep (HTTPException 400 "item/status required")).
    vm_compute. reflexivity.
Defined.

(** The request with the four services, on an empty table: it succeeds and
    the row of [A-1] stores [wash] and [iron]. *)
Lemma admin_upsert_stores_services_witness :
  exists db' r,
    admin_upsert sample_admin_token sample_repr sample_coerce
      (Some (Database [] 0)) 1000 sample_request sample_admin_token
    = (Ok tt, Some db')
    /\ r ∈ orders db' /\ public_no r = py "A-1" /\ services_json r = wash_iron_json.
Proof.
  destruct (admin_upsert_stores_services sample_admin_token sample_repr
              sample_coerce (Database [] 0) 1000 sample_request
              _ [py "  "; py "wash"; []; py "iron"] eq_refl)
    as (db' & Hok & (r & Hin & Hno) & Hall & _ & _ & Htext).
  - vm_compute. reflexivity.
  - vm_compute. discriminate.
  - vm_compute. discriminate.
  - vm_compute. discriminate.
  - repeat constructor; eexists; vm_compute; reflexivity.
  - unfold other_fields_accepted. repeat split; eexists; vm_compute; reflexivity.
  - exists db', r. split; [exact Hok|]. split; [exact Hin|]. split.
    + rewrite Hno. vm_compute. reflexivity.
    + rewrite (Hall r Hin Hno). apply Htext. reflexivity.
Defined.

(** * Further properties of the verifier *)

#[global] Instance key_le_trans : Transitive key_le.
Proof. unfold key_le. intros a b c. apply str_le_trans. Qed.

#[global] Instance key_le_total : Total key_le.
Proof. unfold key_le. intros a b. apply str_le_total. Qed.

Lemma encode_raises (s : pystr) (e : exn) : encode s = Raise e -> e = UnicodeEncodeError.
Proof.
  induction s as [|c s IH]; cbn [encode]; [discriminate|].
  destruct (utf8_encode_char c); [|congruence].
  destruct (encode s); cbn [bind]; [discriminate|].
  intros [= <-]. apply IH. reflexivity.
Qed.

(** [dict] with the pairs seen so far in [m]. *)
Lemma dict_fold_lookup (l : list (pystr * pystr)) (m : gmap pystr pystr) (k : pystr) :
  k ∉ l.*1 ->
  fold_left (fun m kv => <[kv.1 := kv.2]> m) l m !! k = m !! k.
Proof.
  revert m. induction l as [|[k' v'] l IH]; intros m; [reflexivity|].
  cbn [fmap list_fmap fold_left fst snd]. rewrite not_elem_of_cons. intros [Hk Hl].
  rewrite IH by exact Hl. apply lookup_insert_ne. congruence.
Qed.


Lemma digest_bytes (msg : pybytes) : Forall (fun b => b < 256) (SHA256.digest msg).
Proof.
  unfold SHA256.digest. apply Forall_forall. intros b Hb.
  apply list_elem_of_In, in_flat_map in Hb as (w & _ & Hb).
  unfold SHA256.be_bytes in Hb. apply in_map_iff in Hb as (i & <- & _).
  apply N.mod_lt. discriminate.
Qed.

Lemma hex_digit_lower (d : N) : d < 16 -> is_lower_hex (hex_digit d) = true.
Proof.
  intros Hd. unfold is_lower_hex, hex_digit.
  destruct (d <? 10) eqn:Hlt; apply orb_true_iff; [left|right];
    apply andb_true_iff; split; apply N.leb_le;
    first [apply N.ltb_lt in Hlt | apply N.ltb_ge in Hlt]; lia.
Qed.

Lemma hex_lower (bs : pybytes) :
  Forall (fun b => b < 256) bs -> forallb is_lower_hex (hex bs) = true.
Proof.
  induction 1 as [|b bs Hb _ IH]; [reflexivity|].
  cbn [hex flat_map app forallb]. fold (hex bs). rewrite IH.
  rewrite !hex_digit_lower; [reflexivity| |].
  - apply N.mod_lt. discriminate.
  - apply N.Div0.div_lt_upper_bound. lia.
Qed.

Section VerifierMore.

Variable BOT_TOKEN : pystr.

(** X1. The verifier accepts only what is signed: when it returns an
    identity, the payload is not empty, it carries a hash that is the
    hexadecimal HMAC-SHA256 of its check-string under the key derived from
    the bot token, and the identity is the decoded value of its non-empty
    [user] field. *)
Theorem verify_init_data_sound (init_data : pystr) (user : json) :
  verify_init_data BOT_TOKEN init_data = Ok user ->
  exists (recv_hash token message user_raw : pystr) (kvs : list (pystr * pystr)),
    init_data <> []
    /\ dict (parse_qsl init_data) !! py "hash" = Some recv_hash
    /\ kvs ≡ₚ map_to_list (delete (py "hash") (dict (parse_qsl init_data)))
    /\ StronglySorted key_le kvs
    /\ encode BOT_TOKEN = Ok token
    /\ encode (join [10] (List.map key_value_line kvs)) = Ok message
    /\ recv_hash = hex (hmac_sha256 (hmac_sha256 (py "WebAppData") token) message)
    /\ dict (parse_qsl init_data) !! py "user" = Some user_raw
    /\ user_raw <> []
    /\ json_loads user_raw = Ok user.
Proof.
  intros Hok. destruct (verify_ok_inv _ _ _ Hok) as (h & Hhash & Hcalc).
  set (pairs := delete (py "hash") (dict (parse_qsl init_data))) in *.
  set (kvs := merge_sort key_le (map_to_list pairs)).
  assert (Hperm : kvs ≡ₚ map_to_list pairs) by apply merge_sort_Permutation.
  assert (Hsorted : StronglySorted key_le kvs)
    by (apply StronglySorted_merge_sort; apply _).
  pose proof Hcalc as Hcalc'. unfold calc_hash, secret_key in Hcalc'.
  destruct (encode BOT_TOKEN) as [token|] eqn:Htoken; [|discriminate].
  cbn [bind] in Hcalc'. rewrite (data_check_lines pairs kvs Hperm Hsorted) in Hcalc'.
  destruct (encode (join [10] (List.map key_value_line kvs))) as [message|] eqn:Hmsg;
    [|discriminate].
  cbn [bind] in Hcalc'. injection Hcalc' as Hh.
  rewrite (verify_signed BOT_TOKEN init_data h Hhash Hcalc) in Hok.
  destruct (dict (parse_qsl init_data) !! py "user") as [[|c raw]|] eqn:Huser;
    try discriminate.
  destruct (json_loads (c :: raw)) as [u|] eqn:Hjson; [|discriminate].
  injection Hok as ->.
  exists h, token, message, (c :: raw), kvs.
  repeat split; try assumption; try discriminate.
  - intros ->. discriminate.
  - symmetry. exact Hh.
Qed.

(** X2. The verifier fails in six ways only: with one of its five 401
    answers, or with the [UnicodeEncodeError] of a token or check-string
    that has no UTF-8 encoding. *)
Theorem verify_init_data_errors (init_data : pystr) (e : exn) :
  verify_init_data BOT_TOKEN init_data = Raise e -> verifier_error e.
Proof.
  unfold verify_init_data, verifier_error.
  destruct init_data as [|c s]; [intros [= <-]; tauto|].
  destruct (dict (parse_qsl (c :: s)) !! py "hash") as [[|c0 h0]|];
    try (intros [= <-]; tauto).
  destruct (calc_hash BOT_TOKEN _) as [calc|e'] eqn:Hcalc; cbn [bind].
  - destruct (bool_decide (calc = c0 :: h0)); [|intros [= <-]; tauto].
    destruct (_ !! py "user") as [[|c1 raw]|]; try (intros [= <-]; tauto).
    destruct (json_loads (c1 :: raw)); cbn [except_raise]; [discriminate|].
    intros [= <-]. tauto.
  - intros [= <-]. unfold calc_hash, secret_key in Hcalc.
    apply bind_raise_inv in Hcalc as [Hcalc|(key & _ & Hcalc)].
    + apply bind_raise_inv in Hcalc as [Hcalc|(token & _ & Hcalc)]; [|discriminate].
      apply encode_raises in Hcalc. tauto.
    + apply bind_raise_inv in Hcalc as [Hcalc|(message & _ & Hcalc)]; [|discriminate].
      apply encode_raises in Hcalc. tauto.
Qed.


(** X4. When a key occurs more than once in a payload, its last value is
    the one the verifier reads; for [hash] this is the value compared with
    the signature. *)
Theorem dict_parse_qsl_last_value
    (init_data : pystr) (before after : list (pystr * pystr)) (k v : pystr) :
  parse_qsl init_data = before ++ (k, v) :: after ->
  k ∉ after.*1 ->
  dict (parse_qsl init_data) !! k = Some v.
Proof.
  intros -> Hlast. unfold dict. rewrite fold_left_app. cbn [fold_left fst snd].
  rewrite dict_fold_lookup by exact Hlast. apply lookup_insert_eq.
Qed.

(** X5. A hash the verifier accepts is sixty-four lower-case hexadecimal
    digits: a hash of another length, or written with capital letters,
    never verifies. *)
Theorem verify_init_data_hash_format (init_data recv_hash : pystr) (user : json) :
  verify_init_data BOT_TOKEN init_data = Ok user ->
  dict (parse_qsl init_data) !! py "hash" = Some recv_hash ->
  length recv_hash = 64%nat /\ forallb is_lower_hex recv_hash = true.
Proof.
  intros Hok Hhash. destruct (verify_ok_inv _ _ _ Hok) as (h & Hhash' & Hcalc).
  rewrite Hhash in Hhash'. injection Hhash' as <-.
  unfold calc_hash, secret_key in Hcalc.
  apply bind_ok_inv in Hcalc as (key & _ & Hcalc).
  apply bind_ok_inv in Hcalc as (message & _ & Hcalc). injection Hcalc as <-.
  split; [apply hexdigest_length|].
  unfold hmac_sha256_hexdigest, hmac_sha256. apply hex_lower, digest_bytes.
Qed.

End VerifierMore.

(** The sample payload: its hash is the digest of its check-string. *)
Lemma verify_init_data_sound_witness :
  exists (recv_hash token message user_raw : pystr) (kvs : list (pystr * pystr)),
    sample_init_data <> []
    /\ dict (parse_qsl sample_init_data) !! py "hash" = Some recv_hash
    /\ kvs ≡ₚ map_to_list (delete (py "hash") (dict (parse_qsl sample_init_data)))
    /\ StronglySorted key_le kvs
    /\ encode sample_token = Ok token
    /\ encode (join [10] (List.map key_value_line kvs)) = Ok message
    /\ recv_hash = hex (hmac_sha256 (hmac_sha256 (py "WebAppData") token) message)
    /\ dict (parse_qsl sample_init_data) !! py "user" = Some user_raw
    /\ user_raw <> []
    /\ json_loads user_raw = Ok (JObj [(py "id", JInt 42)]).
Proof.
  apply (verify_init_data_sound sample_token sample_init_data).
  vm_compute. reflexivity.
Defined.

(** The tampered sample fails with one of the six errors. *)
Lemma verify_init_data_errors_witness :
  verifier_error (HTTPException 401 "Bad signature").
Proof.
  apply (verify_init_data_errors sample_token tampered_init_data).
  vm_compute. reflexivity.
Defined.


(** Two [hash] fields: the second one is read. *)
Lemma dict_parse_qsl_last_value_witness :
  dict (parse_qsl (py "hash=aa&x=1&hash=bb")) !! py "hash" = Some (py "bb").
Proof.
  apply (dict_parse_qsl_last_value (py "hash=aa&x=1&hash=bb")
           [(py "hash", py "aa"); (py "x", py "1")] []).
  - vm_compute. reflexivity.
  - apply not_elem_of_nil.
Defined.

(** The hash of the sample payload. *)
Lemma verify_init_data_hash_format_witness :
  length sample_hash = 64%nat /\ forallb is_lower_hex sample_hash = true.
Proof.
  apply (verify_init_data_hash_format sample_token sample_init_data sample_hash
           (JObj [(py "id", JInt 42)])).
  - vm_compute. reflexivity.
  - vm_compute. reflexivity.
Defined.

(** * Decoding what [json.dumps] wrote *)

Lemma hex_value_hex_digit (d : N) : d < 16 -> hex_value (hex_digit d) = Some d.
Proof.
  intros Hd. unfold hex_value, hex_digit. destruct (d <? 10) eqn:Hlt.
  - apply N.ltb_lt in Hlt.
    replace ((48 <=? 48 + d) && (48 + d <=? 57)) with true.
    + f_equal. lia.
    + symmetry. apply andb_true_iff. split; apply N.leb_le; lia.
  - apply N.ltb_ge in Hlt.
    replace ((48 <=? 87 + d) && (87 + d <=? 57)) with false.
    + replace ((65 <=? 87 + d) && (87 + d <=? 70)) with false.
      * replace ((97 <=? 87 + d) && (87 + d <=? 102)) with true.
        -- f_equal. lia.
        -- symmetry. apply andb_true_iff. split; apply N.leb_le; lia.
      * symmetry. apply andb_false_iff. right. apply N.leb_gt. lia.
    + symmetry. apply andb_false_iff. right. apply N.leb_gt. lia.
Qed.

Lemma escape_char_length (c : N) : (1 <= length (escape_char c))%nat.
Proof.
  unfold escape_char.
  repeat match goal with
         | |- context [if ?b then _ else _] => destruct b
         end; simpl; lia.
Qed.

(** [scanstring] reads back the escaped text of [s] up to its closing
    quote. *)
Lemma scanstring_escaped (s rest : pystr) (fuel : nat) :
  (length (flat_map escape_char s) < fuel)%nat ->
  scanstring fuel (flat_map escape_char s ++ 34 :: rest) = Ok (s, rest).
Proof.
  revert fuel. induction s as [|c s IH]; intros fuel Hfuel.
  - destruct fuel as [|fuel]; [cbn in Hfuel; lia|]. reflexivity.
  - cbn [flat_map] in *. rewrite length_app in Hfuel.
    pose proof (escape_char_length c) as Hc.
    destruct fuel as [|fuel]; [lia|].
    assert (Hrec : scanstring fuel (flat_map escape_char s ++ 34 :: rest) = Ok (s, rest))
      by (apply IH; lia).
    clear IH Hfuel Hc. rewrite <- app_assoc. unfold escape_char at 1.
    destruct (c =? 34) eqn:E34.
    { apply N.eqb_eq in E34 as ->. cbn. rewrite Hrec. reflexivity. }
    destruct (c =? 92) eqn:E92.
    { apply N.eqb_eq in E92 as ->. cbn. rewrite Hrec. reflexivity. }
    destruct (c =? 10) eqn:E10.
    { apply N.eqb_eq in E10 as ->. cbn. rewrite Hrec. reflexivity. }
    destruct (c =? 13) eqn:E13.
    { apply N.eqb_eq in E13 as ->. cbn. rewrite Hrec. reflexivity. }
    destruct (c =? 9) eqn:E9.
    { apply N.eqb_eq in E9 as ->. cbn. rewrite Hrec. reflexivity. }
    destruct (c =? 8) eqn:E8.
    { apply N.eqb_eq in E8 as ->. cbn. rewrite Hrec. reflexivity. }
    destruct (c =? 12) eqn:E12.
    { apply N.eqb_eq in E12 as ->. cbn. rewrite Hrec. reflexivity. }
    destruct (c <? 32) eqn:E32.
    + apply N.ltb_lt in E32.
      cbn [app scanstring]. change (92 =? 34) with false. change (92 =? 92) with true.
      change (117 =? 117) with true. cbv iota.
      assert (Hhex : hex4 (48 :: 48 :: hex_digit (c / 16) :: hex_digit (c mod 16)
                            :: flat_map escape_char s ++ 34 :: rest)
                     = Some (c, flat_map escape_char s ++ 34 :: rest)).
      { unfold hex4. change (hex_value 48) with (Some 0).
        rewrite !hex_value_hex_digit.
        - f_equal. f_equal. pose proof (N.div_mod' c 16). lia.
        - apply N.mod_lt. discriminate.
        - apply N.Div0.div_lt_upper_bound. lia. }
      rewrite Hhex.
      replace ((55296 <=? c) && (c <=? 56319)) with false
        by (symmetry; apply andb_false_iff; left; apply N.leb_gt; lia).
      rewrite Hrec. reflexivity.
    + cbn [app scanstring]. rewrite E34, E92, E32, Hrec. reflexivity.
Qed.

Lemma join_cons (sep p : pystr) (ps : list pystr) :
  join sep (p :: ps)
  = p ++ match ps with
         | [] => []
         | _ :: _ => sep ++ join sep ps
         end.
Proof. destruct ps; cbn [join]; [rewrite app_nil_r|]; reflexivity. Qed.

Lemma scan_once_string (fuel : nat) (s rest : pystr) :
  (1 <= fuel)%nat ->
  scan_once fuel (encode_basestring s ++ rest) = Ok (JStr s, rest).
Proof.
  intros Hfuel. destruct fuel as [|fuel]; [lia|].
  unfold encode_basestring. rewrite <- !app_assoc. cbn [app scan_once].
  change (34 =? 34) with true. cbv iota.
  rewrite scanstring_escaped by (rewrite length_app; cbn [length]; lia).
  reflexivity.
Qed.

(** [JSONArray] reads back the items that [json.dumps] wrote. *)
Lemma array_items_dumped (strings : list pystr) (s rest : pystr)
    (acc : list json) (fuel : nat) :
  (length strings + 1 < fuel)%nat ->
  array_items fuel
    (join [44; 32] (List.map encode_basestring (s :: strings)) ++ 93 :: rest) acc
  = Ok (JArr (rev acc ++ List.map JStr (s :: strings)), rest).
Proof.
  revert s acc fuel. induction strings as [|s2 strings IH]; intros s acc fuel Hfuel.
  - destruct fuel as [|fuel]; [cbn in Hfuel; lia|]. cbn [length] in Hfuel.
    cbn [List.map join array_items]. rewrite scan_once_string by lia. reflexivity.
  - destruct fuel as [|fuel]; [cbn in Hfuel; lia|].
    cbn [length] in Hfuel.
    change (List.map encode_basestring (s :: s2 :: strings))
      with (encode_basestring s :: List.map encode_basestring (s2 :: strings)).
    rewrite join_cons.
    change (match List.map encode_basestring (s2 :: strings) with
            | [] => []
            | _ :: _ => [44; 32] ++ join [44; 32] (List.map encode_basestring (s2 :: strings))
            end)
      with ([44; 32] ++ join [44; 32] (List.map encode_basestring (s2 :: strings))).
    rewrite <- !app_assoc. cbn [array_items]. rewrite scan_once_string by lia.
    cbn [bind fst snd app skip_ws].
    change (is_json_ws 44) with false. cbv iota.
    change (44 =? 93) with false. change (44 =? 44) with true. cbv iota.
    assert (Hnext : skip_ws (32 :: join [44; 32]
                               (List.map encode_basestring (s2 :: strings))
                               ++ 93 :: rest)
                    = join [44; 32] (List.map encode_basestring (s2 :: strings))
                      ++ 93 :: rest).
    { cbn [List.map]. rewrite join_cons. unfold encode_basestring at 1. reflexivity. }
    rewrite Hnext. rewrite IH by lia.
    cbn [rev List.map]. rewrite <- app_assoc. reflexivity.
Qed.

Lemma join_items_length (strings : list pystr) :
  (length strings <= length (join [44%N; 32%N] (List.map encode_basestring strings)))%nat.
Proof.
  induction strings as [|s strings IH]; [reflexivity|].
  cbn [List.map]. rewrite join_cons, length_app.
  unfold encode_basestring at 1. cbn [app length].
  destruct strings as [|s2 strings]; [cbn; lia|].
  rewrite length_app. cbn [length List.map] in *. lia.
Qed.

Lemma scan_once_array (fuel : nat) (s : pystr) (strings : list pystr) (rest : pystr) :
  scan_once (S fuel)
    (91 :: join [44; 32] (List.map encode_basestring (s :: strings)) ++ 93 :: rest)
  = array_items fuel
      (join [44; 32] (List.map encode_basestring (s :: strings)) ++ 93 :: rest) [].
Proof.
  cbn [scan_once]. change (91 =? 34) with false. change (91 =? 123) with false.
  change (91 =? 91) with true. cbv iota.
  cbn [List.map]. rewrite join_cons. unfold encode_basestring at 1 3.
  rewrite <- !app_assoc. cbn [app skip_ws].
  change (is_json_ws 34) with false. cbv iota.
  change (34 =? 93) with false. cbv iota. reflexivity.
Qed.

(** What [json.dumps] writes for a list of strings, [json.loads] reads back
    as the list of these strings. *)
Lemma json_loads_dumped (strings : list pystr) :
  json_loads (json_dumps strings) = Ok (JArr (List.map JStr strings)).
Proof.
  destruct strings as [|s strings]; [reflexivity|].
  unfold json_loads, json_dumps. cbn [app strip_prefix].
  change (65279 =? 91) with false. cbv iota.
  cbn [skip_ws]. change (is_json_ws 91) with false. cbv iota.
  pose proof (join_items_length (s :: strings)) as Hj. cbn [length] in Hj.
  match goal with
  | |- context [scan_once ?f _] =>
      replace f with (S (Nat.pred f)) by (cbn [length]; lia);
      assert (Hfuel : (length strings + 1 < Nat.pred f)%nat)
        by (cbn [length]; rewrite length_app; cbn [length]; lia)
  end.
  change (join [44; 32] (List.map encode_basestring (s :: strings)) ++ [93])
    with (join [44; 32] (List.map encode_basestring (s :: strings)) ++ 93 :: []).
  rewrite scan_once_array, (array_items_dumped strings s [] [] _ Hfuel).
  reflexivity.
Qed.

(** * Further properties of [me_orders] *)

Ltac raise_inv :=
  repeat match goal with
         | H : Raise _ = Raise _ |- _ => injection H as <-
         | H : Ok _ = Raise _ |- _ => discriminate H
         | H : bind _ _ = Raise _ |- _ =>
             apply bind_raise_inv in H as [H|(? & ? & H)]
         | H : (if ?b then _ else _) = Raise _ |- _ => destruct b
         | H : match ?x with _ => _ end = Raise _ |- _ => destruct x
         end.

Lemma scanstring_raises (fuel : nat) (s : pystr) (e : exn) :
  scanstring fuel s = Raise e -> e = JSONDecodeError.
Proof.
  revert s e. induction fuel as [|fuel IH]; intros s e H; cbn [scanstring] in H.
  - congruence.
  - raise_inv; try reflexivity;
      match goal with
      | H : scanstring fuel _ = Raise _ |- _ => exact (IH _ _ H)
      end.
Qed.

Lemma scan_once_raises (fuel : nat) :
  (forall s e, scan_once fuel s = Raise e -> decode_error e)
  /\ (forall s acc e, array_items fuel s acc = Raise e -> decode_error e)
  /\ (forall s acc e, object_members fuel s acc = Raise e -> decode_error e).
Proof.
  induction fuel as [|fuel (IHs & IHa & IHo)].
  - repeat split; intros; cbn in *; raise_inv; right; reflexivity.
  - repeat split; intros.
    + cbn [scan_once] in H. raise_inv;
        try (left; reflexivity);
        match goal with
        | H : scanstring _ _ = Raise _ |- _ =>
            left; exact (scanstring_raises _ _ _ H)
        | H : array_items fuel _ _ = Raise _ |- _ => exact (IHa _ _ _ H)
        | H : object_members fuel _ _ = Raise _ |- _ => exact (IHo _ _ _ H)
        end.
    + cbn [array_items] in H. raise_inv;
        try (left; reflexivity);
        match goal with
        | H : scan_once fuel _ = Raise _ |- _ => exact (IHs _ _ H)
        | H : array_items fuel _ _ = Raise _ |- _ => exact (IHa _ _ _ H)
        end.
    + cbn [object_members] in H. raise_inv;
        try (left; reflexivity);
        match goal with
        | H : scanstring _ _ = Raise _ |- _ =>
            left; exact (scanstring_raises _ _ _ H)
        | H : scan_once fuel _ = Raise _ |- _ => exact (IHs _ _ H)
        | H : object_members fuel _ _ = Raise _ |- _ => exact (IHo _ _ _ H)
        end.
Qed.

Lemma json_loads_raises (s : pystr) (e : exn) :
  json_loads s = Raise e -> decode_error e.
Proof.
  unfold json_loads. intros H. raise_inv; try (left; reflexivity).
  match goal with
  | H : scan_once _ _ = Raise _ |- _ => exact (proj1 (scan_once_raises _) _ _ H)
  end.
Qed.

Lemma decode_error_unhandled (e : exn) : decode_error e -> unhandled e.
Proof. intros [->| ->]; exact I. Qed.

Lemma views_of_rows_raises (rows : list order) (e : exn) :
  views_of_rows rows = Raise e -> decode_error e.
Proof.
  induction rows as [|r rows IH]; cbn [views_of_rows]; [discriminate|].
  intros H. apply bind_raise_inv in H as [H|(o & _ & H)].
  - unfold view_of_row in H. apply bind_raise_inv in H as [H|(x & _ & H)];
      [exact (json_loads_raises _ _ H) | discriminate].
  - apply bind_raise_inv in H as [H|(os & _ & H)]; [exact (IH H) | discriminate].
Qed.

Lemma http_status_401 (e : exn) :
  http_status e = 401%Z -> exists detail, e = HTTPException 401 detail.
Proof. destruct e; cbn; try discriminate. intros ->. eexists. reflexivity. Qed.

Section MeOrdersMore.

Variable BOT_TOKEN : pystr.

(** What [me_orders] does once the payload is verified. *)
Lemma me_orders_verified_raises
    (pool : option database) (init_data : pystr) (user : json) (e : exn) :
  verify_init_data BOT_TOKEN init_data = Ok user ->
  me_orders BOT_TOKEN pool init_data = Raise e ->
  unhandled e.
Proof.
  intros Hverify. unfold me_orders. rewrite Hverify. cbn [bind]. intros H.
  apply bind_raise_inv in H as [H|(v & _ & H)].
  { apply getitem_raises in H as [->| ->]; exact I. }
  apply bind_raise_inv in H as [H|(tg_id & _ & H)].
  { apply py_int_raises in H as [->|[->| ->]]; exact I. }
  apply bind_raise_inv in H as [H|(db & _ & H)].
  { destruct pool; [discriminate|]. injection H as <-. exact I. }
  apply bind_raise_inv in H as [H|(arg & _ & H)].
  { apply pg_int_raises in H as ->. exact I. }
  apply decode_error_unhandled, (views_of_rows_raises _ _ H).
Qed.

(** X7. [me_orders] answers 401 exactly when the verifier rejects the
    payload with a 401, and it does so whatever the state of the pool: the
    database is not consulted before the payload is verified. Once the
    payload is verified the answer is 200 or 500. *)
Theorem me_orders_status (pool : option database) (init_data : pystr) :
  (response_status (me_orders BOT_TOKEN pool init_data) = 401%Z
   <-> exists detail,
         verify_init_data BOT_TOKEN init_data = Raise (HTTPException 401 detail))
  /\ (forall e, verify_init_data BOT_TOKEN init_data = Raise e ->
                me_orders BOT_TOKEN pool init_data = Raise e)
  /\ (forall user, verify_init_data BOT_TOKEN init_data = Ok user ->
                   response_status (me_orders BOT_TOKEN pool init_data) = 200%Z
                   \/ response_status (me_orders BOT_TOKEN pool init_data) = 500%Z).
Proof.
  assert (Hraise : forall e, verify_init_data BOT_TOKEN init_data = Raise e ->
                             me_orders BOT_TOKEN pool init_data = Raise e).
  { intros e He. unfold me_orders. rewrite He. reflexivity. }
  assert (Hok : forall user, verify_init_data BOT_TOKEN init_data = Ok user ->
                  response_status (me_orders BOT_TOKEN pool init_data) = 200%Z
                  \/ response_status (me_orders BOT_TOKEN pool init_data) = 500%Z).
  { intros user Hverify.
    destruct (me_orders BOT_TOKEN pool init_data) as [views|e] eqn:Hrun.
    - left. reflexivity.
    - right. cbn [response_status]. apply unhandled_status.
      exact (me_orders_verified_raises pool init_data user e Hverify Hrun). }
  split; [|split; assumption]. split.
  - intros Hstatus.
    destruct (verify_init_data BOT_TOKEN init_data) as [user|e] eqn:Hverify.
    + destruct (Hok user eq_refl) as [H|H]; rewrite H in Hstatus; discriminate.
    + rewrite (Hraise e eq_refl) in Hstatus. cbn [response_status] in Hstatus.
      apply http_status_401 in Hstatus as (detail & ->). exists detail. reflexivity.
  - intros (detail & Hverify). rewrite (Hraise _ Hverify). reflexivity.
Qed.

(** X8. The orders [me_orders] answers with are those of the identity of
    the payload and no others: every entry shows a stored row whose
    [owner_tg_id] is the [id] of the verified identity, every such row is
    shown once, and a row without owner is shown to nobody. *)
Theorem me_orders_own_orders
    (pool : option database) (init_data : pystr) (views : list order_view) :
  me_orders BOT_TOKEN pool init_data = Ok views ->
  exists (user v : json) (tg_id : Z) (db : database) (rows : list order),
    verify_init_data BOT_TOKEN init_data = Ok user
    /\ getitem user (py "id") = Ok v /\ py_int v = Ok tg_id
    /\ pool = Some db
    /\ Forall2 shows views rows
    /\ rows ≡ₚ List.filter (owned_by tg_id) (orders db)
    /\ Forall (fun r => r ∈ orders db /\ owner_tg_id r = Some tg_id) rows.
Proof.
  unfold me_orders. intros H.
  apply bind_ok_inv in H as (user & Hverify & H).
  apply bind_ok_inv in H as (v & Hget & H).
  apply bind_ok_inv in H as (tg_id & Hint & H).
  apply bind_ok_inv in H as (db & Hpool & H).
  apply bind_ok_inv in H as (arg & Harg & H).
  revert Harg. unfold pg_int. destruct (in_range 64 tg_id); [|discriminate].
  intros [= <-].
  assert (Hperm : select_orders db tg_id ≡ₚ List.filter (owned_by tg_id) (orders db))
    by apply merge_sort_Permutation.
  exists user, v, tg_id, db, (select_orders db tg_id).
  repeat split; try assumption.
  - destruct pool; [injection Hpool as ->; reflexivity | discriminate].
  - apply views_of_rows_shows. exact H.
  - apply Forall_forall. intros r Hr. rewrite Hperm in Hr.
    apply list_elem_of_In, filter_In in Hr as (Hin & Howned).
    split; [apply list_elem_of_In; exact Hin|].
    unfold owned_by in Howned. apply bool_decide_eq_true in Howned. exact Howned.
Qed.

End MeOrdersMore.

(** The tampered sample is answered 401, with or without a pool. *)
Lemma me_orders_status_witness :
  response_status (me_orders sample_token None tampered_init_data) = 401%Z
  /\ me_orders sample_token None tampered_init_data
     = Raise (HTTPException 401 "Bad signature")
  /\ (response_status (me_orders sample_token None sample_init_data) = 200%Z
      \/ response_status (me_orders sample_token None sample_init_data) = 500%Z).
Proof.
  split; [|split].
  - apply (proj1 (me_orders_status sample_token None tampered_init_data)).
    exists "Bad signature"%string. vm_compute. reflexivity.
  - apply (proj1 (proj2 (me_orders_status sample_token None tampered_init_data))).
    vm_compute. reflexivity.
  - apply (proj2 (proj2 (me_orders_status sample_token None sample_init_data))
             (JObj [(py "id", JInt 42)])).
    vm_compute. reflexivity.
Defined.

(** The sample identity, 42, reads the table of three orders: the two
    entries it gets show rows of owner 42. *)
Lemma me_orders_own_orders_witness :
  exists (views : list order_view) (rows : list order),
    me_orders sample_token (Some sample_orders) sample_init_data = Ok views
    /\ Forall2 shows views rows
    /\ Forall (fun r => r ∈ orders sample_orders /\ owner_tg_id r = Some 42%Z) rows
    /\ length views = 2%nat.
Proof.
  destruct (me_orders sample_token (Some sample_orders) sample_init_data)
    as [views|e] eqn:Hrun; [|vm_compute in Hrun; discriminate].
  destruct (me_orders_own_orders sample_token (Some sample_orders) sample_init_data
              views Hrun)
    as (user & v & tg_id & db & rows & Hverify & Hget & Hint & Hpool & Hshows
        & _ & Hrows).
  vm_compute in Hverify. injection Hverify as <-.
  vm_compute in Hget. injection Hget as <-.
  vm_compute in Hint. injection Hint as <-.
  injection Hpool as <-.
  exists views, rows. split; [reflexivity|]. split; [exact Hshows|].
  split; [exact Hrows|].
  vm_compute in Hrun. injection Hrun as <-. reflexivity.
Defined.

(** * Further properties of [admin_upsert] *)


(** The rows with another number are left as they are, where they are. *)
Lemma upsert_order_frame (db : database) (now : Z) (v : upsert_values) :
  List.filter (other_public_no (v_public_no v)) (orders (upsert_order db now v))
  = List.filter (other_public_no (v_public_no v)) (orders db).
Proof.
  unfold upsert_order, other_public_no.
  destruct (existsb (has_public_no (v_public_no v)) (orders db)) eqn:Hex; cbn [orders].
  - clear Hex. induction (orders db) as [|r rows IH]; [reflexivity|].
    cbn [List.map List.filter]. destruct (has_public_no (v_public_no v) r) eqn:Hhas.
    + change (has_public_no (v_public_no v) (do_update now v r))
        with (has_public_no (v_public_no v) r).
      rewrite Hhas. cbn [negb]. exact IH.
    + rewrite Hhas. cbn [negb]. f_equal. exact IH.
  - rewrite List.filter_app. cbn [List.filter].
    unfold has_public_no at 2. cbn [inserted_row public_no].
    rewrite bool_decide_eq_true_2 by reflexivity. cbn [negb]. apply app_nil_r.
Qed.

Lemma upsert_order_length (db : database) (now : Z) (v : upsert_values) :
  length (orders (upsert_order db now v))
  = (length (orders db)
     + (if existsb (has_public_no (v_public_no v)) (orders db) then 0 else 1))%nat.
Proof.
  unfold upsert_order.
  destruct (existsb (has_public_no (v_public_no v)) (orders db)); cbn [orders].
  - rewrite length_map. lia.
  - rewrite length_app. reflexivity.
Qed.

(** Every row of the number of [v] after the statement: either the update
    of a row that had the number, or the one inserted row. *)
Lemma upsert_order_rows (db : database) (now : Z) (v : upsert_values) (r : order) :
  r ∈ orders (upsert_order db now v) ->
  public_no r = v_public_no v ->
  (exists r0, r0 ∈ orders db /\ public_no r0 = v_public_no v /\ r = do_update now v r0)
  \/ (existsb (has_public_no (v_public_no v)) (orders db) = false
      /\ r = inserted_row (orders_id_seq db + 1) now v).
Proof.
  unfold upsert_order.
  destruct (existsb (has_public_no (v_public_no v)) (orders db)) eqn:Hex; cbn [orders].
  - intros Hr Hno. left.
    apply list_elem_of_In, in_map_iff in Hr as (r0 & Hr0 & Hin).
    destruct (has_public_no (v_public_no v) r0) eqn:Hhas.
    + exists r0. apply has_public_no_spec in Hhas.
      split; [apply list_elem_of_In; exact Hin|]. split; [exact Hhas|]. congruence.
    + subst r. apply has_public_no_spec in Hno. congruence.
  - intros Hr Hno. right. split; [reflexivity|].
    apply elem_of_app in Hr as [Hr|Hr].
    + exfalso. apply (existsb_false_absent _ _ Hex).
      rewrite <- Hno. apply list_elem_of_In, in_map, list_elem_of_In. exact Hr.
    + apply list_elem_of_singleton in Hr. exact Hr.
Qed.

(** Every row after the statement is a row that was there, the update of
    one, or the inserted row. *)
Lemma upsert_order_any_row (db : database) (now : Z) (v : upsert_values) (r : order) :
  r ∈ orders (upsert_order db now v) ->
  r ∈ orders db
  \/ (exists r0, r0 ∈ orders db /\ r = do_update now v r0)
  \/ r = inserted_row (orders_id_seq db + 1) now v.
Proof.
  unfold upsert_order.
  destruct (existsb (has_public_no (v_public_no v)) (orders db)); cbn [orders].
  - intros Hr. apply list_elem_of_In, in_map_iff in Hr as (r0 & Hr0 & Hin).
    apply list_elem_of_In in Hin.
    destruct (has_public_no (v_public_no v) r0).
    + right. left. exists r0. split; [exact Hin | congruence].
    + left. congruence.
  - intros Hr. apply elem_of_app in Hr as [Hr|Hr]; [left; exact Hr|].
    right. right. apply list_elem_of_singleton in Hr. exact Hr.
Qed.

Lemma pg_int_ok (bits n v : Z) : pg_int bits n = Ok v -> v = n /\ in_range bits n = true.
Proof. unfold pg_int. destruct (in_range bits n); [|discriminate]. intros [= <-]. tauto. Qed.

Section AdminUpsertMore.

Variable ADMIN_API_TOKEN : pystr.
Variable py_repr : json -> pystr.
Variable pg_int_coerce : json -> option Z.

(** The optional value the driver stores for an integer column is within
    the range of the column. *)
Lemma pg_int_opt_ok (bits : Z) (x : json) (n : Z) :
  pg_int_opt pg_int_coerce bits x = Ok (Some n) -> in_range bits n = true.
Proof.
  assert (Hint : forall m, (let* v := pg_int bits m in Ok (Some v)) = Ok (Some n) ->
                           in_range bits n = true).
  { intros m H. apply bind_ok_inv in H as (v & Hv & H). injection H as ->.
    apply pg_int_ok in Hv as (-> & Hv). exact Hv. }
  destruct x; cbn [pg_int_opt]; try (destruct (pg_int_coerce _));
    try discriminate; apply Hint.
Qed.

Lemma pg_int_opt_int (bits n : Z) (a : option Z) :
  pg_int_opt pg_int_coerce bits (JInt n) = Ok a ->
  a = Some n /\ in_range bits n = true.
Proof.
  cbn [pg_int_opt]. intros H. apply bind_ok_inv in H as (v & Hv & H).
  injection H as <-. apply pg_int_ok in Hv as (-> & Hv). tauto.
Qed.

(** What a request that succeeds has gone through. *)
Lemma admin_upsert_run_ok_inv (pool : option database) (now : Z) (req : Request)
    (x_admin_token : pystr) (db' : database) :
  admin_upsert_run ADMIN_API_TOKEN py_repr pg_int_coerce pool now req x_admin_token
  = Ok db' ->
  x_admin_token = ADMIN_API_TOKEN
  /\ exists members,
       req_json req = Some (JObj members)
       /\ required_field py_repr members (py "public_no") <> []
       /\ required_field py_repr members (py "item") <> []
       /\ required_field py_repr members (py "status") <> []
       /\ store_order py_repr pg_int_coerce pool now members = Ok db'.
Proof.
  intros Hrun.
  assert (Htoken : x_admin_token = ADMIN_API_TOKEN).
  { revert Hrun. unfold admin_upsert_run, require_admin.
    destruct (bool_decide_reflect (x_admin_token = ADMIN_API_TOKEN)) as [H|H];
      [intros _; exact H | discriminate]. }
  subst x_admin_token. split; [reflexivity|].
  destruct (req_json req) as [[| | | | | |members]|] eqn:Hreq;
    try (exfalso;
         destruct (admin_upsert_run_not_object ADMIN_API_TOKEN py_repr pg_int_coerce
                     pool now req) as (e & He & _);
         [intros members; rewrite Hreq; discriminate | congruence]).
  exists members. split; [reflexivity|].
  rewrite (admin_upsert_run_authorised _ _ _ pool now req members Hreq) in Hrun.
  destruct (required_field py_repr members (py "public_no")); [discriminate|].
  destruct (required_field py_repr members (py "item")); [discriminate|].
  destruct (required_field py_repr members (py "status")); [discriminate|].
  repeat split; try discriminate. exact Hrun.
Qed.

Lemma store_order_ok_inv (pool : option database) (now : Z)
    (members : list (pystr * json)) (db' : database) :
  store_order py_repr pg_int_coerce pool now members = Ok db' ->
  exists (entries : list json) (p : database) (values : upsert_values),
    py_iter (submitted_services members) = Ok entries
    /\ pool = Some p
    /\ bind_upsert pg_int_coerce
         (required_field py_repr members (py "public_no"))
         (optional_field members (py "owner_tg_id"))
         (optional_field members (py "owner_phone"))
         (required_field py_repr members (py "item"))
         (services_text py_repr entries)
         (required_field py_repr members (py "status"))
         (optional_field members (py "price"))
         (optional_field members (py "comment")) = Ok values
    /\ db' = upsert_order p now values.
Proof.
  unfold store_order. intros H.
  apply bind_ok_inv in H as (entries & Hentries & H).
  apply bind_ok_inv in H as (p & Hpool & H).
  apply bind_ok_inv in H as (values & Hvalues & H). injection H as <-.
  exists entries, p, values. repeat split; try assumption.
  destruct pool; [injection Hpool as ->; reflexivity | discriminate].
Qed.

(** The values a successful [bind_upsert] hands to the statement. *)
Lemma bind_upsert_values (public_no : pystr) (owner_tg_id owner_phone : json)
    (item services_json status : pystr) (price comment : json) (v : upsert_values) :
  bind_upsert pg_int_coerce public_no owner_tg_id owner_phone item services_json
              status price comment = Ok v ->
  pg_text public_no = Ok (v_public_no v)
  /\ pg_int_opt pg_int_coerce 64 owner_tg_id = Ok (v_owner_tg_id v)
  /\ pg_text_opt owner_phone = Ok (v_owner_phone v)
  /\ pg_text item = Ok (v_item v)
  /\ pg_text services_json = Ok (v_services_json v)
  /\ pg_text status = Ok (v_status v)
  /\ pg_int_opt pg_int_coerce 32 price = Ok (v_price v)
  /\ pg_text_opt comment = Ok (v_comment v).
Proof using Type.
  unfold bind_upsert. intros H.
  apply bind_ok_inv in H as (a1 & H1 & H). apply bind_ok_inv in H as (a2 & H2 & H).
  apply bind_ok_inv in H as (a3 & H3 & H). apply bind_ok_inv in H as (a4 & H4 & H).
  apply bind_ok_inv in H as (a5 & H5 & H). apply bind_ok_inv in H as (a6 & H6 & H).
  apply bind_ok_inv in H as (a7 & H7 & H). apply bind_ok_inv in H as (a8 & H8 & H).
  injection H as <-. cbn. repeat split; assumption.
Qed.

End AdminUpsertMore.

Lemma strip_char (c : N) : strip [c] = if isspace c then [] else [c].
Proof.
  unfold strip, rstrip. cbn [lstrip]. destruct (isspace c) eqn:Hc; [reflexivity|].
  cbn [rev app lstrip]. rewrite Hc. reflexivity.
Qed.

Section AdminUpsertExtras.

Variable ADMIN_API_TOKEN : pystr.
Variable py_repr : json -> pystr.
Variable pg_int_coerce : json -> option Z.

Lemma admin_upsert_ok_run (pool : option database) (now : Z) (req : Request)
    (x_admin_token : pystr) (pool' : option database) :
  admin_upsert ADMIN_API_TOKEN py_repr pg_int_coerce pool now req x_admin_token
  = (Ok tt, pool') ->
  exists db', pool' = Some db'
              /\ admin_upsert_run ADMIN_API_TOKEN py_repr pg_int_coerce pool now req
                   x_admin_token = Ok db'.
Proof.
  unfold admin_upsert.
  destruct (admin_upsert_run ADMIN_API_TOKEN py_repr pg_int_coerce pool now req
              x_admin_token) as [db'|e]; [|discriminate].
  intros [= <-]. exists db'. split; reflexivity.
Qed.

(** What a request that succeeds has written: the upsert of the values
    that the codecs made of its fields. *)
Lemma admin_upsert_ok_inv (pool : option database) (now : Z) (req : Request)
    (x_admin_token : pystr) (pool' : option database) :
  admin_upsert ADMIN_API_TOKEN py_repr pg_int_coerce pool now req x_admin_token
  = (Ok tt, pool') ->
  exists (members : list (pystr * json)) (entries : list json)
         (db : database) (values : upsert_values),
    x_admin_token = ADMIN_API_TOKEN
    /\ req_json req = Some (JObj members)
    /\ required_field py_repr members (py "public_no") <> []
    /\ required_field py_repr members (py "item") <> []
    /\ required_field py_repr members (py "status") <> []
    /\ py_iter (submitted_services members) = Ok entries
    /\ pool = Some db
    /\ bind_upsert pg_int_coerce
         (required_field py_repr members (py "public_no"))
         (optional_field members (py "owner_tg_id"))
         (optional_field members (py "owner_phone"))
         (required_field py_repr members (py "item"))
         (services_text py_repr entries)
         (required_field py_repr members (py "status"))
         (optional_field members (py "price"))
         (optional_field members (py "comment")) = Ok values
    /\ pool' = Some (upsert_order db now values).
Proof.
  intros Hok. apply admin_upsert_ok_run in Hok as (db' & -> & Hrun).
  apply admin_upsert_run_ok_inv in Hrun
    as (Htoken & members & Hreq & Hno & Hitem & Hstatus & Hstore).
  apply store_order_ok_inv in Hstore as (entries & db & values & He & Hp & Hv & ->).
  exists members, entries, db, values. repeat split; assumption.
Qed.

(** X9. A request that succeeds changes no row but the one of its
    [public_no]: the other rows are the same, in the same order, and the
    table has one row more when the number is new and as many as before
    when it is not. *)
Theorem admin_upsert_other_rows (db : database) (now : Z) (req : Request)
    (x_admin_token : pystr) (pool' : option database) :
  admin_upsert ADMIN_API_TOKEN py_repr pg_int_coerce (Some db) now req x_admin_token
  = (Ok tt, pool') ->
  exists (members : list (pystr * json)) (db' : database),
    req_json req = Some (JObj members)
    /\ pool' = Some db'
    /\ List.filter (other_public_no (required_field py_repr members (py "public_no")))
         (orders db')
       = List.filter (other_public_no (required_field py_repr members (py "public_no")))
           (orders db)
    /\ length (orders db')
       = (length (orders db)
          + (if existsb (has_public_no (required_field py_repr members (py "public_no")))
                  (orders db)
             then 0 else 1))%nat.
Proof.
  intros Hok.
  apply admin_upsert_ok_inv in Hok
    as (members & entries & p & values & _ & Hreq & _ & _ & _ & _ & Hp & Hv & ->).
  injection Hp as <-.
  apply bind_upsert_ok in Hv as (Hno & _).
  exists members, (upsert_order db now values).
  split; [exact Hreq|]. split; [reflexivity|]. rewrite <- Hno. split.
  - apply upsert_order_frame.
  - apply upsert_order_length.
Qed.

(** X10. The upsert never touches [id], [created_at] and [is_closed] of a
    row it finds: after a request that succeeds, a row of its [public_no]
    has [updated_at] at the time of the request and either keeps these
    three columns from the row that had the number before, or the number is
    new and the row has the next [id], [created_at] at the time of the
    request and [is_closed] false. *)
Theorem admin_upsert_kept_columns (db : database) (now : Z) (req : Request)
    (x_admin_token : pystr) (db' : database) (members : list (pystr * json))
    (r : order) :
  admin_upsert ADMIN_API_TOKEN py_repr pg_int_coerce (Some db) now req x_admin_token
  = (Ok tt, Some db') ->
  req_json req = Some (JObj members) ->
  r ∈ orders db' ->
  public_no r = required_field py_repr members (py "public_no") ->
  updated_at r = now
  /\ ((exists r0, r0 ∈ orders db /\ public_no r0 = public_no r
                  /\ id r = id r0 /\ created_at r = created_at r0
                  /\ is_closed r = is_closed r0)
      \/ ((public_no r ∉ List.map public_no (orders db))
          /\ id r = (orders_id_seq db + 1)%Z /\ created_at r = now
          /\ is_closed r = false)).
Proof.
  intros Hok Hreq Hr Hno.
  apply admin_upsert_ok_inv in Hok
    as (members' & entries & p & values & _ & Hreq' & _ & _ & _ & _ & Hp & Hv & Hdb).
  rewrite Hreq in Hreq'. injection Hreq' as <-. injection Hp as <-.
  injection Hdb as ->.
  apply bind_upsert_ok in Hv as (Hvno & _). rewrite <- Hvno in Hno.
  destruct (upsert_order_rows db now values r Hr Hno)
    as [(r0 & Hin & Hr0 & ->)|(Hex & ->)].
  - split; [reflexivity|]. left. exists r0. cbn. repeat split; assumption.
  - split; [reflexivity|]. right. cbn. repeat split.
    apply existsb_false_absent. exact Hex.
Qed.

(** X11. The order of the checks of [admin_upsert] under the right token
    and a JSON object: an empty [public_no] is reported first; then an
    empty [item] or [status]; then [services] that cannot be iterated, as
    an unhandled [TypeError]; then a pool that is not ready, as an
    unhandled [RuntimeError]. None of these writes. *)
Theorem admin_upsert_order_of_checks (pool : option database) (now : Z)
    (req : Request) (members : list (pystr * json)) :
  req_json req = Some (JObj members) ->
  (required_field py_repr members (py "public_no") = [] ->
   admin_upsert ADMIN_API_TOKEN py_repr pg_int_coerce pool now req ADMIN_API_TOKEN
   = (Raise (HTTPException 400 "public_no required"), pool))
  /\ (required_field py_repr members (py "public_no") <> [] ->
      required_field py_repr members (py "item") = []
      \/ required_field py_repr members (py "status") = [] ->
      admin_upsert ADMIN_API_TOKEN py_repr pg_int_coerce pool now req ADMIN_API_TOKEN
      = (Raise (HTTPException 400 "item/status required"), pool))
  /\ (required_field py_repr members (py "public_no") <> [] ->
      required_field py_repr members (py "item") <> [] ->
      required_field py_repr members (py "status") <> [] ->
      (forall e, py_iter (submitted_services members) = Raise e ->
                 admin_upsert ADMIN_API_TOKEN py_repr pg_int_coerce pool now req
                   ADMIN_API_TOKEN = (Raise TypeError, pool))
      /\ (forall entries, py_iter (submitted_services members) = Ok entries ->
                          pool = None ->
                          admin_upsert ADMIN_API_TOKEN py_repr pg_int_coerce pool now
                            req ADMIN_API_TOKEN
                          = (Raise (RuntimeError "DB not ready"), None))).
Proof.
  intros Hreq. unfold admin_upsert.
  rewrite (admin_upsert_run_authorised _ _ _ pool now req members Hreq).
  destruct (required_field py_repr members (py "public_no")) as [|c1 s1].
  { split; [reflexivity|]. split; intros H; congruence. }
  split; [discriminate|].
  destruct (required_field py_repr members (py "item")) as [|c2 s2].
  { split; [reflexivity|]. intros _ H. congruence. }
  destruct (required_field py_repr members (py "status")) as [|c3 s3].
  { split; [reflexivity|]. intros _ _ H. congruence. }
  split; [intros _ [H|H]; discriminate|].
  intros _ _ _. unfold store_order. split.
  - intros e He. rewrite He. apply py_iter_raises in He as ->. reflexivity.
  - intros entries He ->. rewrite He. reflexivity.
Qed.

(** X12. [services] given as a text is taken character by character: a
    request that succeeds stores the characters of the text that are not
    white space, each as an entry of its own. *)
Theorem admin_upsert_services_text (pool : option database) (now : Z)
    (req : Request) (members : list (pystr * json)) (text : pystr)
    (db' : database) (r : order) :
  req_json req = Some (JObj members) ->
  dict_get (py "services") members = Some (JStr text) ->
  admin_upsert ADMIN_API_TOKEN py_repr pg_int_coerce pool now req ADMIN_API_TOKEN
  = (Ok tt, Some db') ->
  r ∈ orders db' ->
  public_no r = required_field py_repr members (py "public_no") ->
  services_json r
  = json_dumps (List.map (fun c => [c]) (List.filter (fun c => negb (isspace c)) text)).
Proof.
  intros Hreq Hservices Hok Hr Hno.
  apply admin_upsert_ok_inv in Hok
    as (members' & entries & p & values & _ & Hreq' & _ & _ & _ & He & _ & Hv & Hdb).
  rewrite Hreq in Hreq'. injection Hreq' as <-. injection Hdb as ->.
  apply bind_upsert_ok in Hv as (Hvno & _ & Hvs & _). rewrite <- Hvno in Hno.
  rewrite (proj2 (upsert_order_stored p now values) r Hr Hno), Hvs.
  assert (Hentries : entries = List.map (fun c => JStr [c]) text).
  { revert He. unfold submitted_services, optional_field. rewrite Hservices.
    cbn [default]. destruct text; cbn; congruence. }
  rewrite Hentries. unfold services_text. f_equal. clear.
  induction text as [|c text IH]; [reflexivity|].
  cbn [List.map List.filter py_str]. rewrite strip_char.
  destruct (isspace c) eqn:Hc; cbn [nonempty length Nat.eqb negb]; [exact IH|].
  cbn [List.map py_str]. rewrite strip_char, Hc, IH. reflexivity.
Qed.

End AdminUpsertExtras.

(** * What the two handlers keep true of the table *)

Lemma json_dumps_or_default (strings : list pystr) :
  match json_dumps strings with
  | [] => py "[]"
  | _ :: _ => json_dumps strings
  end = json_dumps strings.
Proof. reflexivity. Qed.

Lemma kept_services_trimmed (f : json -> pystr) (entries : list json) :
  Forall trimmed (kept_services f entries).
Proof.
  apply Forall_forall. intros s Hs. unfold kept_services in Hs.
  apply list_elem_of_In, in_map_iff in Hs as (x & <- & Hx).
  apply filter_In in Hx as (_ & Hx). split.
  - apply nonempty_spec. exact Hx.
  - apply strip_idem.
Qed.

Lemma trimmed_strip (s : pystr) : strip s <> [] -> trimmed (strip s).
Proof. intros H. split; [exact H | apply strip_idem]. Qed.

(** The columns of a row of the number of [v] after the statement. *)
Lemma upsert_order_stored_row (db : database) (now : Z) (v : upsert_values) (r : order) :
  r ∈ orders (upsert_order db now v) ->
  public_no r = v_public_no v ->
  owner_tg_id r = v_owner_tg_id v /\ owner_phone r = v_owner_phone v
  /\ item r = v_item v /\ services_json r = v_services_json v
  /\ status r = v_status v /\ price r = v_price v /\ comment r = v_comment v
  /\ updated_at r = now.
Proof.
  intros Hr Hno.
  destruct (upsert_order_rows db now v r Hr Hno) as [(r0 & _ & _ & ->)|(_ & ->)];
    cbn; repeat split; reflexivity.
Qed.

Lemma upsert_order_table_ok (db : database) (now : Z) (v : upsert_values) :
  table_ok db -> values_ok v -> table_ok (upsert_order db now v).
Proof.
  intros (Hunique & Hrows) (Hno & Hitem & Hstatus & Hservices & Howner & Hprice).
  split; [apply upsert_order_unique; exact Hunique|].
  apply Forall_forall. intros r Hr. rewrite Forall_forall in Hrows.
  destruct (upsert_order_any_row db now v r Hr) as [Hold|[(r0 & Hin & ->)| ->]].
  - apply Hrows. exact Hold.
  - destruct (Hrows r0 Hin) as (Hno0 & _ & _ & _ & _ & _ & Hclosed).
    unfold row_ok. cbn. repeat split; try assumption;
      first [apply Hno0 | apply Hitem | apply Hstatus].
  - unfold row_ok. cbn. repeat split; try assumption;
      first [apply Hno | apply Hitem | apply Hstatus].
Qed.

(** The entries of the answer for rows that [admin_upsert] wrote. *)
Lemma views_of_rows_total (rows : list order) :
  Forall row_ok rows ->
  exists views,
    views_of_rows rows = Ok views
    /\ Forall2 shows views rows
    /\ Forall (fun o => exists entries, view_services o = JArr (List.map JStr entries)
                                        /\ Forall trimmed entries) views.
Proof.
  induction 1 as [|r rows Hr _ (views & Hviews & Hshows & Hserv)].
  - exists []. repeat split; constructor.
  - destruct Hr as (_ & _ & _ & (entries & Hjson & Htrim) & _).
    assert (Hview : view_of_row r
                    = Ok (OrderView (public_no r) (item r) (JArr (List.map JStr entries))
                            (status r) (price r) (comment r) (created_at r)
                            (updated_at r))).
    { unfold view_of_row. rewrite Hjson, json_dumps_or_default, json_loads_dumped.
      reflexivity. }
    eexists. cbn [views_of_rows]. rewrite Hview, Hviews. cbn [bind].
    split; [reflexivity|]. split.
    + constructor; [|exact Hshows]. unfold shows. cbn.
      rewrite Hjson, json_dumps_or_default, json_loads_dumped. repeat split.
    + constructor; [|exact Hserv]. exists entries. cbn. split; [reflexivity|exact Htrim].
Qed.

Section Invariants.

Variable BOT_TOKEN : pystr.
Variable ADMIN_API_TOKEN : pystr.
Variable py_repr : json -> pystr.
Variable pg_int_coerce : json -> option Z.

Lemma services_text_kept (entries : list json) :
  services_text py_repr entries = json_dumps (kept_services (py_str py_repr) entries).
Proof. reflexivity. Qed.

(** The values of a request that gets as far as the statement. *)
Lemma bind_upsert_values_ok (members : list (pystr * json)) (entries : list json)
    (values : upsert_values) :
  required_field py_repr members (py "public_no") <> [] ->
  required_field py_repr members (py "item") <> [] ->
  required_field py_repr members (py "status") <> [] ->
  bind_upsert pg_int_coerce
    (required_field py_repr members (py "public_no"))
    (optional_field members (py "owner_tg_id"))
    (optional_field members (py "owner_phone"))
    (required_field py_repr members (py "item"))
    (services_text py_repr entries)
    (required_field py_repr members (py "status"))
    (optional_field members (py "price"))
    (optional_field members (py "comment")) = Ok values ->
  values_ok values.
Proof.
  intros Hno Hitem Hstatus Hbind.
  pose proof (bind_upsert_values pg_int_coerce _ _ _ _ _ _ _ _ _ Hbind)
    as (H1 & H2 & _ & H4 & H5 & H6 & H7 & _).
  apply pg_text_ok in H1, H4, H5, H6.
  unfold values_ok. rewrite H1, H4, H5, H6. unfold required_field in *.
  repeat split; try (apply strip_idem); try assumption.
  - exists (kept_services (py_str py_repr) entries).
    split; [reflexivity | apply kept_services_trimmed].
  - destruct (v_owner_tg_id values) as [n|]; [|exact I].
    exact (pg_int_opt_ok pg_int_coerce 64 _ n H2).
  - destruct (v_price values) as [n|]; [|exact I].
    exact (pg_int_opt_ok pg_int_coerce 32 _ n H7).
Qed.

Lemma admin_upsert_table_ok (db : database) (now : Z) (req : Request)
    (x_admin_token : pystr) :
  table_ok db ->
  exists db',
    (admin_upsert ADMIN_API_TOKEN py_repr pg_int_coerce (Some db) now req
       x_admin_token).2 = Some db'
    /\ table_ok db'.
Proof.
  intros Hdb.
  destruct (admin_upsert ADMIN_API_TOKEN py_repr pg_int_coerce (Some db) now req
              x_admin_token) as [[[]|e] pool'] eqn:Hrun.
  - apply admin_upsert_ok_inv in Hrun
      as (members & entries & p & values & _ & _ & Hno & Hitem & Hstatus & _ & Hp
          & Hv & ->).
    injection Hp as <-. eexists. split; [reflexivity|].
    apply upsert_order_table_ok; [exact Hdb|].
    exact (bind_upsert_values_ok members entries values Hno Hitem Hstatus Hv).
  - exists db. split; [|exact Hdb]. revert Hrun. unfold admin_upsert.
    destruct (admin_upsert_run ADMIN_API_TOKEN py_repr pg_int_coerce (Some db) now req
                x_admin_token); intros [= _ <-]. reflexivity.
Qed.

(** From [startup] on, the pool is ready and the table is as [admin_upsert]
    writes it. *)
Lemma reachable_table_ok (pool : option database) :
  reachable ADMIN_API_TOKEN py_repr pg_int_coerce pool ->
  exists db, pool = Some db /\ table_ok db.
Proof.
  induction 1 as [|pool now req token _ (db & -> & Hdb)].
  - eexists. split; [reflexivity|]. split; cbn; constructor.
  - exact (admin_upsert_table_ok db now req token Hdb).
Qed.

(** X13. From [startup] on a server without tables, whatever requests
    [admin_upsert] has handled, with whatever outcome: the pool is ready;
    no two rows have the same [public_no]; in every row [public_no], [item]
    and [status] are not empty and have no white space around them;
    [services_json] is the JSON text of a list of strings that are not empty
    and have no white space around them; [owner_tg_id] and [price] fit 64
    and 32 bits; and [is_closed] is false. *)
Theorem reachable_invariants (pool : option database) :
  reachable ADMIN_API_TOKEN py_repr pg_int_coerce pool ->
  exists db,
    pool = Some db
    /\ NoDup (List.map public_no (orders db))
    /\ forall r, r ∈ orders db ->
         (public_no r <> [] /\ strip (public_no r) = public_no r)
         /\ (item r <> [] /\ strip (item r) = item r)
         /\ (status r <> [] /\ strip (status r) = status r)
         /\ (exists entries,
               services_json r = json_dumps entries
               /\ Forall (fun s => s <> [] /\ strip s = s) entries)
         /\ (forall n, owner_tg_id r = Some n -> in_range 64 n = true)
         /\ (forall n, price r = Some n -> in_range 32 n = true)
         /\ is_closed r = false.
Proof.
  intros Hreach. destruct (reachable_table_ok pool Hreach) as (db & -> & Hunique & Hrows).
  exists db. split; [reflexivity|]. split; [exact Hunique|].
  intros r Hr. rewrite Forall_forall in Hrows.
  destruct (Hrows r Hr) as (Hno & Hitem & Hstatus & Hserv & Howner & Hprice & Hclosed).
  repeat split; try apply Hno; try apply Hitem; try apply Hstatus; try assumption.
  - intros n Hn. rewrite Hn in Howner. exact Howner.
  - intros n Hn. rewrite Hn in Hprice. exact Hprice.
Qed.

(** [me_orders] on a table whose rows are as [admin_upsert] writes them. *)
Lemma me_orders_rows_ok (db : database) (init_data : pystr)
    (user v : json) (tg_id : Z) :
  Forall row_ok (orders db) ->
  verify_init_data BOT_TOKEN init_data = Ok user ->
  getitem user (py "id") = Ok v ->
  py_int v = Ok tg_id ->
  in_range 64 tg_id = true ->
  exists views : list order_view,
    me_orders BOT_TOKEN (Some db) init_data = Ok views
    /\ Forall2 shows views (select_orders db tg_id)
    /\ Forall (fun o => exists entries, view_services o = JArr (List.map JStr entries)
                                        /\ Forall trimmed entries) views.
Proof.
  intros Hrows Hverify Hget Hint Hrange.
  assert (Hsel : Forall row_ok (select_orders db tg_id)).
  { apply Forall_forall. intros r Hr. rewrite Forall_forall in Hrows. apply Hrows.
    unfold select_orders in Hr. rewrite merge_sort_Permutation in Hr.
    apply list_elem_of_In, filter_In in Hr as (Hr & _).
    apply list_elem_of_In. exact Hr. }
  destruct (views_of_rows_total _ Hsel) as (views & Hviews & Hshows & Hserv).
  exists views. split; [|split; assumption].
  unfold me_orders. rewrite Hverify. cbn [bind]. rewrite Hget. cbn [bind].
  rewrite Hint. cbn [bind require_pool]. unfold pg_int. rewrite Hrange.
  cbn [bind]. exact Hviews.
Qed.

(** X14. On such a pool [me_orders] does not fail once the payload is
    verified and the [id] of the identity is an integer of 64 bits: it
    answers with the entries of the rows of that owner, and the [services]
    of every entry is a list of strings. *)
Theorem me_orders_total (pool : option database) (init_data : pystr)
    (user v : json) (tg_id : Z) :
  reachable ADMIN_API_TOKEN py_repr pg_int_coerce pool ->
  verify_init_data BOT_TOKEN init_data = Ok user ->
  getitem user (py "id") = Ok v ->
  py_int v = Ok tg_id ->
  in_range 64 tg_id = true ->
  exists (db : database) (views : list order_view),
    pool = Some db
    /\ me_orders BOT_TOKEN pool init_data = Ok views
    /\ Forall2 shows views (select_orders db tg_id)
    /\ Forall (fun o => exists entries,
                          view_services o = JArr (List.map JStr entries)
                          /\ Forall (fun s => s <> [] /\ strip s = s) entries) views.
Proof.
  intros Hreach Hverify Hget Hint Hrange.
  destruct (reachable_table_ok pool Hreach) as (db & -> & _ & Hrows).
  destruct (me_orders_rows_ok db init_data user v tg_id Hrows Hverify Hget Hint Hrange)
    as (views & Hrun & Hshows & Hserv).
  exists db, views. repeat split; assumption.
Qed.

(** X15. An order that [admin_upsert] has stored for an owner is listed to
    that owner: after a request that succeeds with the integer [n] as
    [owner_tg_id], [me_orders] for a verified identity whose [id] is [n]
    succeeds and has an entry with the [public_no], [item] and [status] of
    the request, trimmed, its services as a list of strings, and
    [updated_at] at the time of the request. *)
Theorem admin_upsert_then_me_orders (pool pool' : option database) (now : Z)
    (req : Request) (x_admin_token : pystr) (members : list (pystr * json))
    (n : Z) (init_data : pystr) (user v : json) :
  reachable ADMIN_API_TOKEN py_repr pg_int_coerce pool ->
  admin_upsert ADMIN_API_TOKEN py_repr pg_int_coerce pool now req x_admin_token
  = (Ok tt, pool') ->
  req_json req = Some (JObj members) ->
  dict_get (py "owner_tg_id") members = Some (JInt n) ->
  verify_init_data BOT_TOKEN init_data = Ok user ->
  getitem user (py "id") = Ok v ->
  py_int v = Ok n ->
  exists (views : list order_view) (o : order_view) (entries : list json),
    me_orders BOT_TOKEN pool' init_data = Ok views
    /\ o ∈ views
    /\ view_public_no o = required_field py_repr members (py "public_no")
    /\ view_item o = required_field py_repr members (py "item")
    /\ view_status o = required_field py_repr members (py "status")
    /\ py_iter (submitted_services members) = Ok entries
    /\ view_services o = JArr (List.map JStr (kept_services (py_str py_repr) entries))
    /\ view_updated_at o = now.
Proof.
  intros Hreach Hok Hreq Howner Hverify Hget Hint.
  assert (Hreach' : reachable ADMIN_API_TOKEN py_repr pg_int_coerce pool').
  { replace pool' with (admin_upsert ADMIN_API_TOKEN py_repr pg_int_coerce pool now req
                          x_admin_token).2 by (rewrite Hok; reflexivity).
    constructor. exact Hreach. }
  apply admin_upsert_ok_inv in Hok
    as (members' & entries & db & values & _ & Hreq' & _ & _ & _ & Hentries & _
        & Hbind & Hpool').
  rewrite Hreq in Hreq'. injection Hreq' as <-.
  pose proof (bind_upsert_values pg_int_coerce _ _ _ _ _ _ _ _ _ Hbind)
    as (H1 & H2 & _ & H4 & H5 & H6 & _ & _).
  apply pg_text_ok in H1, H4, H5, H6.
  unfold optional_field in H2. rewrite Howner in H2. cbn [default] in H2.
  apply pg_int_opt_int in H2 as (Hvowner & Hrange).
  destruct (reachable_table_ok pool' Hreach') as (db' & Hdb' & _ & Hrows).
  rewrite Hpool' in Hdb'. injection Hdb' as <-.
  destruct (me_orders_rows_ok _ init_data user v n Hrows Hverify Hget Hint Hrange)
    as (views & Hrun & Hshows & _).
  rewrite <- Hpool' in Hrun.
  destruct (proj1 (upsert_order_stored db now values)) as (r & Hr & Hno).
  destruct (upsert_order_stored_row db now values r Hr Hno)
    as (Hrowner & _ & Hritem & Hrserv & Hrstatus & _ & _ & Hrupd).
  assert (Hsel : r ∈ select_orders (upsert_order db now values) n).
  { unfold select_orders. rewrite merge_sort_Permutation.
    apply list_elem_of_In, filter_In. split; [apply list_elem_of_In; exact Hr|].
    unfold owned_by. apply bool_decide_eq_true. congruence. }
  apply list_elem_of_lookup in Hsel as (i & Hi).
  destruct (Forall2_lookup_r _ _ _ _ _ Hshows Hi) as (o & Ho & Hshow).
  destruct Hshow as (Sno & Sitem & Sserv & Sstatus & _ & _ & _ & Supd).
  exists views, o, entries. split; [exact Hrun|].
  split; [apply list_elem_of_lookup; exists i; exact Ho|].
  repeat split; try congruence.
  rewrite Hrserv, H5, services_text_kept, json_dumps_or_default, json_loads_dumped
    in Sserv.
  congruence.
Qed.

End Invariants.

Section ServicesAndColumns.

Variable ADMIN_API_TOKEN : pystr.
Variable py_repr : json -> pystr.
Variable pg_int_coerce : json -> option Z.

(** X6. What [admin_upsert] writes into [services_json], the loop of
    [me_orders] reads back: for every list of entries, [json.loads] of the
    text stored (or of the empty array in its place, were it empty) is the
    list of the strings kept, the entries trimmed without the empty ones. *)
Theorem services_json_round_trip (entries : list json) :
  json_loads (match services_text py_repr entries with
              | [] => py "[]"
              | _ :: _ => services_text py_repr entries
              end)
  = Ok (JArr (List.map JStr (kept_services (py_str py_repr) entries))).
Proof.
  change (services_text py_repr entries)
    with (json_dumps (kept_services (py_str py_repr) entries)).
  rewrite json_dumps_or_default. apply json_loads_dumped.
Qed.

(** X16. [services] that is neither a list, a text nor an object: a value
    that counts as false ([null], [false], zero, and an absent key) is
    stored as the empty array; [true] or a number other than zero cannot be
    iterated, and the request fails with an unhandled [TypeError] and
    writes nothing. *)
Theorem admin_upsert_services_scalar (pool : option database) (now : Z)
    (req : Request) (members : list (pystr * json)) :
  req_json req = Some (JObj members) ->
  required_field py_repr members (py "public_no") <> [] ->
  required_field py_repr members (py "item") <> [] ->
  required_field py_repr members (py "status") <> [] ->
  (forall x, dict_get (py "services") members = Some x ->
             truthy x = true ->
             (x = JBool true \/ (exists n, x = JInt n) \/ (exists f, x = JFloat f)) ->
             admin_upsert ADMIN_API_TOKEN py_repr pg_int_coerce pool now req
               ADMIN_API_TOKEN = (Raise TypeError, pool))
  /\ (dict_get (py "services") members = None
      \/ (exists x, dict_get (py "services") members = Some x /\ truthy x = false) ->
      forall (db' : database) (r : order),
        admin_upsert ADMIN_API_TOKEN py_repr pg_int_coerce pool now req
          ADMIN_API_TOKEN = (Ok tt, Some db') ->
        r ∈ orders db' ->
        public_no r = required_field py_repr members (py "public_no") ->
        services_json r = py "[]").
Proof.
  intros Hreq Hno Hitem Hstatus. split.
  - intros x Hx Htruthy Hshape. unfold admin_upsert.
    rewrite (admin_upsert_run_authorised _ _ _ pool now req members Hreq).
    destruct (required_field py_repr members (py "public_no")); [congruence|].
    destruct (required_field py_repr members (py "item")); [congruence|].
    destruct (required_field py_repr members (py "status")); [congruence|].
    unfold store_order, submitted_services, optional_field.
    rewrite Hx. change (default JNull (Some x)) with x. rewrite Htruthy.
    destruct Hshape as [->|[(number & ->)|(number & ->)]]; reflexivity.
  - intros Hfalsy db' r Hok Hr Hrno.
    apply admin_upsert_ok_inv in Hok
      as (members' & entries & p & values & _ & Hreq' & _ & _ & _ & He & _ & Hv & Hdb).
    rewrite Hreq in Hreq'. injection Hreq' as <-. injection Hdb as ->.
    apply bind_upsert_ok in Hv as (Hvno & _ & Hvs & _). rewrite <- Hvno in Hrno.
    rewrite (proj2 (upsert_order_stored p now values) r Hr Hrno), Hvs.
    assert (Hentries : entries = []).
    { revert He. unfold submitted_services, optional_field.
      destruct Hfalsy as [Hnone|(x & Hx & Hfalse)].
      - rewrite Hnone. cbn. congruence.
      - rewrite Hx. change (default JNull (Some x)) with x. rewrite Hfalse.
        cbn. congruence. }
    rewrite Hentries. reflexivity.
Qed.

(** X17. How the optional fields of a request that succeeds reach the
    columns of its row: [null] and an absent key are stored as [NULL]; an
    integer is stored as it is, and it fits the column, 64 bits for
    [owner_tg_id] and 32 for [price], so that a request with an integer
    outside the range never succeeds; a text is stored as it is. *)
Theorem admin_upsert_optional_columns (pool : option database) (now : Z)
    (req : Request) (members : list (pystr * json)) (db' : database) (r : order) :
  req_json req = Some (JObj members) ->
  admin_upsert ADMIN_API_TOKEN py_repr pg_int_coerce pool now req ADMIN_API_TOKEN
  = (Ok tt, Some db') ->
  r ∈ orders db' ->
  public_no r = required_field py_repr members (py "public_no") ->
  (optional_field members (py "owner_tg_id") = JNull -> owner_tg_id r = None)
  /\ (forall n, optional_field members (py "owner_tg_id") = JInt n ->
                owner_tg_id r = Some n /\ in_range 64 n = true)
  /\ (optional_field members (py "price") = JNull -> price r = None)
  /\ (forall n, optional_field members (py "price") = JInt n ->
                price r = Some n /\ in_range 32 n = true)
  /\ (optional_field members (py "owner_phone") = JNull -> owner_phone r = None)
  /\ (forall s, optional_field members (py "owner_phone") = JStr s ->
                owner_phone r = Some s)
  /\ (optional_field members (py "comment") = JNull -> comment r = None)
  /\ (forall s, optional_field members (py "comment") = JStr s -> comment r = Some s).
Proof.
  intros Hreq Hok Hr Hrno.
  apply admin_upsert_ok_inv in Hok
    as (members' & entries & p & values & _ & Hreq' & _ & _ & _ & _ & _ & Hv & Hdb).
  rewrite Hreq in Hreq'. injection Hreq' as <-. injection Hdb as ->.
  pose proof (bind_upsert_values pg_int_coerce _ _ _ _ _ _ _ _ _ Hv)
    as (H1 & H2 & H3 & _ & _ & _ & H7 & H8).
  apply pg_text_ok in H1. rewrite <- H1 in Hrno.
  destruct (upsert_order_stored_row p now values r Hr Hrno)
    as (-> & -> & _ & _ & _ & -> & -> & _).
  assert (Htext : forall x s a, pg_text_opt x = Ok a -> x = JStr s -> a = Some s).
  { intros x s a Ha ->. cbn [pg_text_opt] in Ha.
    apply bind_ok_inv in Ha as (t & Ht & Ha). apply pg_text_ok in Ht. congruence. }
  repeat split.
  - intros Hx. rewrite Hx in H2. cbn in H2. congruence.
  - rewrite H in H2. apply pg_int_opt_int in H2. tauto.
  - rewrite H in H2. apply pg_int_opt_int in H2. tauto.
  - intros Hx. rewrite Hx in H7. cbn in H7. congruence.
  - rewrite H in H7. apply pg_int_opt_int in H7. tauto.
  - rewrite H in H7. apply pg_int_opt_int in H7. tauto.
  - intros Hx. rewrite Hx in H3. cbn in H3. congruence.
  - intros s Hx. exact (Htext _ s _ H3 Hx).
  - intros Hx. rewrite Hx in H8. cbn in H8. congruence.
  - intros s Hx. exact (Htext _ s _ H8 Hx).
Qed.

End ServicesAndColumns.

(** ** The requests above, run *)

(** [sample_request] on the table of three orders: [A-1] is there, the two
    other rows stay and the table keeps its three rows. *)
Lemma admin_upsert_other_rows_witness :
  exists (members : list (pystr * json)) (db' : database),
    req_json sample_request = Some (JObj members)
    /\ Some sample_stored = Some db'
    /\ List.filter (other_public_no (required_field sample_repr members (py "public_no")))
         (orders db')
       = List.filter (other_public_no (required_field sample_repr members (py "public_no")))
           (orders sample_orders)
    /\ length (orders db')
       = (length (orders sample_orders)
          + if existsb (has_public_no (required_field sample_repr members (py "public_no")))
                 (orders sample_orders)
            then 0 else 1)%nat.
Proof.
  apply (admin_upsert_other_rows sample_admin_token sample_repr sample_coerce
           sample_orders 500 sample_request sample_admin_token (Some sample_stored)).
  vm_compute. reflexivity.
Defined.

(** The row of [A-1] after [sample_request]: it keeps the [id], the
    [created_at] and the [is_closed] of the row that was there. *)
Lemma admin_upsert_kept_columns_witness :
  updated_at sample_updated_row = 500%Z
  /\ ((exists r0, r0 ∈ orders sample_orders /\ public_no r0 = public_no sample_updated_row
                  /\ id sample_updated_row = id r0
                  /\ created_at sample_updated_row = created_at r0
                  /\ is_closed sample_updated_row = is_closed r0)
      \/ ((public_no sample_updated_row ∉ List.map public_no (orders sample_orders))
          /\ id sample_updated_row = (orders_id_seq sample_orders + 1)%Z
          /\ created_at sample_updated_row = 500%Z
          /\ is_closed sample_updated_row = false)).
Proof.
  eapply (admin_upsert_kept_columns sample_admin_token sample_repr sample_coerce
            sample_orders 500 sample_request sample_admin_token sample_stored).
  - vm_compute. reflexivity.
  - reflexivity.
  - vm_compute. constructor.
  - vm_compute. reflexivity.
Defined.

(** Four requests under the right token and without a pool: an empty
    object, a blank [item], [services] that is [true], and the request with
    the four services. *)
Lemma admin_upsert_order_of_checks_witness :
  admin_upsert sample_admin_token sample_repr sample_coerce None 500
    {| req_json := Some (JObj []) |} sample_admin_token
  = (Raise (HTTPException 400 "public_no required"), None)
  /\ admin_upsert sample_admin_token sample_repr sample_coerce None 500
       blank_item_request sample_admin_token
     = (Raise (HTTPException 400 "item/status required"), None)
  /\ admin_upsert sample_admin_token sample_repr sample_coerce None 500
       flag_services_request sample_admin_token
     = (Raise TypeError, None)
  /\ admin_upsert sample_admin_token sample_repr sample_coerce None 500
       owned_request sample_admin_token
     = (Raise (RuntimeError "DB not ready"), None).
Proof.
  split; [|split; [|split]].
  - apply (proj1 (admin_upsert_order_of_checks sample_admin_token sample_repr
                    sample_coerce None 500 {| req_json := Some (JObj []) |} []
                    eq_refl)).
    vm_compute. reflexivity.
  - eapply (proj1 (proj2 (admin_upsert_order_of_checks sample_admin_token sample_repr
                            sample_coerce None 500 blank_item_request _ eq_refl))).
    + vm_compute. discriminate.
    + left. vm_compute. reflexivity.
  - pose proof (admin_upsert_order_of_checks sample_admin_token sample_repr
                  sample_coerce None 500 flag_services_request flag_members eq_refl)
      as (_ & _ & H).
    apply (proj1 (H ltac:(vm_compute; discriminate) ltac:(vm_compute; discriminate)
                    ltac:(vm_compute; discriminate)) TypeError).
    vm_compute. reflexivity.
  - pose proof (admin_upsert_order_of_checks sample_admin_token sample_repr
                  sample_coerce None 500 owned_request owned_members eq_refl)
      as (_ & _ & H).
    apply (proj2 (H ltac:(vm_compute; discriminate) ltac:(vm_compute; discriminate)
                    ltac:(vm_compute; discriminate)) []).
    + vm_compute. reflexivity.
    + reflexivity.
Defined.

(** [services] given as the text [a b]: two entries, [a] and [b]. *)
Lemma admin_upsert_services_text_witness :
  services_json (inserted_row 1 500 text_values)
  = json_dumps (List.map (fun c => [c])
                  (List.filter (fun c => negb (isspace c)) (py "a b"))).
Proof.
  apply (admin_upsert_services_text sample_admin_token sample_repr sample_coerce
           (Some (Database [] 0)) 500 text_services_request text_members (py "a b")
           (upsert_order (Database [] 0) 500 text_values)).
  - reflexivity.
  - vm_compute. reflexivity.
  - vm_compute. reflexivity.
  - vm_compute. constructor.
  - vm_compute. reflexivity.
Defined.

(** The pool after [startup] and one request. *)
Lemma reachable_invariants_witness :
  exists db,
    (admin_upsert sample_admin_token sample_repr sample_coerce (startup None) 500
       owned_request sample_admin_token).2 = Some db
    /\ NoDup (List.map public_no (orders db))
    /\ forall r, r ∈ orders db -> is_closed r = false.
Proof.
  destruct (reachable_invariants sample_admin_token sample_repr sample_coerce _
              (reachable_upsert sample_admin_token sample_repr sample_coerce
                 (startup None) 500 owned_request sample_admin_token
                 (reachable_startup sample_admin_token sample_repr sample_coerce)))
    as (db & Hdb & Hunique & Hrows).
  exists db. split; [exact Hdb|]. split; [exact Hunique|].
  intros r Hr. destruct (Hrows r Hr) as (_ & _ & _ & _ & _ & _ & Hclosed).
  exact Hclosed.
Defined.

(** The sample identity reads the pool after [startup] and [owned_request]. *)
Lemma me_orders_total_witness :
  exists (db : database) (views : list order_view),
    Some owned_stored = Some db
    /\ me_orders sample_token (Some owned_stored) sample_init_data = Ok views
    /\ Forall2 shows views (select_orders db 42)
    /\ Forall (fun o => exists entries,
                          view_services o = JArr (List.map JStr entries)
                          /\ Forall (fun s => s <> [] /\ strip s = s) entries) views.
Proof.
  apply (me_orders_total sample_token sample_admin_token sample_repr sample_coerce
           (Some owned_stored) sample_init_data (JObj [(py "id", JInt 42)])
           (JInt 42) 42).
  - assert (H : (admin_upsert sample_admin_token sample_repr sample_coerce
                   (startup None) 500 owned_request sample_admin_token).2
                = Some owned_stored) by (vm_compute; reflexivity).
    rewrite <- H. constructor. constructor.
  - vm_compute. reflexivity.
  - vm_compute. reflexivity.
  - vm_compute. reflexivity.
  - vm_compute. reflexivity.
Defined.

(** [owned_request] after [startup], then the sample identity, 42: the
    order [A-9] is in the answer. *)
Lemma admin_upsert_then_me_orders_witness :
  exists (views : list order_view) (o : order_view),
    me_orders sample_token (Some owned_stored) sample_init_data = Ok views
    /\ o ∈ views
    /\ view_public_no o = py "A-9"
    /\ view_services o = JArr []
    /\ view_updated_at o = 500%Z.
Proof.
  destruct (admin_upsert_then_me_orders sample_token sample_admin_token sample_repr
              sample_coerce (startup None) (Some owned_stored) 500 owned_request
              sample_admin_token owned_members 42 sample_init_data
              (JObj [(py "id", JInt 42)]) (JInt 42)
              (reachable_startup sample_admin_token sample_repr sample_coerce)
              ltac:(vm_compute; reflexivity) eq_refl ltac:(vm_compute; reflexivity)
              ltac:(vm_compute; reflexivity) ltac:(vm_compute; reflexivity)
              ltac:(vm_compute; reflexivity))
    as (views & o & entries & Hrun & Ho & Hno & _ & _ & Hentries & Hserv & Hupd).
  exists views, o. split; [exact Hrun|]. split; [exact Ho|]. split; [|split].
  - rewrite Hno. vm_compute. reflexivity.
  - vm_compute in Hentries. injection Hentries as <-. rewrite Hserv. reflexivity.
  - exact Hupd.
Defined.

(** [services] that is [true] fails; [services] that is zero is stored as
    the empty array. *)
Lemma admin_upsert_services_scalar_witness :
  admin_upsert sample_admin_token sample_repr sample_coerce None 500
    flag_services_request sample_admin_token = (Raise TypeError, None)
  /\ services_json owned_row = py "[]".
Proof.
  split.
  - apply (proj1 (admin_upsert_services_scalar sample_admin_token sample_repr
                    sample_coerce None 500 flag_services_request flag_members eq_refl
                    ltac:(vm_compute; discriminate) ltac:(vm_compute; discriminate)
                    ltac:(vm_compute; discriminate)) (JBool true)).
    + vm_compute. reflexivity.
    + reflexivity.
    + left. reflexivity.
  - apply (proj2 (admin_upsert_services_scalar sample_admin_token sample_repr
                    sample_coerce (Some (Database [] 0)) 500 owned_request
                    owned_members eq_refl
                    ltac:(vm_compute; discriminate) ltac:(vm_compute; discriminate)
                    ltac:(vm_compute; discriminate))) with (db' := owned_stored).
    + right. exists (JInt 0). split; [vm_compute; reflexivity | reflexivity].
    + vm_compute. reflexivity.
    + vm_compute. constructor.
    + vm_compute. reflexivity.
Defined.

(** The row of [owned_request]: the owner 42 and the telephone as given,
    no price and no comment. *)
Lemma admin_upsert_optional_columns_witness :
  (owner_tg_id owned_row = Some 42%Z /\ in_range 64 42 = true)
  /\ price owned_row = None
  /\ owner_phone owned_row = Some (py "+7900")
  /\ comment owned_row = None.
Proof.
  pose proof (admin_upsert_optional_columns sample_admin_token sample_repr
                sample_coerce (Some (Database [] 0)) 500 owned_request owned_members
                owned_stored owned_row eq_refl
                ltac:(vm_compute; reflexivity) ltac:(vm_compute; constructor)
                ltac:(vm_compute; reflexivity))
    as (_ & Howner & Hprice & _ & _ & Hphone & Hcomment & _).
  split; [|split; [|split]].
  - apply Howner. vm_compute. reflexivity.
  - apply Hprice. vm_compute. reflexivity.
  - apply Hphone. vm_compute. reflexivity.
  - apply Hcomment. vm_compute. reflexivity.
Defined.

(** * The settings and the allowed origins *)

Lemma lstrip_nil (s : pystr) : lstrip s = [] <-> blank s = true.
Proof.
  unfold blank. induction s as [|c s IH]; cbn [lstrip forallb]; [tauto|].
  destruct (isspace c); cbn [andb]; [exact IH|]. split; discriminate.
Qed.

(** [strip] leaves nothing exactly of a blank text. *)
Lemma strip_nil (s : pystr) : strip s = [] <-> blank s = true.
Proof.
  rewrite <- lstrip_nil. unfold strip.
  destruct (lstrip_head s) as [->|(c & t & -> & Hc)].
  - split; reflexivity.
  - rewrite rstrip_cons by exact Hc. split; discriminate.
Qed.

Lemma getenv_strip_given (environ : gmap pystr pystr) (name : pystr) :
  getenv_strip environ name <> [] <-> given environ name.
Proof.
  unfold getenv_strip, given. destruct (environ !! name) as [value|].
  - change (default [] (Some value)) with value. split.
    + intros H. exists value. split; [reflexivity|].
      destruct (blank value) eqn:Hb; [|reflexivity].
      apply strip_nil in Hb. contradiction.
    + intros (v & [= <-] & Hb) Hs. apply strip_nil in Hs. congruence.
  - split.
    + intros H. exfalso. apply H. reflexivity.
    + intros (v & Hv & _). discriminate.
Qed.

Lemma getenv_strip_idem (environ : gmap pystr pystr) (name : pystr) :
  strip (getenv_strip environ name) = getenv_strip environ name.
Proof. apply strip_idem. Qed.

(** What a module that has loaded has read. *)
Lemma load_settings_ok_inv (environ : gmap pystr pystr) (s : Settings.t) :
  load_settings environ = Ok s ->
  s = Settings.Make (getenv_strip environ (py "BOT_TOKEN"))
                    (getenv_strip environ (py "ADMIN_API_TOKEN"))
                    (getenv_strip environ (py "DATABASE_URL"))
                    (getenv_strip environ (py "WEBAPP_ORIGINS"))
  /\ getenv_strip environ (py "BOT_TOKEN") <> []
  /\ getenv_strip environ (py "ADMIN_API_TOKEN") <> []
  /\ getenv_strip environ (py "DATABASE_URL") <> [].
Proof.
  unfold load_settings.
  destruct (nonempty (getenv_strip environ (py "BOT_TOKEN"))) eqn:Hb; [|discriminate].
  destruct (nonempty (getenv_strip environ (py "ADMIN_API_TOKEN"))) eqn:Ha;
    [|discriminate].
  destruct (nonempty (getenv_strip environ (py "DATABASE_URL"))) eqn:Hd; [|discriminate].
  cbn [negb]. intros [= <-]. apply nonempty_spec in Hb, Ha, Hd.
  repeat split; assumption.
Qed.

Lemma load_settings_raises (environ : gmap pystr pystr) (e : exn) :
  load_settings environ = Raise e ->
  (getenv_strip environ (py "BOT_TOKEN") = []
   /\ e = RuntimeError "BOT_TOKEN env is required")
  \/ (getenv_strip environ (py "BOT_TOKEN") <> []
      /\ getenv_strip environ (py "ADMIN_API_TOKEN") = []
      /\ e = RuntimeError "ADMIN_API_TOKEN env is required")
  \/ (getenv_strip environ (py "BOT_TOKEN") <> []
      /\ getenv_strip environ (py "ADMIN_API_TOKEN") <> []
      /\ getenv_strip environ (py "DATABASE_URL") = []
      /\ e = RuntimeError "DATABASE_URL env is required").
Proof.
  unfold load_settings.
  destruct (getenv_strip environ (py "BOT_TOKEN")) as [|b1 b].
  { cbn [nonempty length Nat.eqb negb]. intros [= <-]. left. tauto. }
  destruct (getenv_strip environ (py "ADMIN_API_TOKEN")) as [|a1 a].
  { cbn [nonempty length Nat.eqb negb]. intros [= <-]. right. left.
    repeat split. discriminate. }
  destruct (getenv_strip environ (py "DATABASE_URL")) as [|d1 d].
  { cbn [nonempty length Nat.eqb negb]. intros [= <-]. right. right.
    repeat split; discriminate. }
  cbn [nonempty length Nat.eqb negb]. discriminate.
Qed.

(** X18. The module loads exactly when [BOT_TOKEN], [ADMIN_API_TOKEN] and
    [DATABASE_URL] are set to texts that are not blank; [WEBAPP_ORIGINS] is
    not required. The settings it then holds are the values without the
    white space around them, none of the three empty. When it does not load,
    the error names the first of the three, in this order, that is not
    given. *)
Theorem load_settings_required (environ : gmap pystr pystr) :
  ((exists s, load_settings environ = Ok s)
   <-> given environ (py "BOT_TOKEN") /\ given environ (py "ADMIN_API_TOKEN")
       /\ given environ (py "DATABASE_URL"))
  /\ (forall s, load_settings environ = Ok s ->
        (exists bot admin url,
            environ !! py "BOT_TOKEN" = Some bot
            /\ environ !! py "ADMIN_API_TOKEN" = Some admin
            /\ environ !! py "DATABASE_URL" = Some url
            /\ s = Settings.Make (strip bot) (strip admin) (strip url)
                     (strip (default [] (environ !! py "WEBAPP_ORIGINS"))))
        /\ trimmed (Settings.BOT_TOKEN s) /\ trimmed (Settings.ADMIN_API_TOKEN s)
        /\ trimmed (Settings.DATABASE_URL s)
        /\ strip (Settings.WEBAPP_ORIGINS s) = Settings.WEBAPP_ORIGINS s)
  /\ (forall e, load_settings environ = Raise e ->
        (~ given environ (py "BOT_TOKEN")
         /\ e = RuntimeError "BOT_TOKEN env is required")
        \/ (given environ (py "BOT_TOKEN") /\ ~ given environ (py "ADMIN_API_TOKEN")
            /\ e = RuntimeError "ADMIN_API_TOKEN env is required")
        \/ (given environ (py "BOT_TOKEN") /\ given environ (py "ADMIN_API_TOKEN")
            /\ ~ given environ (py "DATABASE_URL")
            /\ e = RuntimeError "DATABASE_URL env is required")).
Proof.
  split; [|split].
  - rewrite <- !getenv_strip_given. split.
    + intros (s & Hs). apply load_settings_ok_inv in Hs. tauto.
    + intros (Hb & Ha & Hd). apply nonempty_spec in Hb, Ha, Hd.
      unfold load_settings. rewrite Hb, Ha, Hd. eexists. reflexivity.
  - intros s Hs. apply load_settings_ok_inv in Hs as (-> & Hb & Ha & Hd).
    cbn [Settings.BOT_TOKEN Settings.ADMIN_API_TOKEN Settings.DATABASE_URL
         Settings.WEBAPP_ORIGINS].
    split.
    + pose proof (proj1 (getenv_strip_given _ _) Hb) as (bot & Hbot & _).
      pose proof (proj1 (getenv_strip_given _ _) Ha) as (admin & Hadmin & _).
      pose proof (proj1 (getenv_strip_given _ _) Hd) as (url & Hurl & _).
      exists bot, admin, url. unfold getenv_strip. rewrite Hbot, Hadmin, Hurl.
      repeat split.
    + unfold trimmed. rewrite !getenv_strip_idem. tauto.
  - intros e He. rewrite <- !getenv_strip_given.
    destruct (load_settings_raises environ e He)
      as [(Hb & ->)|[(Hb & Ha & ->)|(Hb & Ha & Hd & ->)]].
    + left. split; [|reflexivity]. intros H. exact (H Hb).
    + right. left. split; [exact Hb|]. split; [|reflexivity]. intros H. exact (H Ha).
    + right. right. split; [exact Hb|]. split; [exact Ha|]. split; [|reflexivity].
      intros H. exact (H Hd).
Qed.

(** X19. The admin endpoint is never open. Once the module has loaded, a
    request without [X-Admin-Token] header, or with an empty one, is
    answered 401 and writes nothing, whatever the environment held; and the
    value the handler is called with is refused, with a 401, exactly when
    it is not the value of [ADMIN_API_TOKEN] in the environment without the
    white space around it. *)
Theorem admin_upsert_missing_token (environ : gmap pystr pystr) (s : Settings.t)
    (py_repr : json -> pystr) (pg_int_coerce : json -> option Z)
    (pool : option database) (now : Z) (req : Request) :
  load_settings environ = Ok s ->
  (forall header : option pystr,
      header = None \/ header = Some [] ->
      admin_upsert (Settings.ADMIN_API_TOKEN s) py_repr pg_int_coerce pool now req
        (header_param header)
      = (Raise (HTTPException 401 "Bad admin token"), pool))
  /\ exists raw,
       environ !! py "ADMIN_API_TOKEN" = Some raw
       /\ forall x_admin_token : pystr,
            response_status
              (admin_upsert (Settings.ADMIN_API_TOKEN s) py_repr pg_int_coerce pool
                 now req x_admin_token).1 = 401%Z
            <-> x_admin_token <> strip raw.
Proof.
  intros Hs. apply load_settings_ok_inv in Hs as (-> & _ & Ha & _).
  cbn [Settings.ADMIN_API_TOKEN].
  assert (Hreject : forall token,
            token <> getenv_strip environ (py "ADMIN_API_TOKEN") ->
            admin_upsert (getenv_strip environ (py "ADMIN_API_TOKEN")) py_repr
              pg_int_coerce pool now req token
            = (Raise (HTTPException 401 "Bad admin token"), pool)).
  { intros token Hne. unfold admin_upsert, admin_upsert_run, require_admin.
    rewrite bool_decide_eq_false_2 by exact Hne. reflexivity. }
  split.
  - intros header Hheader. apply Hreject.
    assert (Hempty : header_param header = []) by (destruct Hheader as [->| ->]; reflexivity).
    rewrite Hempty. congruence.
  - pose proof (proj1 (getenv_strip_given _ _) Ha) as (raw & Hraw & _).
    exists raw. split; [exact Hraw|].
    assert (Hadmin : getenv_strip environ (py "ADMIN_API_TOKEN") = strip raw).
    { unfold getenv_strip. rewrite Hraw. reflexivity. }
    rewrite Hadmin in *. intros token. split.
    + intros Hstatus ->.
      pose proof (admin_upsert_run_authorised_status (strip raw) py_repr pg_int_coerce
                    pool now req) as Hrun.
      unfold admin_upsert in Hstatus.
      destruct (admin_upsert_run (strip raw) py_repr pg_int_coerce pool now req
                  (strip raw)); [discriminate|].
      exact (Hrun Hstatus).
    + intros Hne. rewrite (Hreject token Hne). reflexivity.
Qed.

(** ** [split] and [join] *)

Lemma split_char_free (sep : N) (p : pystr) : sep ∉ p -> split_char sep p = [p].
Proof.
  induction p as [|c p IH]; [reflexivity|].
  intros H. apply not_elem_of_cons in H as (Hc & Hp). cbn [split_char].
  rewrite (proj2 (N.eqb_neq c sep)) by congruence. rewrite (IH Hp). reflexivity.
Qed.

Lemma split_char_app (sep : N) (p rest : pystr) :
  sep ∉ p -> split_char sep (p ++ sep :: rest) = p :: split_char sep rest.
Proof.
  induction p as [|c p IH]; cbn [app split_char].
  - intros _. rewrite N.eqb_refl. reflexivity.
  - intros H. apply not_elem_of_cons in H as (Hc & Hp).
    rewrite (proj2 (N.eqb_neq c sep)) by congruence. rewrite (IH Hp). reflexivity.
Qed.

(** [sep.join(l).split(sep)] is [l], for fields without [sep]. *)
Lemma split_char_join (sep : N) (l : list pystr) :
  l <> [] -> Forall (fun p => sep ∉ p) l -> split_char sep (join [sep] l) = l.
Proof.
  induction l as [|p l IH]; [congruence|]. intros _ Hl.
  apply Forall_cons in Hl as (Hp & Hl). destruct l as [|q l].
  - cbn [join]. apply split_char_free. exact Hp.
  - change (join [sep] (p :: q :: l)) with (p ++ sep :: join [sep] (q :: l)).
    rewrite split_char_app by exact Hp. rewrite IH; [reflexivity|discriminate|exact Hl].
Qed.

(** No field of [s.split(sep)] has a [sep]. *)
Lemma split_char_fields (sep : N) (s : pystr) :
  Forall (fun p => sep ∉ p) (split_char sep s).
Proof.
  induction s as [|c s IH]; cbn [split_char].
  - constructor; [apply not_elem_of_nil | constructor].
  - destruct (N.eqb_spec c sep) as [Hc|Hc].
    + constructor; [apply not_elem_of_nil | exact IH].
    + destruct (split_char sep s) as [|f fs].
      * constructor; [|constructor]. apply not_elem_of_cons. split; [congruence|].
        apply not_elem_of_nil.
      * apply Forall_cons in IH as (Hf & Hfs). constructor; [|exact Hfs].
        apply not_elem_of_cons. split; [congruence | exact Hf].
Qed.

(** The fields of a text of separators and white space are blank. *)
Lemma split_char_blank (sep : N) (s : pystr) :
  Forall (fun c => c = sep \/ isspace c = true) s ->
  Forall (fun p => blank p = true) (split_char sep s).
Proof.
  induction 1 as [|c s Hc _ IH]; cbn [split_char].
  - constructor; [reflexivity | constructor].
  - destruct (N.eqb_spec c sep) as [Heq|Hne].
    + constructor; [reflexivity | exact IH].
    + destruct Hc as [Hc|Hc]; [congruence|].
      destruct (split_char sep s) as [|f fs].
      * constructor; [|constructor]. unfold blank. cbn [forallb]. rewrite Hc.
        reflexivity.
      * apply Forall_cons in IH as (Hf & Hfs). constructor; [|exact Hfs].
        unfold blank in *. cbn [forallb]. rewrite Hc, Hf. reflexivity.
Qed.

(** X20. A setting written as origins with commas between them is read
    back as these origins, in their order: for a list that is not empty, of
    origins that are not empty and have neither a comma nor white space
    around them, [origins] of the list joined by commas is the list. *)
Theorem origins_join (l : list pystr) :
  l <> [] ->
  Forall (fun o => o <> [] /\ strip o = o /\ 44 ∉ o) l ->
  origins (join [44] l) = l.
Proof.
  intros Hl Hall. unfold origins.
  assert (Hjoin : join [44] l <> []).
  { destruct l as [|p l]; [congruence|]. apply Forall_cons in Hall as ((Hp & _) & _).
    destruct p as [|c p]; [congruence|]. destruct l; discriminate. }
  destruct (join [44] l) as [|c text] eqn:Htext; [congruence|]. rewrite <- Htext.
  rewrite split_char_join; [|exact Hl|].
  - clear Hl Hjoin Htext. induction Hall as [|o l (Ho & Hstrip & _) _ IH]; [reflexivity|].
    cbn [List.filter]. rewrite Hstrip. rewrite (proj2 (nonempty_spec o) Ho).
    cbn [List.map]. rewrite Hstrip, IH. reflexivity.
  - apply (Forall_impl _ _ _ Hall). tauto.
Qed.

(** X21. The list handed to the CORS middleware: without the setting, the
    one entry [*], every origin; with it, every entry is a field of the
    setting trimmed, is not empty and has neither a comma nor white space
    around it; and a setting of commas and white space only gives the empty
    list, no origin at all. *)
Theorem origins_entries (WEBAPP_ORIGINS : pystr) :
  (WEBAPP_ORIGINS = [] -> origins WEBAPP_ORIGINS = [py "*"])
  /\ (WEBAPP_ORIGINS <> [] ->
      forall o, o ∈ origins WEBAPP_ORIGINS ->
                (exists field, field ∈ split_char 44 WEBAPP_ORIGINS /\ o = strip field)
                /\ o <> [] /\ strip o = o /\ 44 ∉ o)
  /\ (WEBAPP_ORIGINS <> [] ->
      Forall (fun c => c = 44 \/ isspace c = true) WEBAPP_ORIGINS ->
      origins WEBAPP_ORIGINS = []).
Proof.
  split; [intros ->; reflexivity|].
  destruct WEBAPP_ORIGINS as [|c text]; [split; congruence|].
  set (setting := c :: text). split.
  - intros _ o Ho. unfold origins, setting in Ho. fold setting in Ho.
    apply list_elem_of_In, in_map_iff in Ho as (field & <- & Hfield).
    apply filter_In in Hfield as (Hin & Hne). apply list_elem_of_In in Hin.
    split; [exists field; tauto|]. split; [apply nonempty_spec; exact Hne|].
    split; [apply strip_idem|]. intros Hcomma. apply strip_elem in Hcomma.
    pose proof (split_char_fields 44 setting) as Hfree.
    rewrite Forall_forall in Hfree. exact (Hfree field Hin Hcomma).
  - intros _ Hall. unfold origins, setting. fold setting.
    apply split_char_blank in Hall. induction Hall as [|f fs Hf _ IH]; [reflexivity|].
    cbn [List.filter]. apply strip_nil in Hf. rewrite Hf. exact IH.
Qed.

(** The sample environment loads: the space before the bot token is gone. *)
Lemma load_settings_required_witness :
  exists s, load_settings sample_environ = Ok s
            /\ Settings.BOT_TOKEN s = sample_token
            /\ strip (Settings.BOT_TOKEN s) = Settings.BOT_TOKEN s.
Proof.
  pose proof (load_settings_required sample_environ) as (Hloads & Hheld & _).
  destruct (proj2 Hloads) as (s & Hs).
  { repeat split; eexists; (split; [vm_compute; reflexivity | vm_compute; reflexivity]). }
  exists s. split; [exact Hs|].
  destruct (Hheld s Hs) as ((bot & admin & url & Hbot & _ & _ & ->) & (_ & Htrim) & _).
  split; [|exact Htrim].
  vm_compute in Hbot. injection Hbot as <-. vm_compute. reflexivity.
Defined.

(** The sample environment, whose admin token ends in a line feed: a
    request without the header is refused, and the token without the line
    feed is not. *)
Lemma admin_upsert_missing_token_witness :
  admin_upsert sample_admin_token sample_repr sample_coerce (Some sample_orders) 500
    sample_request (header_param None)
  = (Raise (HTTPException 401 "Bad admin token"), Some sample_orders)
  /\ response_status
       (admin_upsert sample_admin_token sample_repr sample_coerce
          (Some sample_orders) 500 sample_request sample_admin_token).1 <> 401%Z.
Proof.
  destruct (admin_upsert_missing_token sample_environ
              (Settings.Make sample_token sample_admin_token
                 (py "postgres://db/shetka")
                 (py "https://a.example, https://b.example,"))
              sample_repr sample_coerce (Some sample_orders) 500 sample_request)
    as (Hmissing & raw & Hraw & Hiff).
  - vm_compute. reflexivity.
  - split.
    + apply Hmissing. left. reflexivity.
    + intros Hstatus. apply (proj1 (Hiff sample_admin_token)) in Hstatus.
      apply Hstatus. vm_compute in Hraw. injection Hraw as <-.
      vm_compute. reflexivity.
Defined.

(** Two origins. *)
Lemma origins_join_witness :
  origins (join [44] [py "https://a.example"; py "https://b.example"])
  = [py "https://a.example"; py "https://b.example"].
Proof.
  apply (origins_join [py "https://a.example"; py "https://b.example"]).
  - discriminate.
  - constructor; [|constructor; [|constructor]];
      (split; [discriminate|]; split; [vm_compute; reflexivity|];
       refine (bool_decide_unpack _ _); vm_compute; exact I).
Defined.

(** The origins of the sample environment, and a setting of one comma. *)
Lemma origins_entries_witness :
  (forall o, o ∈ origins (py "https://a.example, https://b.example,") ->
             o <> [] /\ strip o = o /\ (44 ∉ o))
  /\ origins [44] = [].
Proof.
  pose proof (origins_entries (py "https://a.example, https://b.example,"))
    as (_ & Hentries & _).
  pose proof (origins_entries [44]) as (_ & _ & Hcommas).
  split.
  - intros o Ho. apply (Hentries ltac:(discriminate) o Ho).
  - apply Hcommas; [discriminate|]. constructor; [left; reflexivity | constructor].
Defined.

(** * Required fields that are not texts *)

Section NullFields.

Variable ADMIN_API_TOKEN : pystr.
Variable py_repr : json -> pystr.
Variable pg_int_coerce : json -> option Z.

Lemma required_field_null (members : list (pystr * json)) (key : pystr) :
  dict_get key members = Some JNull ->
  required_field py_repr members key = [78; 111; 110; 101].
Proof. intros H. unfold required_field. rewrite H. vm_compute. reflexivity. Qed.

(** X22. A required field that is [null] is not a missing one: [str] makes
    the text [None] of it. A request whose [public_no], [item] and [status]
    are [null] is not answered 400, and when it succeeds it has stored an
    order whose number, item and status are the text [None]. *)
Theorem admin_upsert_null_fields (pool : option database) (now : Z)
    (req : Request) (members : list (pystr * json)) :
  req_json req = Some (JObj members) ->
  dict_get (py "public_no") members = Some JNull ->
  dict_get (py "item") members = Some JNull ->
  dict_get (py "status") members = Some JNull ->
  response_status
    (admin_upsert ADMIN_API_TOKEN py_repr pg_int_coerce pool now req
       ADMIN_API_TOKEN).1 <> 400%Z
  /\ forall db',
       admin_upsert ADMIN_API_TOKEN py_repr pg_int_coerce pool now req ADMIN_API_TOKEN
       = (Ok tt, Some db') ->
       exists r, r ∈ orders db' /\ public_no r = py "None" /\ item r = py "None"
                 /\ status r = py "None".
Proof.
  intros Hreq Hno Hitem Hstatus.
  apply required_field_null in Hno, Hitem, Hstatus. split.
  - unfold admin_upsert.
    rewrite (admin_upsert_run_authorised _ _ _ pool now req members Hreq).
    rewrite Hno, Hitem, Hstatus.
    destruct (store_order py_repr pg_int_coerce pool now members) as [db'|e] eqn:Hstore;
      cbn [fst response_status]; [discriminate|].
    rewrite (unhandled_status e (store_order_raises _ _ _ _ _ _ Hstore)). discriminate.
  - intros db' Hok.
    apply admin_upsert_ok_inv in Hok
      as (members' & entries & p & values & _ & Hreq' & _ & _ & _ & _ & _ & Hv & Hdb).
    rewrite Hreq in Hreq'. injection Hreq' as <-. injection Hdb as ->.
    pose proof (bind_upsert_values pg_int_coerce _ _ _ _ _ _ _ _ _ Hv)
      as (H1 & _ & _ & H4 & _ & H6 & _).
    apply pg_text_ok in H1, H4, H6.
    destruct (proj1 (upsert_order_stored p now values)) as (r & Hr & Hrno).
    destruct (upsert_order_stored_row p now values r Hr Hrno)
      as (_ & _ & Hritem & _ & Hrstatus & _).
    exists r. split; [exact Hr|].
    change (py "None") with [78; 111; 110; 101]. repeat split; congruence.
Qed.

End NullFields.

(** The request with the three [null]s on an empty table. *)
Lemma admin_upsert_null_fields_witness :
  response_status
    (admin_upsert sample_admin_token sample_repr sample_coerce
       (Some {| orders := []; orders_id_seq := 0 |}) 500 null_request
       sample_admin_token).1 <> 400%Z
  /\ exists r, r ∈ orders null_stored /\ public_no r = py "None"
               /\ item r = py "None" /\ status r = py "None".
Proof.
  pose proof (admin_upsert_null_fields sample_admin_token sample_repr sample_coerce
                (Some {| orders := []; orders_id_seq := 0 |}) 500 null_request
                null_members eq_refl eq_refl eq_refl eq_refl) as (Hstatus & Hstored).
  split; [exact Hstatus|]. apply Hstored. vm_compute. reflexivity.
Defined.
